(** * CycleTracker: ride statistics and session lifecycle

    A shallow embedding of the statistics hook ([src/hooks/useStats.js]),
    the tracking context (the [TrackingProvider] component) and the
    tracking service ([src/api/tracking.js]), followed by the properties
    of the specification that concern them.

    Numbers.  A JavaScript number is idealised as a real number: [+], [-],
    [*], [/] and the comparisons are those of [R], [Math.sin], [Math.cos],
    [Math.sqrt] and [Math.PI] are the functions of the Standard Library,
    and [Math.atan2] is defined from [atan] by quadrants.  Rounding error
    of binary64 arithmetic is therefore not part of the model; [NaN] does
    not occur, and the one use of [Infinity] (the "no minimum yet"
    sentinel) is an explicit constructor.  A decimal string produced by
    [toFixed] is represented by the number it denotes. *)

From Stdlib Require Import Reals Lra Lia List ZArith Bool.
Import ListNotations.
Open Scope R_scope.

(* ================================================================= *)
(** ** JavaScript numeric primitives *)

Module JS.

Definition Rltb (x y : R) : bool := if Rlt_dec x y then true else false.
Definition Reqb (x y : R) : bool := if Req_dec_T x y then true else false.

(** Truthiness of a number: every number but zero. *)
Definition truthy (x : R) : bool := negb (Reqb x 0).

(** A field that may be [null] or [undefined]. *)
Definition truthy_opt (x : option R) : bool :=
  match x with Some v => truthy v | None => false end.

(** [x || d] on a possibly missing number. *)
Definition or_default (x : option R) (d : R) : R :=
  match x with
  | Some v => if truthy v then v else d
  | None => d
  end.

(** [x || d] on a number that is present. *)
Definition or_num (x d : R) : R := if truthy x then x else d.

(** [Math.floor]. *)
Definition Math_floor (x : R) : Z := Int_part x.

(** [Math.round]: the nearest integer, ties towards [+Infinity]. *)
Definition Math_round (x : R) : Z := Int_part (x + / 2).

(** [x.toFixed(f)]: the sign is split off, the magnitude is rounded to
    the nearest multiple of [10^-f] (the larger one on a tie); from
    [10^21] on the number is printed as it is. *)
Definition toFixed (f : nat) (x : R) : R :=
  let ax := Rabs x in
  let v := if Rltb ax (10 ^ 21)
           then IZR (Int_part (ax * 10 ^ f + / 2)) / 10 ^ f
           else ax in
  if Rltb x 0 then - v else v.

(** [Math.atan2(y, x)]. *)
Definition Math_atan2 (y x : R) : R :=
  if Rltb 0 x then atan (y / x)
  else if Rltb x 0 then
    (if Rltb y 0 then atan (y / x) - PI else atan (y / x) + PI)
  else if Rltb 0 y then PI / 2
  else if Rltb y 0 then - (PI / 2)
  else 0.

(** A number or [Infinity]. *)
Inductive ext : Type :=
| Fin (r : R)
| Infinity.

(** [Math.min(m, x)] for a finite [x]. *)
Definition ext_min (m : ext) (x : R) : ext :=
  match m with
  | Fin r => Fin (Rmin r x)
  | Infinity => Fin x
  end.

End JS.

Import JS.

(* ================================================================= *)
(** ** Shared data *)

(** A point of a stored route: [speed] and [altitude] have already been
    defaulted by [|| 0] when the point was built. *)
Record LocationPoint : Type := mkPoint {
  latitude : R;
  longitude : R;
  timestamp : R;
  speed : R;
  altitude : R
}.

(** [location.coords] as the location source delivers it: speed and
    altitude may be [null]. *)
Record Coords : Type := mkCoords {
  c_latitude : R;
  c_longitude : R;
  c_speed : option R;
  c_altitude : option R
}.

Record Location : Type := mkLocation {
  coords : Coords;
  loc_timestamp : R
}.

(** The object literal
    [{latitude, longitude, timestamp, speed: speed || 0, altitude: altitude || 0}]
    built from a delivered location by all three producers of points. *)
Definition locationData (location : Location) : LocationPoint :=
  {| latitude := c_latitude (coords location);
     longitude := c_longitude (coords location);
     timestamp := loc_timestamp location;
     speed := or_default (c_speed (coords location)) 0;
     altitude := or_default (c_altitude (coords location)) 0 |}.

Inductive DistanceUnit : Type := km | mi.

Definition unit_eqb (a b : DistanceUnit) : bool :=
  match a, b with
  | km, km | mi, mi => true
  | _, _ => false
  end.

(* ================================================================= *)
(** ** The statistics hook, [useStats] *)

Module UseStats.

Record Pace : Type := mkPace {
  minutes : Z;
  seconds : Z
}.

(** The object handed to [setStats]; a [toFixed] string is the number it
    denotes. *)
Record Stats : Type := mkStats {
  distance : R;
  averageSpeed : R;
  maxSpeed : R;
  minSpeed : R;
  elevationGain : R;
  caloriesBurned : Z;
  speedData : list (R * R);
  altitudeData : list (R * R);
  pacesData : list (R * R)
}.

(** The local variables of the loop of [processRouteData]. *)
Record Acc : Type := mkAcc {
  a_totalDistance : R;
  a_maxSpeed : R;
  a_minSpeed : ext;
  a_speedSum : R;
  a_speedCount : nat;
  a_speedData : list (R * R);
  a_altitudeData : list (R * R);
  a_pacesData : list (R * R)
}.

Section Hook.

(** [user?.settings?.distanceUnit || unit]. *)
Variable preferredUnit : DistanceUnit.
(** [user?.settings?.weight], absent when there is no user, no settings
    or no weight. *)
Variable userWeight : option R.
(** The [duration] option of the hook, in seconds. *)
Variable duration : R.

Definition deg2rad (deg : R) : R := deg * (PI / 180).

Definition calculateDistance (lat1 lon1 lat2 lon2 : R) : R :=
  if negb (truthy lat1) || negb (truthy lon1)
     || negb (truthy lat2) || negb (truthy lon2) then 0
  else
    let R_earth := 6371 in
    let dLat := deg2rad (lat2 - lat1) in
    let dLon := deg2rad (lon2 - lon1) in
    let a :=
      sin (dLat / 2) * sin (dLat / 2) +
      cos (deg2rad lat1) * cos (deg2rad lat2) *
      sin (dLon / 2) * sin (dLon / 2) in
    let c := 2 * Math_atan2 (sqrt a) (sqrt (1 - a)) in
    let distanceKm := R_earth * c in
    if unit_eqb preferredUnit mi then distanceKm * 0.621371 else distanceKm.

Definition formatSpeed (speedMs : R) : R :=
  if negb (truthy speedMs) then 0
  else
    let speedKmh := speedMs * 3.6 in
    if unit_eqb preferredUnit mi then speedKmh * 0.621371 else speedKmh.

Definition metValue (averageSpeedKmh : R) : R :=
  if Rltb averageSpeedKmh 16 then 4.0
  else if Rltb averageSpeedKmh 20 then 6.8
  else if Rltb averageSpeedKmh 25 then 8.0
  else 10.0.

(** The [distanceKm] argument is not used by the source either. *)
Definition calculateCalories (durationSec distanceKm averageSpeedKmh : R) : Z :=
  let metValue := metValue averageSpeedKmh in
  let weight := or_default userWeight 70 in
  let durationHr := durationSec / 3600 in
  Math_round (metValue * 3.5 * weight * durationHr / 200 * 100).

(** The loop of [calculateElevationGain], from index [i] with
    [routeData[i-1] = prev]. *)
Fixpoint elevationLoop (totalGain : R) (prev : LocationPoint)
    (rest : list LocationPoint) : R :=
  match rest with
  | [] => totalGain
  | cur :: rest' =>
      let currentAlt := or_num (altitude cur) 0 in
      let prevAlt := or_num (altitude prev) 0 in
      let totalGain' :=
        if Rltb prevAlt currentAlt
        then totalGain + (currentAlt - prevAlt)
        else totalGain in
      elevationLoop totalGain' cur rest'
  end.

Definition calculateElevationGain (routeData : list LocationPoint) : R :=
  match routeData with
  | [] => 0
  | first :: rest => elevationLoop 0 first rest
  end.

(** [None] is the [Infinity] the source returns for a zero speed; the
    [formatted] string of the object is left out. *)
Definition calculatePace (speedKmh : R) : option Pace :=
  if negb (truthy speedKmh) then None
  else
    let minutesPerUnit := 60 / speedKmh in
    let minutes := Math_floor minutesPerUnit in
    let seconds := Math_floor ((minutesPerUnit - IZR minutes) * 60) in
    Some {| minutes := minutes; seconds := seconds |}.

Definition acc0 : Acc :=
  {| a_totalDistance := 0; a_maxSpeed := 0; a_minSpeed := Infinity;
     a_speedSum := 0; a_speedCount := 0;
     a_speedData := []; a_altitudeData := []; a_pacesData := [] |}.

(** One iteration of the [for] loop of [processRouteData]. *)
Definition loopBody (acc : Acc) (prevPoint currentPoint : LocationPoint) : Acc :=
  let segmentDistance :=
    calculateDistance (latitude prevPoint) (longitude prevPoint)
                      (latitude currentPoint) (longitude currentPoint) in
  if Rltb 0.1 segmentDistance then acc (* continue *)
  else
    let totalDistance := a_totalDistance acc + segmentDistance in
    let speed :=
      if truthy (speed currentPoint) then formatSpeed (speed currentPoint) else 0 in
    let acc1 :=
      if Rltb 0 speed then
        {| a_totalDistance := totalDistance;
           a_maxSpeed := Rmax (a_maxSpeed acc) speed;
           a_minSpeed := ext_min (a_minSpeed acc) speed;
           a_speedSum := a_speedSum acc + speed;
           a_speedCount := S (a_speedCount acc);
           a_speedData :=
             a_speedData acc ++ [(timestamp currentPoint, toFixed 1 speed)];
           a_altitudeData := a_altitudeData acc;
           a_pacesData :=
             match calculatePace speed with
             | Some pace =>
                 if (minutes pace <? 60)%Z
                 then a_pacesData acc ++
                      [(timestamp currentPoint,
                        IZR (minutes pace) + IZR (seconds pace) / 60)]
                 else a_pacesData acc
             | None => a_pacesData acc
             end |}
      else
        {| a_totalDistance := totalDistance;
           a_maxSpeed := a_maxSpeed acc;
           a_minSpeed := a_minSpeed acc;
           a_speedSum := a_speedSum acc;
           a_speedCount := a_speedCount acc;
           a_speedData := a_speedData acc;
           a_altitudeData := a_altitudeData acc;
           a_pacesData := a_pacesData acc |} in
    if truthy (altitude currentPoint) then
      {| a_totalDistance := a_totalDistance acc1;
         a_maxSpeed := a_maxSpeed acc1;
         a_minSpeed := a_minSpeed acc1;
         a_speedSum := a_speedSum acc1;
         a_speedCount := a_speedCount acc1;
         a_speedData := a_speedData acc1;
         a_altitudeData :=
           a_altitudeData acc1 ++
           [(timestamp currentPoint, toFixed 1 (altitude currentPoint))];
         a_pacesData := a_pacesData acc1 |}
    else acc1.

(** The loop from index [i] on, with [routeData[i-1] = prevPoint]. *)
Fixpoint routeLoop (acc : Acc) (prevPoint : LocationPoint)
    (rest : list LocationPoint) : Acc :=
  match rest with
  | [] => acc
  | currentPoint :: rest' =>
      routeLoop (loopBody acc prevPoint currentPoint) currentPoint rest'
  end.

Definition zeroStats : Stats :=
  {| distance := 0; averageSpeed := 0; maxSpeed := 0; minSpeed := 0;
     elevationGain := 0; caloriesBurned := 0%Z;
     speedData := []; altitudeData := []; pacesData := [] |}.

(** The average the loop's sums give, before it is formatted. *)
Definition averageOf (acc : Acc) : R :=
  if (0 <? a_speedCount acc)%nat
  then a_speedSum acc / INR (a_speedCount acc)
  else 0.

(** [processRouteData]: the argument of its [setStats] call. *)
Definition processRouteData (routeData : list LocationPoint) : Stats :=
  match routeData with
  | [] | [_] => zeroStats
  | first :: rest =>
      let acc := routeLoop acc0 first rest in
      let averageSpeed := averageOf acc in
      let elevationGain := calculateElevationGain routeData in
      let caloriesBurned :=
        calculateCalories duration (a_totalDistance acc) averageSpeed in
      {| distance := toFixed 2 (a_totalDistance acc);
         averageSpeed := toFixed 1 averageSpeed;
         maxSpeed := toFixed 1 (a_maxSpeed acc);
         minSpeed :=
           match a_minSpeed acc with
           | Infinity => 0
           | Fin m => toFixed 1 m
           end;
         elevationGain := toFixed 1 elevationGain;
         caloriesBurned := caloriesBurned;
         speedData := a_speedData acc;
         altitudeData := a_altitudeData acc;
         pacesData := a_pacesData acc |}
  end.

(** [convertDistance]: the two converting branches return a [toFixed(2)]
    string, the last one the argument itself. *)
Definition convertDistance (distance : R) (toUnit : DistanceUnit) : R :=
  if unit_eqb toUnit km && unit_eqb preferredUnit mi
  then toFixed 2 (distance / 0.621371)
  else if unit_eqb toUnit mi && unit_eqb preferredUnit km
  then toFixed 2 (distance * 0.621371)
  else distance.

End Hook.

End UseStats.

(* ================================================================= *)
(** ** The tracking context, [TrackingProvider] *)

Module TrackingContext.

(** The [stats] state of the provider. *)
Record Stats : Type := mkStats {
  distance : R;
  currentSpeed : R;
  averageSpeed : R;
  maxSpeed : R;
  duration : R;
  startTime : option R;
  endTime : option R
}.

Inductive RideStatus : Type := active | paused | completed | discarded.

(** A document of the [rides] collection: the fields the provider writes. *)
Record RideDoc : Type := mkRide {
  doc_status : RideStatus;
  doc_duration : option R;
  doc_distance : option R;
  doc_averageSpeed : option R;
  doc_maxSpeed : option R;
  doc_route : option (list LocationPoint)
}.

(** React state and refs of the provider.  A function of the provider
    reads the state of the render that is current when it is called. *)
Record State : Type := mkState {
  isTracking : bool;
  currentLocation : option LocationPoint;
  route : list LocationPoint;
  stats : Stats;
  locationSubscription : option nat;
  activityDocRef : option nat;
  startTimeRef : option R;
  (** only [latitude] and [longitude] of the ref are ever read, so the
      raw [location.coords] stored by [startTracking] is kept as the
      point built from it *)
  lastLocationRef : option LocationPoint
}.

(** What lives outside the provider: the document store, the live
    location watchers and the alerts shown. *)
Record World : Type := mkWorld {
  rides : list RideDoc;
  watchers : list nat;
  next_handle : nat;
  alerts : list (nat * nat)
}.

(** How the collaborators answer during one call. *)
Record Env : Type := mkEnv {
  user : option nat;
  permission_granted : bool;
  position : option Location;      (* [None]: getCurrentPositionAsync rejects *)
  watch_ok : bool;                 (* watchPositionAsync resolves *)
  addDoc_ok : bool;
  updateDoc_ok : bool;
  now : R                          (* [new Date()], in milliseconds *)
}.

(** Alerts, by title and message. *)
Definition alert_error_message : nat * nat := (0%nat, 0%nat).
Definition alert_failed_pause : nat * nat := (0%nat, 1%nat).
Definition alert_failed_resume : nat * nat := (0%nat, 2%nat).
Definition alert_failed_save : nat * nat := (0%nat, 3%nat).
Definition alert_failed_discard : nat * nat := (0%nat, 4%nat).

Definition Alert (a : nat * nat) (w : World) : World :=
  {| rides := rides w; watchers := watchers w;
     next_handle := next_handle w; alerts := alerts w ++ [a] |}.

Definition initialStats : Stats :=
  {| distance := 0; currentSpeed := 0; averageSpeed := 0; maxSpeed := 0;
     duration := 0; startTime := None; endTime := None |}.

Definition initialState : State :=
  {| isTracking := false; currentLocation := None; route := [];
     stats := initialStats; locationSubscription := None;
     activityDocRef := None; startTimeRef := None; lastLocationRef := None |}.

Definition initialWorld : World :=
  {| rides := []; watchers := []; next_handle := 0; alerts := [] |}.

Definition deg2rad (deg : R) : R := deg * (PI / 180).

Definition calculateDistance (lat1 lon1 lat2 lon2 : R) : R :=
  if negb (truthy lat1) || negb (truthy lon1)
     || negb (truthy lat2) || negb (truthy lon2) then 0
  else
    let R_earth := 6371 in
    let dLat := deg2rad (lat2 - lat1) in
    let dLon := deg2rad (lon2 - lon1) in
    let a :=
      sin (dLat / 2) * sin (dLat / 2) +
      cos (deg2rad lat1) * cos (deg2rad lat2) *
      sin (dLon / 2) * sin (dLon / 2) in
    let c := 2 * Math_atan2 (sqrt a) (sqrt (1 - a)) in
    let distance := R_earth * c in
    distance.

(** State setters: each replaces one field. *)
Definition setIsTracking (b : bool) (s : State) : State :=
  {| isTracking := b; currentLocation := currentLocation s; route := route s;
     stats := stats s; locationSubscription := locationSubscription s;
     activityDocRef := activityDocRef s; startTimeRef := startTimeRef s;
     lastLocationRef := lastLocationRef s |}.

Definition setCurrentLocation (l : option LocationPoint) (s : State) : State :=
  {| isTracking := isTracking s; currentLocation := l; route := route s;
     stats := stats s; locationSubscription := locationSubscription s;
     activityDocRef := activityDocRef s; startTimeRef := startTimeRef s;
     lastLocationRef := lastLocationRef s |}.

Definition setRoute (f : list LocationPoint -> list LocationPoint) (s : State) : State :=
  {| isTracking := isTracking s; currentLocation := currentLocation s;
     route := f (route s);
     stats := stats s; locationSubscription := locationSubscription s;
     activityDocRef := activityDocRef s; startTimeRef := startTimeRef s;
     lastLocationRef := lastLocationRef s |}.

Definition setStats (f : Stats -> Stats) (s : State) : State :=
  {| isTracking := isTracking s; currentLocation := currentLocation s;
     route := route s;
     stats := f (stats s); locationSubscription := locationSubscription s;
     activityDocRef := activityDocRef s; startTimeRef := startTimeRef s;
     lastLocationRef := lastLocationRef s |}.

Definition setSubscription (h : option nat) (s : State) : State :=
  {| isTracking := isTracking s; currentLocation := currentLocation s;
     route := route s;
     stats := stats s; locationSubscription := h;
     activityDocRef := activityDocRef s; startTimeRef := startTimeRef s;
     lastLocationRef := lastLocationRef s |}.

Definition setActivityDocRef (d : option nat) (s : State) : State :=
  {| isTracking := isTracking s; currentLocation := currentLocation s;
     route := route s;
     stats := stats s; locationSubscription := locationSubscription s;
     activityDocRef := d; startTimeRef := startTimeRef s;
     lastLocationRef := lastLocationRef s |}.

Definition setStartTimeRef (t : option R) (s : State) : State :=
  {| isTracking := isTracking s; currentLocation := currentLocation s;
     route := route s;
     stats := stats s; locationSubscription := locationSubscription s;
     activityDocRef := activityDocRef s; startTimeRef := t;
     lastLocationRef := lastLocationRef s |}.

Definition setLastLocationRef (l : option LocationPoint) (s : State) : State :=
  {| isTracking := isTracking s; currentLocation := currentLocation s;
     route := route s;
     stats := stats s; locationSubscription := locationSubscription s;
     activityDocRef := activityDocRef s; startTimeRef := startTimeRef s;
     lastLocationRef := l |}.

(** [locationSubscription.current.remove()] followed by clearing the ref,
    when the ref is set. *)
Definition removeSubscription (s : State) (w : World) : State * World :=
  match locationSubscription s with
  | Some h =>
      (setSubscription None s,
       {| rides := rides w;
          watchers := filter (fun h' => negb (Nat.eqb h' h)) (watchers w);
          next_handle := next_handle w; alerts := alerts w |})
  | None => (s, w)
  end.

(** [Location.watchPositionAsync(..., handleLocationUpdate)] resolving. *)
Definition watchPosition (w : World) : nat * World :=
  (next_handle w,
   {| rides := rides w; watchers := next_handle w :: watchers w;
      next_handle := S (next_handle w); alerts := alerts w |}).

(** [addDoc(activitiesRef, {startTime, status: 'active', createdAt})]. *)
Definition addDoc (w : World) : nat * World :=
  (length (rides w),
   {| rides := rides w ++
        [{| doc_status := active; doc_duration := None; doc_distance := None;
            doc_averageSpeed := None; doc_maxSpeed := None;
            doc_route := None |}];
      watchers := watchers w; next_handle := next_handle w;
      alerts := alerts w |}).

Fixpoint update_nth {A} (n : nat) (f : A -> A) (l : list A) : list A :=
  match l, n with
  | [], _ => []
  | x :: l', O => f x :: l'
  | x :: l', S n' => x :: update_nth n' f l'
  end.

Definition updateDoc (ref : nat) (f : RideDoc -> RideDoc) (w : World) : World :=
  {| rides := update_nth ref f (rides w); watchers := watchers w;
     next_handle := next_handle w; alerts := alerts w |}.

(** The function given to [setStats] by [updateStats], and the ref it
    writes.  [now] is the [new Date()] read inside. *)
Definition updateStats (now : R) (newLocation : LocationPoint) (s : State) : State :=
  let prevStats := stats s in
  let newDistance :=
    match lastLocationRef s with
    | Some last =>
        let segmentDistance :=
          calculateDistance (latitude last) (longitude last)
                            (latitude newLocation) (longitude newLocation) in
        if Rltb segmentDistance 0.1
        then distance prevStats + segmentDistance
        else distance prevStats
    | None => distance prevStats
    end in
  let currentSpeed :=
    if truthy (speed newLocation) then speed newLocation * 3.6 else 0 in
  let maxSpeed := Rmax (maxSpeed prevStats) currentSpeed in
  let duration :=
    (now - match startTimeRef s with Some t => t | None => 0 end) / 1000 in
  let averageSpeed :=
    if Rltb 0 duration then newDistance / (duration / 3600) else 0 in
  setLastLocationRef (Some newLocation)
    (setStats (fun _ =>
       {| distance := newDistance; currentSpeed := currentSpeed;
          averageSpeed := averageSpeed; maxSpeed := maxSpeed;
          duration := duration; startTime := startTime prevStats;
          endTime := None |}) s).

(** The callback of the location watcher. *)
Definition handleLocationUpdate (now : R) (location : Location) (s : State) : State :=
  let locationData := locationData location in
  let s1 := setCurrentLocation (Some locationData) s in
  let s2 := setRoute (fun prevRoute => prevRoute ++ [locationData]) s1 in
  updateStats now locationData s2.

Definition startTracking (e : Env) (s : State) (w : World) : State * World :=
  if isTracking s then (s, w)
  else if negb (permission_granted e) then (s, Alert alert_error_message w)
  else
    match position e with
    | None => (s, Alert alert_error_message w)
    | Some location =>
        let s1 := setRoute (fun _ => []) s in
        let s2 := setStats (fun _ =>
          {| distance := 0; currentSpeed := 0; averageSpeed := 0;
             maxSpeed := 0; duration := 0; startTime := Some (now e);
             endTime := None |}) s1 in
        let created :=
          match user e with
          | Some _ =>
              if addDoc_ok e
              then let '(ref, w') := addDoc w in
                   Some (setActivityDocRef (Some ref) s2, w')
              else None
          | None => Some (s2, w)
          end in
        match created with
        | None => (s2, Alert alert_error_message w)
        | Some (s3, w3) =>
            let s4 := setStartTimeRef (Some (now e)) s3 in
            let s5 := setLastLocationRef (Some (locationData location)) s4 in
            let s6 := setRoute (fun _ => [locationData location]) s5 in
            let s7 := setCurrentLocation (Some (locationData location)) s6 in
            if watch_ok e then
              let '(h, w4) := watchPosition w3 in
              (setIsTracking true (setSubscription (Some h) s7), w4)
            else (s7, Alert alert_error_message w3)
        end
    end.

Definition pauseTracking (e : Env) (s : State) (w : World) : State * World :=
  if negb (isTracking s) then (s, w)
  else
    let '(s1, w1) := removeSubscription s w in
    let s2 := setIsTracking false s1 in
    match user e, activityDocRef s2 with
    | Some _, Some ref =>
        if updateDoc_ok e then
          (s2, updateDoc ref (fun d =>
             {| doc_status := paused;
                doc_duration := Some (duration (stats s));
                doc_distance := Some (distance (stats s));
                doc_averageSpeed := Some (averageSpeed (stats s));
                doc_maxSpeed := Some (maxSpeed (stats s));
                doc_route := doc_route d |}) w1)
        else (s2, Alert alert_failed_pause w1)
    | _, _ => (s2, w1)
    end.

Definition resumeTracking (e : Env) (s : State) (w : World) : State * World :=
  if isTracking s then (s, w)
  else if negb (watch_ok e) then (s, Alert alert_failed_resume w)
  else
    let '(h, w1) := watchPosition w in
    let s2 := setIsTracking true (setSubscription (Some h) s) in
    match user e, activityDocRef s2 with
    | Some _, Some ref =>
        if updateDoc_ok e then
          (s2, updateDoc ref (fun d =>
             {| doc_status := active;
                doc_duration := doc_duration d;
                doc_distance := doc_distance d;
                doc_averageSpeed := doc_averageSpeed d;
                doc_maxSpeed := doc_maxSpeed d;
                doc_route := doc_route d |}) w1)
        else (s2, Alert alert_failed_resume w1)
    | _, _ => (s2, w1)
    end.

(** What [stopTracking] returns on success: [{...stats, endTime, route}]. *)
Record StopResult : Type := mkStopResult {
  r_stats : Stats;
  r_endTime : R;
  r_route : list LocationPoint
}.

Definition stopTracking (e : Env) (s : State) (w : World)
  : option StopResult * State * World :=
  let '(s1, w1) := removeSubscription s w in
  let endTime := now e in
  let s2 := setStats (fun prev =>
    {| distance := distance prev; currentSpeed := currentSpeed prev;
       averageSpeed := averageSpeed prev; maxSpeed := maxSpeed prev;
       duration := duration prev; startTime := startTime prev;
       endTime := Some endTime |}) s1 in
  let saved :=
    match user e, activityDocRef s2 with
    | Some _, Some ref =>
        match startTime (stats s) with
        | None => None                  (* [stats.startTime.toISOString()] throws *)
        | Some _ =>
            if updateDoc_ok e then
              Some (updateDoc ref (fun d =>
                {| doc_status := completed;
                   doc_duration := Some (duration (stats s));
                   doc_distance := Some (distance (stats s));
                   doc_averageSpeed := Some (averageSpeed (stats s));
                   doc_maxSpeed := Some (maxSpeed (stats s));
                   doc_route := Some (route s) |}) w1)
            else None
        end
    | _, _ => Some w1
    end in
  match saved with
  | None => (None, s2, Alert alert_failed_save w1)
  | Some w2 =>
      let s3 := setIsTracking false s2 in
      let s4 := setActivityDocRef None s3 in
      let s5 := setStartTimeRef None s4 in
      let s6 := setLastLocationRef None s5 in
      (Some {| r_stats := stats s; r_endTime := endTime; r_route := route s |},
       s6, w2)
  end.

Definition discardTracking (e : Env) (s : State) (w : World) : State * World :=
  let '(s1, w1) := removeSubscription s w in
  let marked :=
    match user e, activityDocRef s1 with
    | Some _, Some ref =>
        if updateDoc_ok e then
          Some (updateDoc ref (fun d =>
            {| doc_status := discarded;
               doc_duration := doc_duration d;
               doc_distance := doc_distance d;
               doc_averageSpeed := doc_averageSpeed d;
               doc_maxSpeed := doc_maxSpeed d;
               doc_route := doc_route d |}) w1)
        else None
    | _, _ => Some w1
    end in
  match marked with
  | None => (s1, Alert alert_failed_discard w1)
  | Some w2 =>
      let s2 := setIsTracking false s1 in
      let s3 := setRoute (fun _ => []) s2 in
      let s4 := setStats (fun _ => initialStats) s3 in
      let s5 := setActivityDocRef None s4 in
      let s6 := setStartTimeRef None s5 in
      (setLastLocationRef None s6, w2)
  end.

(** The watcher's callback folded over a sequence of deliveries, each
    with the clock reading at its arrival. *)
Fixpoint deliver (samples : list (R * Location)) (s : State) : State :=
  match samples with
  | [] => s
  | (now, location) :: rest => deliver rest (handleLocationUpdate now location s)
  end.

(** One event in the life of the provider: a call of one of its
    functions, or a location handed to the watcher's callback.  The
    platform calls the callback only while a watcher is live. *)
Inductive Op : Type :=
| OpStart (e : Env)
| OpPause (e : Env)
| OpResume (e : Env)
| OpStop (e : Env)
| OpDiscard (e : Env)
| OpSample (now : R) (location : Location).

Definition step (op : Op) (sw : State * World) : State * World :=
  let '(s, w) := sw in
  match op with
  | OpStart e => startTracking e s w
  | OpPause e => pauseTracking e s w
  | OpResume e => resumeTracking e s w
  | OpStop e => let '(_, s', w') := stopTracking e s w in (s', w')
  | OpDiscard e => discardTracking e s w
  | OpSample now location =>
      match watchers w with
      | [] => (s, w)
      | _ :: _ => (handleLocationUpdate now location s, w)
      end
  end.

Fixpoint run (ops : list Op) (sw : State * World) : State * World :=
  match ops with
  | [] => sw
  | op :: rest => run rest (step op sw)
  end.

End TrackingContext.

(* ================================================================= *)
(** ** The helper module [utils/formatters] *)

Module Formatters.

(** Modelled from the spec: [calculateDistance] of [utils/formatters],
    which the tracking service imports and whose file is not part of the
    sources at hand.  Section 4.1 of the specification gives its contract:
    the haversine formula on a sphere of radius 6371 km, with a defined
    zero when one of the four inputs is falsy; this is also the body of
    the two copies the sources do contain. *)
Definition calculateDistance (lat1 lon1 lat2 lon2 : R) : R :=
  if negb (truthy lat1) || negb (truthy lon1)
     || negb (truthy lat2) || negb (truthy lon2) then 0
  else
    let dLat := (lat2 - lat1) * (PI / 180) in
    let dLon := (lon2 - lon1) * (PI / 180) in
    let a :=
      sin (dLat / 2) * sin (dLat / 2) +
      cos (lat1 * (PI / 180)) * cos (lat2 * (PI / 180)) *
      sin (dLon / 2) * sin (dLon / 2) in
    6371 * (2 * Math_atan2 (sqrt a) (sqrt (1 - a))).

End Formatters.

(* ================================================================= *)
(** ** The tracking service, [trackingService] *)

Module TrackingService.

(** [trackingService.trackingData]; its [timer] and [routeSnapshot]
    fields are [null] throughout the source and are left out. *)
Record TrackingData : Type := mkData {
  isTracking : bool;
  startTime : option R;
  endTime : option R;
  duration : R;
  distance : R;
  currentSpeed : R;
  maxSpeed : R;
  minSpeed : ext;
  avgSpeed : R;
  locationHistory : list LocationPoint;
  currentLocation : option Location
}.

(** The three keys of the crash-recovery cache; its reads and writes are
    taken to succeed. *)
Record Storage : Type := mkStorage {
  current_tracking_id : option nat;
  tracking_start_time : option R;
  location_history : option (list LocationPoint)
}.

(** A document of [tracking_sessions]. *)
Record SessionDoc : Type := mkSession {
  s_id : nat;
  s_userId : nat;
  s_startTime : R;
  s_endTime : R;
  s_duration : R;
  s_distance : R;
  s_maxSpeed : R;
  s_minSpeed : ext;
  s_avgSpeed : R;
  s_locationHistory : list LocationPoint
}.

(** A document of [users]: the totals [stopTracking] maintains. *)
Record UserDoc : Type := mkUser {
  u_id : nat;
  u_rides : R;
  u_totalDistance : R;
  u_totalTime : R
}.

Record World : Type := mkWorld {
  storage : Storage;
  tracking_sessions : list SessionDoc;
  users : list UserDoc;
  updates_running : bool          (* the background location task *)
}.

(** How the collaborators answer during one call. *)
Record Env : Type := mkEnv {
  permission_granted : bool;
  startUpdates_ok : bool;          (* startLocationUpdatesAsync resolves *)
  stopUpdates_ok : bool;           (* stopLocationUpdatesAsync resolves *)
  position : option Location;      (* [None]: getCurrentPositionAsync rejects *)
  set_ok : bool;                   (* the write of the session document *)
  transaction_ok : bool;           (* the transaction on the user document *)
  fresh_id : nat;                  (* the id of [collection.doc()] *)
  now : R                          (* [new Date()], in milliseconds *)
}.

Inductive Error : Type :=
| Location_permission_denied
| No_active_tracking_session
| Tracking_is_already_active
| Thrown.                          (* [error.message] of a caught exception *)

Inductive Result (A : Type) : Type :=
| Success (a : A)
| Failure (e : Error).
Arguments Success {A} a.
Arguments Failure {A} e.

Definition initialData : TrackingData :=
  {| isTracking := false; startTime := None; endTime := None; duration := 0;
     distance := 0; currentSpeed := 0; maxSpeed := 0; minSpeed := Infinity;
     avgSpeed := 0; locationHistory := []; currentLocation := None |}.

Definition emptyStorage : Storage :=
  {| current_tracking_id := None; tracking_start_time := None;
     location_history := None |}.

Definition with_storage (st : Storage) (w : World) : World :=
  {| storage := st; tracking_sessions := tracking_sessions w;
     users := users w; updates_running := updates_running w |}.

Definition with_updates (b : bool) (w : World) : World :=
  {| storage := storage w; tracking_sessions := tracking_sessions w;
     users := users w; updates_running := b |}.

(** [date.toString()] read back by [new Date(string)]: the milliseconds
    are not printed. *)
Definition date_of_string_of (t : R) : R := IZR (Int_part (t / 1000)) * 1000.

(** The tracking data right after the reset of [startTracking]. *)
Definition resetData (now : R) : TrackingData :=
  {| isTracking := true; startTime := Some now; endTime := None;
     duration := 0; distance := 0; currentSpeed := 0; maxSpeed := 0;
     minSpeed := Infinity; avgSpeed := 0; locationHistory := [];
     currentLocation := None |}.

Section Service.

(** [calculateDistance] as imported from [utils/formatters]. *)
Variable calculateDistance : R -> R -> R -> R -> R.

Definition startTracking (e : Env) (userId : nat) (d : TrackingData) (w : World)
  : Result nat * TrackingData * World :=
  if negb (permission_granted e) then (Failure Location_permission_denied, d, w)
  else if negb (startUpdates_ok e) then (Failure Thrown, d, w)
  else
    let w1 := with_updates true w in
    let d1 := resetData (now e) in
    match position e with
    | None => (Failure Thrown, d1, w1)
    | Some location =>
        let d2 :=
          {| isTracking := isTracking d1; startTime := startTime d1;
             endTime := endTime d1; duration := duration d1;
             distance := distance d1; currentSpeed := currentSpeed d1;
             maxSpeed := maxSpeed d1; minSpeed := minSpeed d1;
             avgSpeed := avgSpeed d1;
             locationHistory := locationHistory d1 ++ [locationData location];
             currentLocation := Some location |} in
        let trackingId := fresh_id e in
        let st :=
          {| current_tracking_id := Some trackingId;
             tracking_start_time := Some (date_of_string_of (now e));
             location_history := location_history (storage w1) |} in
        (Success trackingId, d2, with_storage st w1)
    end.

Definition updateTracking (location : Location) (d : TrackingData) (w : World)
  : TrackingData * World :=
  if negb (isTracking d) then (d, w)
  else
    let timestamp := loc_timestamp location in
    let coords_speed := c_speed (coords location) in
    let locationPoint := locationData location in
    let history := locationHistory d ++ [locationPoint] in
    let distance' :=
      if (1 <? length history)%nat then
        match nth_error history (length history - 2) with
        | Some prevLocation =>
            let distDelta :=
              calculateDistance (latitude prevLocation)
                                (longitude prevLocation)
                                (c_latitude (coords location))
                                (c_longitude (coords location)) in
            distance d + distDelta
        | None => distance d
        end
      else distance d in
    let currentSpeed :=
      if truthy_opt coords_speed then or_default coords_speed 0 * 3.6 else 0 in
    let maxSpeed' :=
      if Rltb 0 currentSpeed then Rmax (maxSpeed d) currentSpeed else maxSpeed d in
    let minSpeed' :=
      if Rltb 0 currentSpeed then ext_min (minSpeed d) currentSpeed else minSpeed d in
    let start := match startTime d with Some t => t | None => 0 end in
    let totalTime := (timestamp - start) / 1000 / 3600 in
    let avgSpeed' := if Rltb 0 totalTime then distance' / totalTime else 0 in
    let duration' := (timestamp - start) / 1000 in
    let d' :=
      {| isTracking := isTracking d; startTime := startTime d;
         endTime := endTime d; duration := duration';
         distance := distance'; currentSpeed := currentSpeed;
         maxSpeed := maxSpeed'; minSpeed := minSpeed';
         avgSpeed := avgSpeed'; locationHistory := history;
         currentLocation := Some location |} in
    let w' :=
      if (length history mod 10 =? 0)%nat then
        with_storage
          {| current_tracking_id := current_tracking_id (storage w);
             tracking_start_time := tracking_start_time (storage w);
             location_history := Some history |} w
      else w in
    (d', w').

(** The transaction of [stopTracking] on the user document; [None] when
    the document does not exist. *)
Fixpoint addRide (userId : nat) (dist dur : R) (us : list UserDoc)
  : option (list UserDoc) :=
  match us with
  | [] => None
  | u :: us' =>
      if Nat.eqb (u_id u) userId then
        Some ({| u_id := u_id u;
                 u_rides := or_num (u_rides u) 0 + 1;
                 u_totalDistance := or_num (u_totalDistance u) 0 + dist;
                 u_totalTime := or_num (u_totalTime u) 0 + dur |} :: us')
      else
        match addRide userId dist dur us' with
        | Some us'' => Some (u :: us'')
        | None => None
        end
  end.

(** [collection.doc(id).set(doc)]: the document of that id is replaced
    or created. *)
Definition setSession (doc : SessionDoc) (l : list SessionDoc) : list SessionDoc :=
  filter (fun x => negb (Nat.eqb (s_id x) (s_id doc))) l ++ [doc].

Definition stopTracking (e : Env) (userId : nat) (d : TrackingData) (w : World)
  : Result (TrackingData * nat) * TrackingData * World :=
  if negb (isTracking d) then (Failure No_active_tracking_session, d, w)
  else if negb (stopUpdates_ok e) then (Failure Thrown, d, w)
  else
    let w1 := with_updates false w in
    let d1 :=
      {| isTracking := false; startTime := startTime d;
         endTime := Some (now e); duration := duration d;
         distance := distance d; currentSpeed := currentSpeed d;
         maxSpeed := maxSpeed d;
         minSpeed := match minSpeed d with Infinity => Fin 0 | m => m end;
         avgSpeed := avgSpeed d; locationHistory := locationHistory d;
         currentLocation := currentLocation d |} in
    match current_tracking_id (storage w1), startTime d1 with
    | Some trackingId, Some start =>
        if negb (set_ok e) then (Failure Thrown, d1, w1)
        else
          let doc :=
            {| s_id := trackingId; s_userId := userId;
               s_startTime := start; s_endTime := now e;
               s_duration := duration d1; s_distance := distance d1;
               s_maxSpeed := maxSpeed d1; s_minSpeed := minSpeed d1;
               s_avgSpeed := avgSpeed d1;
               s_locationHistory := locationHistory d1 |} in
          let w2 :=
            {| storage := storage w1;
               tracking_sessions := setSession doc (tracking_sessions w1);
               users := users w1; updates_running := updates_running w1 |} in
          if negb (transaction_ok e) then (Failure Thrown, d1, w2)
          else
            match addRide userId (distance d1) (duration d1) (users w2) with
            | None => (Failure Thrown, d1, w2)
            | Some us =>
                let w3 :=
                  {| storage := emptyStorage;
                     tracking_sessions := tracking_sessions w2;
                     users := us; updates_running := updates_running w2 |} in
                (Success (d1, trackingId), d1, w3)
            end
    | _, _ => (Failure Thrown, d1, w1)
    end.

Definition set_isTracking (b : bool) (d : TrackingData) : TrackingData :=
  {| isTracking := b; startTime := startTime d; endTime := endTime d;
     duration := duration d; distance := distance d;
     currentSpeed := currentSpeed d; maxSpeed := maxSpeed d;
     minSpeed := minSpeed d; avgSpeed := avgSpeed d;
     locationHistory := locationHistory d;
     currentLocation := currentLocation d |}.

Definition pauseTracking (e : Env) (d : TrackingData) (w : World)
  : Result unit * TrackingData * World :=
  if negb (isTracking d) then (Failure No_active_tracking_session, d, w)
  else if negb (stopUpdates_ok e) then (Failure Thrown, d, w)
  else (Success tt, set_isTracking false d, with_updates false w).

Definition resumeTracking (e : Env) (d : TrackingData) (w : World)
  : Result unit * TrackingData * World :=
  if isTracking d then (Failure Tracking_is_already_active, d, w)
  else if negb (startUpdates_ok e) then (Failure Thrown, d, w)
  else (Success tt, set_isTracking true d, with_updates true w).

(** What [checkForInterruptedTracking] returns when [interrupted] is true. *)
Record InterruptedData : Type := mkInterrupted {
  i_trackingId : nat;
  i_startTime : R;
  i_locationHistory : list LocationPoint
}.

Definition checkForInterruptedTracking (w : World) : option InterruptedData :=
  match current_tracking_id (storage w), tracking_start_time (storage w) with
  | Some trackingId, Some startTime =>
      Some {| i_trackingId := trackingId;
              i_startTime := startTime;
              i_locationHistory :=
                match location_history (storage w) with
                | Some h => h
                | None => []
                end |}
  | _, _ => None
  end.

(** The distance loop of [resumeInterruptedTracking], from index [i]
    with [locationHistory[i-1] = prev]. *)
Fixpoint distanceLoop (totalDistance : R) (prev : LocationPoint)
    (rest : list LocationPoint) : R :=
  match rest with
  | [] => totalDistance
  | curr :: rest' =>
      distanceLoop
        (totalDistance +
         calculateDistance (latitude prev) (longitude prev)
                           (latitude curr) (longitude curr))
        curr rest'
  end.

(** The speed loop of [resumeInterruptedTracking]: the running maximum
    and minimum. *)
Fixpoint speedLoop (mx : R) (mn : ext) (points : list LocationPoint) : R * ext :=
  match points with
  | [] => (mx, mn)
  | point :: rest =>
      if Rltb 0 (speed point) then
        let speedKmh := speed point * 3.6 in
        speedLoop (Rmax mx speedKmh) (ext_min mn speedKmh) rest
      else speedLoop mx mn rest
  end.

Definition resumeInterruptedTracking (e : Env) (interruptedData : InterruptedData)
    (d : TrackingData) (w : World) : Result nat * TrackingData * World :=
  let trackingId := i_trackingId interruptedData in
  let history := i_locationHistory interruptedData in
  let totalDistance :=
    match history with
    | first :: (_ :: _) as rest => distanceLoop 0 first rest
    | _ => 0
    end in
  let d1 :=
    {| isTracking := true; startTime := Some (i_startTime interruptedData);
       endTime := None; duration := 0; distance := totalDistance;
       currentSpeed := 0; maxSpeed := 0; minSpeed := Infinity;
       avgSpeed := 0; locationHistory := history;
       currentLocation := None |} in
  match position e with
  | None => (Failure Thrown, d1, w)
  | Some location =>
      let '(mx, mn) := speedLoop (maxSpeed d1) (minSpeed d1) history in
      let d2 :=
        {| isTracking := true; startTime := startTime d1;
           endTime := None; duration := 0; distance := distance d1;
           currentSpeed := 0; maxSpeed := mx; minSpeed := mn;
           avgSpeed := 0; locationHistory := history;
           currentLocation := Some location |} in
      if negb (startUpdates_ok e) then (Failure Thrown, d2, w)
      else (Success trackingId, d2, with_updates true w)
  end.

(** [updateTracking] folded over a sequence of deliveries. *)
Fixpoint deliver (samples : list Location) (d : TrackingData) (w : World)
  : TrackingData * World :=
  match samples with
  | [] => (d, w)
  | location :: rest =>
      let '(d', w') := updateTracking location d w in
      deliver rest d' w'
  end.

End Service.

(** What [getCurrentStats] returns when it does not return [null]. *)
Record CurrentStats : Type := mkCurrentStats {
  cs_duration : R;
  cs_distance : R;
  cs_currentSpeed : R;
  cs_maxSpeed : R;
  cs_minSpeed : R;
  cs_avgSpeed : R;
  cs_locationHistory : list LocationPoint;
  cs_isTracking : bool
}.

Definition getCurrentStats (d : TrackingData) : option CurrentStats :=
  if negb (isTracking d) && negb (match startTime d with Some _ => true | None => false end)
  then None
  else
    Some {| cs_duration := duration d;
            cs_distance := distance d;
            cs_currentSpeed := currentSpeed d;
            cs_maxSpeed := maxSpeed d;
            cs_minSpeed := match minSpeed d with Infinity => 0 | Fin m => m end;
            cs_avgSpeed := avgSpeed d;
            cs_locationHistory := locationHistory d;
            cs_isTracking := isTracking d |}.

(** How the document store answers during [deleteTrackingSession]. *)
Record DeleteEnv : Type := mkDeleteEnv {
  get_ok : bool;                   (* the read of the session document *)
  delete_ok : bool;                (* its deletion *)
  delete_transaction_ok : bool     (* the transaction on the user document *)
}.

Inductive DeleteResult : Type :=
| Deleted
| Tracking_session_not_found
| Not_authorized_to_delete
| Delete_thrown.

Definition findSession (trackingId : nat) (l : list SessionDoc) : option SessionDoc :=
  find (fun x => Nat.eqb (s_id x) trackingId) l.

(** The transaction of [deleteTrackingSession] on the user document;
    [None] when the document does not exist. *)
Fixpoint removeRide (userId : nat) (dist dur : R) (us : list UserDoc)
  : option (list UserDoc) :=
  match us with
  | [] => None
  | u :: us' =>
      if Nat.eqb (u_id u) userId then
        Some ({| u_id := u_id u;
                 u_rides := Rmax (or_num (u_rides u) 0 - 1) 0;
                 u_totalDistance := Rmax (or_num (u_totalDistance u) 0 - dist) 0;
                 u_totalTime := Rmax (or_num (u_totalTime u) 0 - dur) 0 |} :: us')
      else
        match removeRide userId dist dur us' with
        | Some us'' => Some (u :: us'')
        | None => None
        end
  end.

Definition deleteTrackingSession (e : DeleteEnv) (trackingId userId : nat)
    (w : World) : DeleteResult * World :=
  if negb (get_ok e) then (Delete_thrown, w)
  else
    match findSession trackingId (tracking_sessions w) with
    | None => (Tracking_session_not_found, w)
    | Some trackingData =>
        if negb (Nat.eqb (s_userId trackingData) userId)
        then (Not_authorized_to_delete, w)
        else if negb (delete_ok e) then (Delete_thrown, w)
        else
          let w1 :=
            {| storage := storage w;
               tracking_sessions :=
                 filter (fun x => negb (Nat.eqb (s_id x) trackingId))
                        (tracking_sessions w);
               users := users w; updates_running := updates_running w |} in
          if negb (delete_transaction_ok e) then (Delete_thrown, w1)
          else
            match removeRide userId (s_distance trackingData)
                    (s_duration trackingData) (users w1) with
            | None => (Delete_thrown, w1)
            | Some us =>
                (Deleted,
                 {| storage := storage w1;
                    tracking_sessions := tracking_sessions w1;
                    users := us; updates_running := updates_running w1 |})
            end
    end.

End TrackingService.

(* ================================================================= *)
(** ** The location hook, [useLocation] *)

Module UseLocation.

(** The two fields of a coordinates object that the hook reads. *)
Record LatLng : Type := mkLatLng {
  ll_latitude : R;
  ll_longitude : R
}.

Definition deg2rad (deg : R) : R := deg * (PI / 180).

(** [calculateDistance(coords1, coords2)]; [None] is a [null] argument. *)
Definition calculateDistance (coords1 coords2 : option LatLng) : R :=
  match coords1, coords2 with
  | Some c1, Some c2 =>
      let lat1 := ll_latitude c1 in
      let lon1 := ll_longitude c1 in
      let lat2 := ll_latitude c2 in
      let lon2 := ll_longitude c2 in
      let R_earth := 6371 in
      let dLat := deg2rad (lat2 - lat1) in
      let dLon := deg2rad (lon2 - lon1) in
      let a :=
        sin (dLat / 2) * sin (dLat / 2) +
        cos (deg2rad lat1) * cos (deg2rad lat2) *
        sin (dLon / 2) * sin (dLon / 2) in
      let c := 2 * Math_atan2 (sqrt a) (sqrt (1 - a)) in
      let distance := R_earth * c in
      distance
  | _, _ => 0
  end.

End UseLocation.

(* ================================================================= *)
(** ** Vocabulary of the statements *)

(** [segments_hold P calc prev rest]: every segment of the route
    [prev :: rest], measured by [calc], satisfies [P]. *)
Fixpoint segments_hold (P : R -> Prop) (calc : R -> R -> R -> R -> R)
    (prev : LocationPoint) (rest : list LocationPoint) : Prop :=
  match rest with
  | [] => True
  | cur :: rest' =>
      P (calc (latitude prev) (longitude prev) (latitude cur) (longitude cur)) /\
      segments_hold P calc cur rest'
  end.

Definition route_segments (P : R -> Prop) (calc : R -> R -> R -> R -> R)
    (route : list LocationPoint) : Prop :=
  match route with
  | [] => True
  | first :: rest => segments_hold P calc first rest
  end.

(** No segment reaches the jump threshold. *)
Definition below_threshold (d : R) : Prop := d < 0.1.
(** No segment exceeds the jump threshold. *)
Definition at_most_threshold (d : R) : Prop := d <= 0.1.
(** No segment sits exactly on the jump threshold. *)
Definition off_threshold (d : R) : Prop := d <> 0.1.

(** The route point of a delivery made at a given clock reading. *)
Definition delivered (x : R * Location) : LocationPoint := locationData (snd x).

(** Deliveries used in the examples: a start at one degree north, one
    degree east; a sample one degree further north (more than a hundred
    kilometres away); a sample at that same place five seconds later. *)
Module Samples.

Definition loc_start : Location :=
  {| coords := {| c_latitude := 1; c_longitude := 1;
                  c_speed := None; c_altitude := Some 10 |};
     loc_timestamp := 0 |}.

Definition loc_far : Location :=
  {| coords := {| c_latitude := 2; c_longitude := 1;
                  c_speed := Some 5; c_altitude := Some 20 |};
     loc_timestamp := 5000 |}.

Definition loc_near : Location :=
  {| coords := {| c_latitude := 2; c_longitude := 1;
                  c_speed := Some 3; c_altitude := Some 20 |};
     loc_timestamp := 10000 |}.

(** A sample at the starting place, ten seconds after the start. *)
Definition loc_still : Location :=
  {| coords := {| c_latitude := 1; c_longitude := 1;
                  c_speed := Some 5; c_altitude := Some 10 |};
     loc_timestamp := 10000 |}.

Definition p_start : LocationPoint := mkPoint 1 1 0 0 10.
Definition p_far : LocationPoint := mkPoint 2 1 5000 5 20.
Definition p_near : LocationPoint := mkPoint 2 1 10000 3 20.
Definition p_still : LocationPoint := mkPoint 1 1 10000 5 10.

(** Collaborators that all answer, for the service and for the context. *)
Definition service_env : TrackingService.Env :=
  {| TrackingService.permission_granted := true;
     TrackingService.startUpdates_ok := true;
     TrackingService.stopUpdates_ok := true;
     TrackingService.position := Some loc_start;
     TrackingService.set_ok := true;
     TrackingService.transaction_ok := true;
     TrackingService.fresh_id := 7;
     TrackingService.now := 0 |}.

(** The same, but the write of the session document fails. *)
Definition service_env_write_fails : TrackingService.Env :=
  {| TrackingService.permission_granted := true;
     TrackingService.startUpdates_ok := true;
     TrackingService.stopUpdates_ok := true;
     TrackingService.position := Some loc_start;
     TrackingService.set_ok := false;
     TrackingService.transaction_ok := true;
     TrackingService.fresh_id := 7;
     TrackingService.now := 20000 |}.

Definition service_world : TrackingService.World :=
  {| TrackingService.storage := TrackingService.emptyStorage;
     TrackingService.tracking_sessions := [];
     TrackingService.users := [TrackingService.mkUser 1 0 0 0];
     TrackingService.updates_running := false |}.

(** The service right after a successful start at [loc_start]. *)
Definition service_started : TrackingService.TrackingData :=
  {| TrackingService.isTracking := true;
     TrackingService.startTime := Some 0;
     TrackingService.endTime := None;
     TrackingService.duration := 0;
     TrackingService.distance := 0;
     TrackingService.currentSpeed := 0;
     TrackingService.maxSpeed := 0;
     TrackingService.minSpeed := Infinity;
     TrackingService.avgSpeed := 0;
     TrackingService.locationHistory := [p_start];
     TrackingService.currentLocation := Some loc_start |}.

Definition service_world_started : TrackingService.World :=
  {| TrackingService.storage :=
       {| TrackingService.current_tracking_id := Some 7%nat;
          TrackingService.tracking_start_time := Some 0;
          TrackingService.location_history := None |};
     TrackingService.tracking_sessions := [];
     TrackingService.users := [TrackingService.mkUser 1 0 0 0];
     TrackingService.updates_running := true |}.

(** The cache an interrupted session left behind: its id, its start
    time and a snapshot of two points, the second one far away. *)
Definition service_world_interrupted : TrackingService.World :=
  {| TrackingService.storage :=
       {| TrackingService.current_tracking_id := Some 7%nat;
          TrackingService.tracking_start_time := Some 0;
          TrackingService.location_history := Some [p_start; p_far] |};
     TrackingService.tracking_sessions := [];
     TrackingService.users := [TrackingService.mkUser 1 0 0 0];
     TrackingService.updates_running := false |}.

Definition context_env : TrackingContext.Env :=
  {| TrackingContext.user := Some 1%nat;
     TrackingContext.permission_granted := true;
     TrackingContext.position := Some loc_start;
     TrackingContext.watch_ok := true;
     TrackingContext.addDoc_ok := true;
     TrackingContext.updateDoc_ok := true;
     TrackingContext.now := 0 |}.

(** The same at a later time, with a failing document update. *)
Definition context_env_write_fails : TrackingContext.Env :=
  {| TrackingContext.user := Some 1%nat;
     TrackingContext.permission_granted := true;
     TrackingContext.position := Some loc_start;
     TrackingContext.watch_ok := true;
     TrackingContext.addDoc_ok := true;
     TrackingContext.updateDoc_ok := false;
     TrackingContext.now := 20000 |}.

End Samples.

(** The provider and the outside agree on the watcher: there is one live
    watcher exactly when the subscription ref is set, none while
    [isTracking] is false, and the document ref points into the store. *)
Definition context_consistent (sw : TrackingContext.State * TrackingContext.World)
  : Prop :=
  let '(s, w) := sw in
  (TrackingContext.isTracking s = false ->
   TrackingContext.locationSubscription s = None) /\
  TrackingContext.watchers w =
    match TrackingContext.locationSubscription s with
    | Some h => [h]
    | None => []
    end /\
  (forall ref : nat,
     TrackingContext.activityDocRef s = Some ref ->
     (ref < length (TrackingContext.rides w))%nat).

(** A running maximum and minimum of positive speeds: either nothing
    was seen yet, or the minimum is positive and below the maximum. *)
Definition speeds_ordered (mx : R) (mn : ext) : Prop :=
  match mn with
  | Infinity => mx = 0
  | Fin m => 0 < m <= mx
  end.

(** The running sums of the batch loop: a count of zero goes with an
    empty minimum and zero sums; a positive count goes with a positive
    minimum [m] and [count * m <= sum <= count * max]. *)
Definition speeds_summed (acc : UseStats.Acc) : Prop :=
  match UseStats.a_minSpeed acc with
  | Infinity =>
      UseStats.a_speedCount acc = 0%nat /\ UseStats.a_speedSum acc = 0 /\
      UseStats.a_maxSpeed acc = 0
  | Fin m =>
      (0 < UseStats.a_speedCount acc)%nat /\ 0 < m /\
      INR (UseStats.a_speedCount acc) * m <= UseStats.a_speedSum acc /\
      UseStats.a_speedSum acc <=
        INR (UseStats.a_speedCount acc) * UseStats.a_maxSpeed acc
  end.

(** The cached snapshot trails the history by fewer than ten points. *)
Definition snapshot_trails (history : list LocationPoint)
    (cached : option (list LocationPoint)) : Prop :=
  match cached with
  | None => (length history < 10)%nat
  | Some c =>
      exists rest : list LocationPoint,
        history = c ++ rest /\ (length rest < 10)%nat /\
        (length c mod 10 = 0)%nat
  end.

(** An entry of the pace series: a time stamp and minutes per unit. *)
Definition pace_in_range (entry : R * R) : Prop := 0 <= snd entry < 60.

(** The provider right after a successful start at [Samples.loc_start],
    with the document store and the watcher that go with it. *)
Definition context_started : TrackingContext.State * TrackingContext.World :=
  TrackingContext.startTracking Samples.context_env
    TrackingContext.initialState TrackingContext.initialWorld.

(** A user document whose three totals are not negative. *)
Definition totals_nonneg (u : TrackingService.UserDoc) : Prop :=
  0 <= TrackingService.u_rides u /\
  0 <= TrackingService.u_totalDistance u /\
  0 <= TrackingService.u_totalTime u.

(** A store with one finished session, number 7 of user 1. *)
Definition service_world_one_session : TrackingService.World :=
  {| TrackingService.storage := TrackingService.emptyStorage;
     TrackingService.tracking_sessions :=
       [TrackingService.mkSession 7 1 0 20000 20 0 0 (Fin 0) 0 [Samples.p_start]];
     TrackingService.users := [TrackingService.mkUser 1 1 0 20];
     TrackingService.updates_running := false |}.

Definition delete_env : TrackingService.DeleteEnv :=
  {| TrackingService.get_ok := true;
     TrackingService.delete_ok := true;
     TrackingService.delete_transaction_ok := true |}.

(* ================================================================= *)
(** * Properties *)

(** ** Comparisons and rounding *)

Lemma Rltb_true (x y : R) : x < y -> Rltb x y = true.
Proof. intros H; unfold Rltb; destruct (Rlt_dec x y); [reflexivity | contradiction]. Qed.

Lemma Rltb_false (x y : R) : y <= x -> Rltb x y = false.
Proof. intros H; unfold Rltb; destruct (Rlt_dec x y); [lra | reflexivity]. Qed.

Lemma Rltb_spec (x y : R) : Rltb x y = true <-> x < y.
Proof.
  unfold Rltb; destruct (Rlt_dec x y); split; intros; auto; discriminate.
Qed.

Lemma truthy_true (x : R) : x <> 0 -> truthy x = true.
Proof.
  intros H; unfold truthy, Reqb; destruct (Req_dec_T x 0); [contradiction | reflexivity].
Qed.

Lemma truthy_zero : truthy 0 = false.
Proof. unfold truthy, Reqb; destruct (Req_dec_T 0 0); [reflexivity | lra]. Qed.

Lemma truthy_false (x : R) : truthy x = false -> x = 0.
Proof.
  unfold truthy, Reqb; destruct (Req_dec_T x 0); [auto | discriminate].
Qed.

Lemma or_num_zero (x : R) : or_num x 0 = x.
Proof.
  unfold or_num; destruct (truthy x) eqn:E; [reflexivity |].
  symmetry; now apply truthy_false.
Qed.

Lemma or_default_zero_some (x : R) : or_default (Some x) 0 = x.
Proof. apply or_num_zero. Qed.

(** Decides a comparison between two closed numerals. *)
Ltac rcmp :=
  repeat first
    [ rewrite truthy_zero
    | rewrite Rltb_true by lra
    | rewrite Rltb_false by lra
    | rewrite truthy_true by lra ].

Lemma Rabs_le_both (a b : R) : Rabs a <= b -> - b <= a <= b.
Proof. unfold Rabs; destruct (Rcase_abs a); lra. Qed.

Lemma Int_part_between (r : R) (z : Z) :
  IZR z <= r < IZR z + 1 -> Int_part r = z.
Proof. intros H; symmetry; apply Int_part_spec; lra. Qed.

(** [toFixed 2] moves a number by at most half a hundredth. *)
Lemma toFixed2_error (x : R) : Rabs (toFixed 2 x - x) <= / 200.
Proof.
  unfold toFixed.
  assert (Hax : 0 <= Rabs x) by apply Rabs_pos.
  destruct (base_Int_part (Rabs x * 10 ^ 2 + / 2)) as [Hlo Hhi].
  set (n := IZR (Int_part (Rabs x * 10 ^ 2 + / 2))) in *.
  assert (Hv : Rabs (n / 10 ^ 2 - Rabs x) <= / 200).
  { apply Rabs_le; simpl in *; lra. }
  destruct (Rltb (Rabs x) (10 ^ 21)) eqn:Hbig; destruct (Rltb x 0) eqn:Hneg.
  - apply Rltb_spec in Hneg.
    rewrite (Rabs_left x) in * by lra.
    replace (- (n / 10 ^ 2) - x) with (- (n / 10 ^ 2 - - x)) by lra.
    now rewrite Rabs_Ropp.
  - assert (0 <= x).
    { destruct (Rlt_dec x 0) as [Hlt | Hge]; [| lra].
      rewrite (Rltb_true _ _ Hlt) in Hneg; discriminate. }
    now rewrite (Rabs_pos_eq x) in * by lra.
  - apply Rltb_spec in Hneg.
    rewrite (Rabs_left x) by lra.
    replace (- - x - x) with 0 by lra. rewrite Rabs_R0; lra.
  - assert (0 <= x).
    { destruct (Rlt_dec x 0) as [Hlt | Hge]; [| lra].
      rewrite (Rltb_true _ _ Hlt) in Hneg; discriminate. }
    rewrite (Rabs_pos_eq x) by lra.
    replace (x - x) with 0 by lra. rewrite Rabs_R0; lra.
Qed.

(** [toFixed] of a number of moderate size that is not negative. *)
Lemma toFixed_nonneg (f : nat) (x : R) (z : Z) :
  0 <= x < 10 ^ 21 ->
  IZR z <= x * 10 ^ f + / 2 < IZR z + 1 ->
  toFixed f x = IZR z / 10 ^ f.
Proof.
  intros Hx Hz. unfold toFixed.
  rewrite (Rabs_pos_eq x) by lra.
  rewrite (Rltb_true x (10 ^ 21)) by lra.
  rewrite (Rltb_false x 0) by lra.
  now rewrite (Int_part_between _ z).
Qed.

Lemma toFixed_zero (f : nat) : toFixed f 0 = 0.
Proof.
  rewrite (toFixed_nonneg f 0 0).
  - unfold Rdiv; ring.
  - split; [lra | apply pow_lt; lra].
  - rewrite Rmult_0_l; lra.
Qed.

(** ** The distance calculator *)

Lemma atan2_zero_one : Math_atan2 0 1 = 0.
Proof.
  unfold Math_atan2. rewrite (Rltb_true 0 1) by lra.
  replace (0 / 1) with 0 by lra. apply atan_0.
Qed.

(** The haversine term is the same in both directions. *)
Lemma hav_term_sym (lat1 lon1 lat2 lon2 k : R) :
  sin ((lat2 - lat1) * k / 2) * sin ((lat2 - lat1) * k / 2) +
  cos (lat1 * k) * cos (lat2 * k) *
  sin ((lon2 - lon1) * k / 2) * sin ((lon2 - lon1) * k / 2) =
  sin ((lat1 - lat2) * k / 2) * sin ((lat1 - lat2) * k / 2) +
  cos (lat2 * k) * cos (lat1 * k) *
  sin ((lon1 - lon2) * k / 2) * sin ((lon1 - lon2) * k / 2).
Proof.
  replace ((lat1 - lat2) * k / 2) with (- ((lat2 - lat1) * k / 2)) by lra.
  replace ((lon1 - lon2) * k / 2) with (- ((lon2 - lon1) * k / 2)) by lra.
  rewrite !sin_neg. ring.
Qed.

(** The haversine term of a point with itself is zero. *)
Lemma hav_term_same (lat lon k : R) :
  sin ((lat - lat) * k / 2) * sin ((lat - lat) * k / 2) +
  cos (lat * k) * cos (lat * k) *
  sin ((lon - lon) * k / 2) * sin ((lon - lon) * k / 2) = 0.
Proof.
  replace ((lat - lat) * k / 2) with 0 by lra.
  replace ((lon - lon) * k / 2) with 0 by lra.
  rewrite sin_0. ring.
Qed.

Lemma hav_angle_zero : 2 * Math_atan2 (sqrt 0) (sqrt (1 - 0)) = 0.
Proof.
  rewrite sqrt_0. replace (1 - 0) with 1 by lra. rewrite sqrt_1.
  rewrite atan2_zero_one. ring.
Qed.

Lemma guard_sym (a b c d : bool) :
  (negb a || negb b || negb c || negb d)%bool =
  (negb c || negb d || negb a || negb b)%bool.
Proof. destruct a, b, c, d; reflexivity. Qed.

Lemma ctx_distance_sym (lat1 lon1 lat2 lon2 : R) :
  TrackingContext.calculateDistance lat1 lon1 lat2 lon2 =
  TrackingContext.calculateDistance lat2 lon2 lat1 lon1.
Proof.
  unfold TrackingContext.calculateDistance, TrackingContext.deg2rad.
  rewrite (guard_sym (truthy lat1)).
  destruct (negb (truthy lat2) || negb (truthy lon2) ||
            negb (truthy lat1) || negb (truthy lon1))%bool; [reflexivity |].
  cbv zeta. now rewrite (hav_term_sym lat1 lon1 lat2 lon2).
Qed.

Lemma ctx_distance_same (lat lon : R) :
  TrackingContext.calculateDistance lat lon lat lon = 0.
Proof.
  unfold TrackingContext.calculateDistance, TrackingContext.deg2rad.
  destruct (negb (truthy lat) || negb (truthy lon) ||
            negb (truthy lat) || negb (truthy lon))%bool; [reflexivity |].
  cbv zeta. rewrite hav_term_same, hav_angle_zero. ring.
Qed.

Lemma hook_distance_sym (u : DistanceUnit) (lat1 lon1 lat2 lon2 : R) :
  UseStats.calculateDistance u lat1 lon1 lat2 lon2 =
  UseStats.calculateDistance u lat2 lon2 lat1 lon1.
Proof.
  unfold UseStats.calculateDistance, UseStats.deg2rad.
  rewrite (guard_sym (truthy lat1)).
  destruct (negb (truthy lat2) || negb (truthy lon2) ||
            negb (truthy lat1) || negb (truthy lon1))%bool; [reflexivity |].
  cbv zeta. now rewrite (hav_term_sym lat1 lon1 lat2 lon2).
Qed.

Lemma hook_distance_same (u : DistanceUnit) (lat lon : R) :
  UseStats.calculateDistance u lat lon lat lon = 0.
Proof.
  unfold UseStats.calculateDistance, UseStats.deg2rad.
  destruct (negb (truthy lat) || negb (truthy lon) ||
            negb (truthy lat) || negb (truthy lon))%bool; [reflexivity |].
  cbv zeta. rewrite hav_term_same, hav_angle_zero.
  destruct (unit_eqb u mi); ring.
Qed.

(** The copy of the hook, in kilometres, the copy of the context and the
    helper of the service are one function. *)
Lemma hook_km_is_ctx (lat1 lon1 lat2 lon2 : R) :
  UseStats.calculateDistance km lat1 lon1 lat2 lon2 =
  TrackingContext.calculateDistance lat1 lon1 lat2 lon2.
Proof. reflexivity. Qed.

Lemma formatters_is_ctx (lat1 lon1 lat2 lon2 : R) :
  Formatters.calculateDistance lat1 lon1 lat2 lon2 =
  TrackingContext.calculateDistance lat1 lon1 lat2 lon2.
Proof. reflexivity. Qed.

(** C7. The distance calculator, in the copy of the statistics hook (for
    either unit) and in the copy of the tracking context, is symmetric in
    its two points, gives 0 for two identical points, and gives 0 as soon
    as one of its four inputs is zero. *)
Theorem C7_distance_symmetric_and_zero :
  forall (u : DistanceUnit) (lat1 lon1 lat2 lon2 : R),
    (UseStats.calculateDistance u lat1 lon1 lat2 lon2 =
     UseStats.calculateDistance u lat2 lon2 lat1 lon1 /\
     TrackingContext.calculateDistance lat1 lon1 lat2 lon2 =
     TrackingContext.calculateDistance lat2 lon2 lat1 lon1) /\
    (UseStats.calculateDistance u lat1 lon1 lat1 lon1 = 0 /\
     TrackingContext.calculateDistance lat1 lon1 lat1 lon1 = 0) /\
    (UseStats.calculateDistance u 0 lon1 lat2 lon2 = 0 /\
     UseStats.calculateDistance u lat1 0 lat2 lon2 = 0 /\
     UseStats.calculateDistance u lat1 lon1 0 lon2 = 0 /\
     UseStats.calculateDistance u lat1 lon1 lat2 0 = 0) /\
    (TrackingContext.calculateDistance 0 lon1 lat2 lon2 = 0 /\
     TrackingContext.calculateDistance lat1 0 lat2 lon2 = 0 /\
     TrackingContext.calculateDistance lat1 lon1 0 lon2 = 0 /\
     TrackingContext.calculateDistance lat1 lon1 lat2 0 = 0).
Proof.
  intros u lat1 lon1 lat2 lon2.
  split; [split; [apply hook_distance_sym | apply ctx_distance_sym] |].
  split; [split; [apply hook_distance_same | apply ctx_distance_same] |].
  unfold UseStats.calculateDistance, TrackingContext.calculateDistance.
  rewrite truthy_zero. cbn [negb orb].
  repeat rewrite orb_true_r. cbn [orb].
  repeat split; reflexivity.
Qed.

(** Along a meridian the calculator returns the arc between the two
    latitudes. *)
Lemma ctx_distance_meridian (lat1 lat2 lon : R) :
  lat1 <> 0 -> lat2 <> 0 -> lon <> 0 -> 0 <= lat2 - lat1 < 180 ->
  TrackingContext.calculateDistance lat1 lon lat2 lon =
  6371 * ((lat2 - lat1) * (PI / 180)).
Proof.
  intros H1 H2 H3 Hd.
  unfold TrackingContext.calculateDistance, TrackingContext.deg2rad.
  rewrite !truthy_true by assumption. cbn [negb orb]. cbv zeta.
  assert (Hpi : 0 < PI) by apply PI_RGT_0.
  set (x := (lat2 - lat1) * (PI / 180) / 2).
  assert (Hx : 0 <= x < PI / 2) by (unfold x; split; nra).
  replace ((lon - lon) * (PI / 180) / 2) with 0 by lra.
  rewrite sin_0.
  assert (Hsin : 0 <= sin x) by (apply sin_ge_0; lra).
  assert (Hcos : 0 < cos x) by (apply cos_gt_0; lra).
  replace (sin x * sin x + cos (lat1 * (PI / 180)) * cos (lat2 * (PI / 180)) * 0 * 0)
    with (sin x * sin x) by ring.
  replace (1 - sin x * sin x) with (cos x * cos x)
    by (generalize (sin2_cos2 x); unfold Rsqr; lra).
  rewrite !sqrt_square by lra.
  unfold Math_atan2. rewrite (Rltb_true 0 (cos x)) by assumption.
  change (sin x / cos x) with (tan x).
  rewrite atan_tan by lra.
  unfold x; lra.
Qed.

Lemma PI_bounds : 3 < PI <= 4.
Proof. split; [generalize PI2_3_2; lra | apply PI_4]. Qed.

(** ** Calories *)

Lemma metValue_brackets (v : R) :
  (v < 16 -> UseStats.metValue v = 4.0) /\
  (16 <= v < 20 -> UseStats.metValue v = 6.8) /\
  (20 <= v < 25 -> UseStats.metValue v = 8.0) /\
  (25 <= v -> UseStats.metValue v = 10.0).
Proof.
  unfold UseStats.metValue; repeat split; intros H; rcmp; reflexivity.
Qed.

(** The formula of [calculateCalories], for every input. *)
Lemma calories_formula (weight : option R)
    (durationSec distanceKm averageSpeedKmh : R) :
  UseStats.calculateCalories weight durationSec distanceKm averageSpeedKmh =
  Math_round (UseStats.metValue averageSpeedKmh * 3.5 * or_default weight 70 *
              (durationSec / 3600) / 200 * 100).
Proof. reflexivity. Qed.

(** Under the unit km the hook's speeds are km/h. *)
Lemma formatSpeed_km (speedMs : R) :
  UseStats.formatSpeed km speedMs = speedMs * 3.6.
Proof.
  unfold UseStats.formatSpeed. destruct (truthy speedMs) eqn:E; cbn [negb unit_eqb].
  - reflexivity.
  - apply truthy_false in E. subst. lra.
Qed.

(** C6, amended.  [calculateCalories] returns
    [round(MET * 3.5 * weightKg * durationHours / 200 * 100)] for every
    duration and average speed it is given, with 70 for the weight when
    the profile has none, and MET chosen by strict comparisons of that
    average speed with 16, 20 and 25; an average of exactly 16 selects
    6.8.  For every route of two samples or more processed under the unit
    km, where the hook's speeds are km/h, the calorie figure of
    [processRouteData] is that value at the hook's duration and the mean
    of the retained positive sample speeds.  A route of fewer than two
    samples reports 0 calories. *)
Theorem C6_calories_by_met_on_km_routes :
  forall (weight : option R) (durationSec distanceKm averageSpeedKmh : R),
    (exists met : R,
       UseStats.calculateCalories weight durationSec distanceKm averageSpeedKmh =
       Math_round (met * 3.5 * or_default weight 70 * (durationSec / 3600) / 200 * 100) /\
       (averageSpeedKmh < 16 -> met = 4.0) /\
       (16 <= averageSpeedKmh < 20 -> met = 6.8) /\
       (20 <= averageSpeedKmh < 25 -> met = 8.0) /\
       (25 <= averageSpeedKmh -> met = 10.0)) /\
    or_default None 70 = 70 /\
    (forall w : R, w <> 0 -> or_default (Some w) 70 = w) /\
    UseStats.metValue 16 = 6.8 /\
    (forall speedMs : R, UseStats.formatSpeed km speedMs = speedMs * 3.6) /\
    (forall (p q : LocationPoint) (rest : list LocationPoint),
       let acc := UseStats.routeLoop km UseStats.acc0 p (q :: rest) in
       exists met : R,
         UseStats.caloriesBurned
           (UseStats.processRouteData km weight durationSec (p :: q :: rest)) =
         Math_round (met * 3.5 * or_default weight 70 * (durationSec / 3600)
                     / 200 * 100) /\
         (UseStats.averageOf acc < 16 -> met = 4.0) /\
         (16 <= UseStats.averageOf acc < 20 -> met = 6.8) /\
         (20 <= UseStats.averageOf acc < 25 -> met = 8.0) /\
         (25 <= UseStats.averageOf acc -> met = 10.0)) /\
    (forall u : DistanceUnit,
       UseStats.caloriesBurned (UseStats.processRouteData u weight durationSec [])
       = 0%Z) /\
    (forall (u : DistanceUnit) (p : LocationPoint),
       UseStats.caloriesBurned (UseStats.processRouteData u weight durationSec [p])
       = 0%Z).
Proof.
  intros weight durationSec distanceKm averageSpeedKmh.
  split; [| split; [| split; [| split; [| split; [| split; [| split]]]]]].
  - exists (UseStats.metValue averageSpeedKmh). split.
    + apply calories_formula.
    + apply metValue_brackets.
  - reflexivity.
  - intros w Hw. unfold or_default. now rewrite truthy_true.
  - apply (metValue_brackets 16); lra.
  - apply formatSpeed_km.
  - intros p q rest acc. exists (UseStats.metValue (UseStats.averageOf acc)). split.
    + reflexivity.
    + apply metValue_brackets.
  - reflexivity.
  - reflexivity.
Qed.

(** At one hour, no weight in the profile and an average of exactly
    16 km/h: 6.8 * 3.5 * 70 / 200 * 100 = 833. *)
Lemma C6_calories_at_16 :
  UseStats.calculateCalories None 3600 10 16 = 833%Z.
Proof.
  destruct (C6_calories_by_met_on_km_routes None 3600 10 16)
    as [[met [Heq [_ [H16 _]]]] _].
  rewrite Heq, (H16 ltac:(lra)).
  unfold Math_round, or_default. apply Int_part_between. lra.
Defined.

(** A route of a single sample with a hook duration of one hour: its
    average speed is 0, so the formula gives
    [round(4.0 * 3.5 * 70 * 1 / 200 * 100) = 490], but the early return
    of [processRouteData] reports 0 calories. *)
Lemma C6_short_route_counterexample :
  UseStats.averageSpeed
    (UseStats.processRouteData km None 3600 [Samples.p_start]) = 0 /\
  UseStats.caloriesBurned
    (UseStats.processRouteData km None 3600 [Samples.p_start]) = 0%Z /\
  Math_round (UseStats.metValue 0 * 3.5 * 70 * (3600 / 3600) / 200 * 100) = 490%Z /\
  UseStats.caloriesBurned
    (UseStats.processRouteData km None 3600 [Samples.p_start]) <>
  Math_round (UseStats.metValue 0 * 3.5 * 70 * (3600 / 3600) / 200 * 100).
Proof.
  assert (H490 : Math_round (UseStats.metValue 0 * 3.5 * 70 * (3600 / 3600)
                             / 200 * 100) = 490%Z).
  { rewrite (proj1 (metValue_brackets 0)) by lra.
    unfold Math_round. apply Int_part_between. lra. }
  split; [reflexivity |]. split; [reflexivity |]. split; [exact H490 |].
  rewrite H490. cbn. discriminate.
Qed.

(** The thresholds under the unit mi.  Two samples at the same place, the
    second reporting 16 / 3.6 m/s, with a hook duration of one hour: under
    km the mean speed is 16 km/h and the figure is 833 (MET 6.8); under mi
    the mean passed to [calculateCalories], whose parameter is named
    [averageSpeedKmh], is 16 * 0.621371 mph and the figure is 490
    (MET 4.0). *)
Lemma calories_thresholds_under_miles :
  let route := [mkPoint 1 1 0 0 0; mkPoint 1 1 3600000 (16 / 3.6) 0] in
  UseStats.caloriesBurned (UseStats.processRouteData km None 3600 route) = 833%Z /\
  UseStats.caloriesBurned (UseStats.processRouteData mi None 3600 route) = 490%Z.
Proof.
  cbv zeta. split.
  - cbn [UseStats.processRouteData UseStats.caloriesBurned UseStats.routeLoop].
    unfold UseStats.loopBody.
    cbn [latitude longitude speed altitude timestamp].
    rewrite hook_distance_same. unfold UseStats.formatSpeed. cbn [unit_eqb].
    rewrite (Rltb_false 0.1 0) by lra.
    rewrite (truthy_true (16 / 3.6)) by lra. cbn [negb].
    rewrite (Rltb_true 0 (16 / 3.6 * 3.6)) by lra.
    rewrite truthy_zero. cbv zeta. unfold UseStats.averageOf.
    cbn [UseStats.a_speedCount UseStats.a_speedSum UseStats.a_totalDistance
         UseStats.acc0 Nat.ltb Nat.leb INR].
    rewrite calories_formula.
    rewrite (proj1 (proj2 (metValue_brackets _))) by lra.
    unfold Math_round, or_default. apply Int_part_between. lra.
  - cbn [UseStats.processRouteData UseStats.caloriesBurned UseStats.routeLoop].
    unfold UseStats.loopBody.
    cbn [latitude longitude speed altitude timestamp].
    rewrite hook_distance_same. unfold UseStats.formatSpeed. cbn [unit_eqb].
    rewrite (Rltb_false 0.1 0) by lra.
    rewrite (truthy_true (16 / 3.6)) by lra. cbn [negb].
    rewrite (Rltb_true 0 (16 / 3.6 * 3.6 * 0.621371)) by lra.
    rewrite truthy_zero. cbv zeta. unfold UseStats.averageOf.
    cbn [UseStats.a_speedCount UseStats.a_speedSum UseStats.a_totalDistance
         UseStats.acc0 Nat.ltb Nat.leb INR].
    rewrite calories_formula.
    rewrite (proj1 (metValue_brackets _)) by lra.
    unfold Math_round, or_default. apply Int_part_between. lra.
Qed.

(** ** Unit conversion *)

Lemma convert_km_to_mi (d : R) :
  UseStats.convertDistance km d mi = toFixed 2 (d * 0.621371).
Proof. reflexivity. Qed.

Lemma convert_mi_to_km (d : R) :
  UseStats.convertDistance mi d km = toFixed 2 (d / 0.621371).
Proof. reflexivity. Qed.

Lemma convert_same_unit (u : DistanceUnit) (d : R) :
  UseStats.convertDistance u d u = d.
Proof. destruct u; reflexivity. Qed.

Lemma five_km_in_mi : UseStats.convertDistance km 5 mi = 3.11.
Proof.
  rewrite convert_km_to_mi, (toFixed_nonneg 2 _ 311); simpl; lra.
Qed.

Lemma back_to_km : UseStats.convertDistance mi 3.11 km = 5.01.
Proof.
  rewrite convert_mi_to_km, (toFixed_nonneg 2 _ 501); simpl; lra.
Qed.

(** 5 km becomes 3.11 mi, and 3.11 mi becomes 5.01 km: the round trip
    misses the original by a hundredth. *)
Lemma C8_round_trip_counterexample :
  UseStats.convertDistance mi (UseStats.convertDistance km 5 mi) km = 5.01 /\
  ~ Rabs (UseStats.convertDistance mi (UseStats.convertDistance km 5 mi) km - 5)
    <= 1e-6.
Proof.
  rewrite five_km_in_mi, back_to_km. split; [reflexivity |].
  replace (5.01 - 5) with 0.01 by lra.
  rewrite Rabs_pos_eq by lra. lra.
Qed.

(** C8, amended.  Each converting call of [convertDistance] rounds its
    result to two decimals.  From km to mi (under the preference km) and
    back (under the preference mi) the original is recovered within
    0.005 + 0.005 / 0.621371 < 0.0131; from mi to km and back within
    0.005 + 0.005 * 0.621371 < 0.0082; a call whose target unit is
    already the preferred one returns its argument. *)
Theorem C8_round_trip_within_rounding :
  forall d : R,
    Rabs (UseStats.convertDistance mi (UseStats.convertDistance km d mi) km - d)
      <= 0.0131 /\
    Rabs (UseStats.convertDistance km (UseStats.convertDistance mi d km) mi - d)
      <= 0.0082 /\
    UseStats.convertDistance km d km = d /\
    UseStats.convertDistance mi d mi = d.
Proof.
  intros d. rewrite !convert_km_to_mi, !convert_mi_to_km.
  repeat split.
  - pose proof (toFixed2_error (d * 0.621371)) as H1.
    pose proof (toFixed2_error (toFixed 2 (d * 0.621371) / 0.621371)) as H2.
    set (y := toFixed 2 (d * 0.621371)) in *.
    set (z := toFixed 2 (y / 0.621371)) in *.
    apply Rabs_le. apply Rabs_le_both in H1, H2. lra.
  - pose proof (toFixed2_error (d / 0.621371)) as H1.
    pose proof (toFixed2_error (toFixed 2 (d / 0.621371) * 0.621371)) as H2.
    set (y := toFixed 2 (d / 0.621371)) in *.
    set (z := toFixed 2 (y * 0.621371)) in *.
    apply Rabs_le. apply Rabs_le_both in H1, H2. lra.
Qed.

(** ** The example deliveries *)

Lemma point_of_loc_start : locationData Samples.loc_start = Samples.p_start.
Proof.
  unfold locationData, Samples.loc_start, Samples.p_start, or_default; cbn.
  rewrite truthy_true by lra. reflexivity.
Qed.

Lemma point_of_loc_far : locationData Samples.loc_far = Samples.p_far.
Proof.
  unfold locationData, Samples.loc_far, Samples.p_far, or_default; cbn.
  rewrite !truthy_true by lra. reflexivity.
Qed.

Lemma point_of_loc_near : locationData Samples.loc_near = Samples.p_near.
Proof.
  unfold locationData, Samples.loc_near, Samples.p_near, or_default; cbn.
  rewrite !truthy_true by lra. reflexivity.
Qed.

Lemma point_of_loc_still : locationData Samples.loc_still = Samples.p_still.
Proof.
  unfold locationData, Samples.loc_still, Samples.p_still, or_default; cbn.
  rewrite !truthy_true by lra. reflexivity.
Qed.

(** One degree of latitude is 6371 * PI / 180 km, far above the jump
    threshold. *)
Lemma one_degree_north :
  TrackingContext.calculateDistance 1 1 2 1 = 6371 * (PI / 180).
Proof. rewrite ctx_distance_meridian by lra. lra. Qed.

Lemma one_degree_is_a_jump : 0.1 < 6371 * (PI / 180).
Proof. generalize PI_bounds; lra. Qed.

(** ** The batch loop of the statistics hook *)

(** The loop reads only the coordinates of its previous point. *)
Lemma routeLoop_prev_coords (u : DistanceUnit) (rest : list LocationPoint) :
  forall (acc : UseStats.Acc) (p p' : LocationPoint),
    latitude p' = latitude p -> longitude p' = longitude p ->
    UseStats.routeLoop u acc p' rest = UseStats.routeLoop u acc p rest.
Proof.
  destruct rest as [| cur rest]; intros acc p p' Hlat Hlon; [reflexivity |].
  cbn [UseStats.routeLoop]. unfold UseStats.loopBody. now rewrite Hlat, Hlon.
Qed.

Lemma loopBody_jump (u : DistanceUnit) (acc : UseStats.Acc)
    (prev cur : LocationPoint) :
  0.1 < UseStats.calculateDistance u (latitude prev) (longitude prev)
                                     (latitude cur) (longitude cur) ->
  UseStats.loopBody u acc prev cur = acc.
Proof. intros H. unfold UseStats.loopBody. now rewrite Rltb_true. Qed.

Lemma elevationLoop_step (g : R) (prev cur : LocationPoint)
    (rest : list LocationPoint) :
  UseStats.elevationLoop g prev (cur :: rest) =
  UseStats.elevationLoop (g + Rmax 0 (altitude cur - altitude prev)) cur rest.
Proof.
  cbn [UseStats.elevationLoop]. rewrite !or_num_zero. f_equal.
  unfold Rmax, Rltb.
  destruct (Rlt_dec (altitude prev) (altitude cur));
    destruct (Rle_dec 0 (altitude cur - altitude prev)); lra.
Qed.

(** C9. In the loop of [processRouteData], a sample more than 0.1 away
    from its predecessor leaves every accumulator and every series as it
    was (maximum, minimum, sum and count of speeds, speed, pace and
    altitude series, and the distance), and nothing but its coordinates
    has any influence on the rest of the loop; the elevation gain, computed
    by [calculateElevationGain] over all consecutive pairs, still receives
    the positive part of its altitude difference. *)
Theorem C9_jump_sample_skipped_but_climbs :
  forall (u : DistanceUnit) (acc : UseStats.Acc) (prev cur : LocationPoint)
         (rest : list LocationPoint) (g : R),
    0.1 < UseStats.calculateDistance u (latitude prev) (longitude prev)
                                       (latitude cur) (longitude cur) ->
    UseStats.loopBody u acc prev cur = acc /\
    UseStats.routeLoop u acc prev (cur :: rest) = UseStats.routeLoop u acc cur rest /\
    (forall cur' : LocationPoint,
       latitude cur' = latitude cur -> longitude cur' = longitude cur ->
       UseStats.routeLoop u acc prev (cur' :: rest) =
       UseStats.routeLoop u acc prev (cur :: rest)) /\
    UseStats.elevationLoop g prev (cur :: rest) =
    UseStats.elevationLoop (g + Rmax 0 (altitude cur - altitude prev)) cur rest.
Proof.
  intros u acc prev cur rest g Hjump.
  split; [now apply loopBody_jump |].
  split; [cbn [UseStats.routeLoop]; now rewrite loopBody_jump |].
  split; [| apply elevationLoop_step].
  intros cur' Hlat Hlon. cbn [UseStats.routeLoop].
  rewrite !loopBody_jump by (rewrite ?Hlat, ?Hlon; assumption).
  now apply routeLoop_prev_coords.
Qed.

(** The far sample reports 5 m/s and lies 10 m higher than the start: the
    loop over start, far, near ends with the maximum 3 * 3.6 of the near
    sample alone, one speed entry, and an elevation gain of 10. *)
Lemma C9_far_sample_example :
  let acc := UseStats.routeLoop km UseStats.acc0 Samples.p_start
               [Samples.p_far; Samples.p_near] in
  UseStats.a_maxSpeed acc = Rmax 0 (3 * 3.6) /\
  UseStats.a_speedCount acc = 1%nat /\
  length (UseStats.a_speedData acc) = 1%nat /\
  UseStats.calculateElevationGain [Samples.p_start; Samples.p_far; Samples.p_near]
  = 0 + Rmax 0 (20 - 10) + Rmax 0 (20 - 20).
Proof.
  assert (Hjump : 0.1 < UseStats.calculateDistance km
                          (latitude Samples.p_start) (longitude Samples.p_start)
                          (latitude Samples.p_far) (longitude Samples.p_far)).
  { rewrite hook_km_is_ctx. cbn. rewrite one_degree_north.
    apply one_degree_is_a_jump. }
  destruct (C9_jump_sample_skipped_but_climbs km UseStats.acc0 Samples.p_start
              Samples.p_far [Samples.p_near] 0 Hjump) as (_ & Hloop & _ & Hgain).
  cbv zeta. rewrite Hloop.
  unfold UseStats.calculateElevationGain. rewrite Hgain, elevationLoop_step.
  cbn [UseStats.routeLoop UseStats.elevationLoop]. unfold UseStats.loopBody.
  cbn [latitude longitude speed altitude timestamp Samples.p_far Samples.p_near].
  rewrite hook_distance_same. unfold UseStats.formatSpeed. cbn [unit_eqb].
  rewrite (Rltb_false 0.1 0) by lra.
  rewrite !truthy_true by lra. cbn [negb].
  rewrite (Rltb_true 0 (3 * 3.6)) by lra.
  cbn. repeat split; reflexivity.
Defined.

(** ** The tracking service: samples *)

Lemma date_of_string_of_zero : TrackingService.date_of_string_of 0 = 0.
Proof.
  unfold TrackingService.date_of_string_of.
  rewrite (Int_part_between _ 0); lra.
Qed.

Lemma service_start_example :
  TrackingService.startTracking Samples.service_env 1
    TrackingService.initialData Samples.service_world =
  (TrackingService.Success 7%nat, Samples.service_started,
   Samples.service_world_started).
Proof.
  unfold TrackingService.startTracking. cbn.
  rewrite point_of_loc_start, date_of_string_of_zero. reflexivity.
Qed.

(** While tracking, the service appends the sample and adds the whole
    distance from the previous point, whatever its size. *)
Lemma service_update_adds_segment (calc : R -> R -> R -> R -> R)
    (location : Location) (d : TrackingService.TrackingData)
    (w : TrackingService.World) (hist : list LocationPoint) (prev : LocationPoint) :
  TrackingService.isTracking d = true ->
  TrackingService.locationHistory d = hist ++ [prev] ->
  let d' := fst (TrackingService.updateTracking calc location d w) in
  TrackingService.distance d' =
    TrackingService.distance d +
    calc (latitude prev) (longitude prev)
         (c_latitude (coords location)) (c_longitude (coords location)) /\
  TrackingService.locationHistory d' =
    TrackingService.locationHistory d ++ [locationData location].
Proof.
  intros Ht Hh. unfold TrackingService.updateTracking. rewrite Ht. cbn [negb fst].
  cbv zeta. cbn [fst TrackingService.distance TrackingService.locationHistory].
  split; [| reflexivity].
  rewrite Hh. rewrite !length_app. cbn [length].
  replace (length hist + 1 + 1 - 2)%nat with (length hist) by lia.
  replace (1 <? length hist + 1 + 1)%nat with true
    by (symmetry; apply Nat.ltb_lt; lia).
  rewrite <- app_assoc. rewrite nth_error_app2 by lia.
  rewrite Nat.sub_diag. reflexivity.
Qed.

(** C10. A location delivered to [updateTracking] while [isTracking] is
    false changes nothing: the tracking data (history, distance, current,
    maximum, minimum and average speed, duration, current location) and
    the crash-recovery cache are returned as they were. *)
Theorem C10_update_ignored_when_not_tracking :
  forall (calc : R -> R -> R -> R -> R) (location : Location)
         (d : TrackingService.TrackingData) (w : TrackingService.World),
    TrackingService.isTracking d = false ->
    TrackingService.updateTracking calc location d w = (d, w).
Proof.
  intros calc location d w H. unfold TrackingService.updateTracking.
  now rewrite H.
Qed.

(** A session is started, paused, and then receives the far sample. *)
Lemma C10_paused_session_example :
  let '(_, d1, w1) :=
    TrackingService.startTracking Samples.service_env 1
      TrackingService.initialData Samples.service_world in
  let '(_, d2, w2) := TrackingService.pauseTracking Samples.service_env d1 w1 in
  TrackingService.isTracking d2 = false /\
  TrackingService.locationHistory d2 = [Samples.p_start] /\
  TrackingService.updateTracking Formatters.calculateDistance Samples.loc_far d2 w2
  = (d2, w2).
Proof.
  rewrite service_start_example.
  cbn -[TrackingService.updateTracking].
  split; [reflexivity | split; [reflexivity |]].
  apply C10_update_ignored_when_not_tracking. reflexivity.
Defined.

(** C2, on the tracking service.  After a start at one degree north, a
    sample one degree further north is appended to the history and its
    whole segment, about 111 km, is added to the distance: the service
    has no jump rejection. *)
Theorem C2_service_accumulates_jump :
  let d' := fst (TrackingService.updateTracking Formatters.calculateDistance
                   Samples.loc_far Samples.service_started
                   Samples.service_world_started) in
  TrackingService.distance d' = 0 + 6371 * (PI / 180) /\
  0.1 < TrackingService.distance d' /\
  TrackingService.locationHistory d' = [Samples.p_start; Samples.p_far].
Proof.
  destruct (service_update_adds_segment Formatters.calculateDistance
              Samples.loc_far Samples.service_started
              Samples.service_world_started [] Samples.p_start
              eq_refl eq_refl) as [Hd Hh].
  cbv zeta. rewrite Hd, Hh. cbn [Samples.p_start latitude longitude
    Samples.loc_far coords c_latitude c_longitude
    Samples.service_started TrackingService.distance
    TrackingService.locationHistory app].
  rewrite formatters_is_ctx, one_degree_north, point_of_loc_far.
  split; [reflexivity | split; [| reflexivity]].
  generalize one_degree_is_a_jump; lra.
Qed.

(** The two sibling paths do reject that segment. *)
Lemma context_jump_adds_nothing (now : R) (newLocation prev : LocationPoint)
    (s : TrackingContext.State) :
  TrackingContext.lastLocationRef s = Some prev ->
  0.1 <= TrackingContext.calculateDistance (latitude prev) (longitude prev)
           (latitude newLocation) (longitude newLocation) ->
  TrackingContext.distance
    (TrackingContext.stats (TrackingContext.updateStats now newLocation s)) =
  TrackingContext.distance (TrackingContext.stats s).
Proof.
  intros Hl Hj. unfold TrackingContext.updateStats. rewrite Hl. cbn.
  now rewrite Rltb_false.
Qed.

Lemma context_update_keeps_sample (now : R) (location : Location)
    (s : TrackingContext.State) :
  TrackingContext.route (TrackingContext.handleLocationUpdate now location s) =
  TrackingContext.route s ++ [locationData location].
Proof. reflexivity. Qed.

Lemma hook_jump_adds_nothing (u : DistanceUnit) (acc : UseStats.Acc)
    (prev cur : LocationPoint) :
  0.1 < UseStats.calculateDistance u (latitude prev) (longitude prev)
                                     (latitude cur) (longitude cur) ->
  UseStats.a_totalDistance (UseStats.loopBody u acc prev cur) =
  UseStats.a_totalDistance acc.
Proof. intros H. now rewrite loopBody_jump. Qed.

(** ** Stopping when the store refuses the write *)

(** In the service the flags are changed before the document is written:
    a refused write leaves a session that is no longer tracking, and a
    second [stopTracking] is turned away. *)
Lemma service_stop_write_failure (e e' : TrackingService.Env) (userId : nat)
    (d : TrackingService.TrackingData) (w : TrackingService.World)
    (trackingId : nat) (start : R) :
  TrackingService.isTracking d = true ->
  TrackingService.stopUpdates_ok e = true ->
  TrackingService.set_ok e = false ->
  TrackingService.current_tracking_id (TrackingService.storage w) = Some trackingId ->
  TrackingService.startTime d = Some start ->
  exists d' w',
    TrackingService.stopTracking e userId d w = (TrackingService.Failure TrackingService.Thrown, d', w') /\
    TrackingService.isTracking d' = false /\
    TrackingService.endTime d' = Some (TrackingService.now e) /\
    TrackingService.locationHistory d' = TrackingService.locationHistory d /\
    TrackingService.distance d' = TrackingService.distance d /\
    TrackingService.tracking_sessions w' = TrackingService.tracking_sessions w /\
    TrackingService.stopTracking e' userId d' w' =
      (TrackingService.Failure TrackingService.No_active_tracking_session, d', w').
Proof.
  intros Ht Hs Hw Hid Hst. unfold TrackingService.stopTracking at 1.
  rewrite Ht, Hs. cbn [negb]. cbn. rewrite Hid, Hst, Hw. cbn [negb].
  eexists; eexists. split; [reflexivity |].
  repeat split.
Qed.

(** C3, on the tracking service.  An active session with one point is
    stopped while the write of the session document fails: the error is
    returned, but [isTracking] is now false, [endTime] is stamped and the
    [Infinity] minimum has become 0; the history and the distance are
    still in memory, no document was written, and stopping again is
    refused with "No active tracking session". *)
Theorem C3_service_stop_failure_leaves_session_inactive :
  exists d' w',
    TrackingService.stopTracking Samples.service_env_write_fails 1
      Samples.service_started Samples.service_world_started =
    (TrackingService.Failure TrackingService.Thrown, d', w') /\
    TrackingService.isTracking Samples.service_started = true /\
    TrackingService.isTracking d' = false /\
    TrackingService.endTime d' = Some 20000 /\
    TrackingService.minSpeed d' = Fin 0 /\
    TrackingService.locationHistory d' = [Samples.p_start] /\
    TrackingService.tracking_sessions w' = [] /\
    TrackingService.stopTracking Samples.service_env 1 d' w' =
    (TrackingService.Failure TrackingService.No_active_tracking_session, d', w').
Proof.
  eexists; eexists. split; [reflexivity |]. repeat split.
Qed.

(** In the context the flag, the route, the figures and the document
    reference are only changed after the write: a refused write shows the
    alert, returns [null], and leaves them as they were, so that a second
    [stopTracking] can save the ride.  The subscription has been removed
    and [endTime] stamped by then. *)
Lemma context_stop_write_failure (e : TrackingContext.Env)
    (s : TrackingContext.State) (w : TrackingContext.World) (uid ref : nat) :
  TrackingContext.user e = Some uid ->
  TrackingContext.activityDocRef s = Some ref ->
  TrackingContext.updateDoc_ok e = false ->
  exists s' w',
    TrackingContext.stopTracking e s w = (None, s', w') /\
    TrackingContext.isTracking s' = TrackingContext.isTracking s /\
    TrackingContext.route s' = TrackingContext.route s /\
    TrackingContext.activityDocRef s' = Some ref /\
    TrackingContext.startTimeRef s' = TrackingContext.startTimeRef s /\
    TrackingContext.distance (TrackingContext.stats s') =
      TrackingContext.distance (TrackingContext.stats s) /\
    TrackingContext.maxSpeed (TrackingContext.stats s') =
      TrackingContext.maxSpeed (TrackingContext.stats s) /\
    TrackingContext.averageSpeed (TrackingContext.stats s') =
      TrackingContext.averageSpeed (TrackingContext.stats s) /\
    TrackingContext.duration (TrackingContext.stats s') =
      TrackingContext.duration (TrackingContext.stats s) /\
    TrackingContext.locationSubscription s' = None /\
    TrackingContext.endTime (TrackingContext.stats s') = Some (TrackingContext.now e) /\
    TrackingContext.rides w' = TrackingContext.rides w /\
    TrackingContext.alerts w' =
      TrackingContext.alerts w ++ [TrackingContext.alert_failed_save].
Proof.
  intros Hu Hr Hw. unfold TrackingContext.stopTracking, TrackingContext.removeSubscription.
  destruct (TrackingContext.locationSubscription s) eqn:Hsub; cbn;
    rewrite Hu, Hr; destruct (TrackingContext.startTime (TrackingContext.stats s));
    rewrite ?Hw; eexists; eexists; (split; [reflexivity |]); cbn;
    repeat split; auto.
Qed.

(** ** Starting a ride in the tracking context *)

Lemma context_start_succeeds (e : TrackingContext.Env)
    (s : TrackingContext.State) (w : TrackingContext.World) (loc0 : Location) :
  TrackingContext.isTracking s = false ->
  TrackingContext.permission_granted e = true ->
  TrackingContext.position e = Some loc0 ->
  TrackingContext.watch_ok e = true ->
  TrackingContext.user e = None \/ TrackingContext.addDoc_ok e = true ->
  let s1 := fst (TrackingContext.startTracking e s w) in
  let w1 := snd (TrackingContext.startTracking e s w) in
  TrackingContext.isTracking s1 = true /\
  TrackingContext.route s1 = [locationData loc0] /\
  TrackingContext.lastLocationRef s1 = Some (locationData loc0) /\
  TrackingContext.distance (TrackingContext.stats s1) = 0 /\
  TrackingContext.maxSpeed (TrackingContext.stats s1) = 0 /\
  TrackingContext.startTimeRef s1 = Some (TrackingContext.now e) /\
  TrackingContext.locationSubscription s1 = Some (TrackingContext.next_handle w) /\
  length (TrackingContext.rides w1) =
    (length (TrackingContext.rides w) +
     match TrackingContext.user e with Some _ => 1 | None => 0 end)%nat.
Proof.
  intros Ht Hp Hpos Hw Hu. unfold TrackingContext.startTracking.
  rewrite Ht, Hp, Hpos, Hw. cbn [negb].
  destruct (TrackingContext.user e) as [uid |].
  - destruct Hu as [Hu | Hu]; [discriminate |]. rewrite Hu. cbn.
    repeat split. rewrite length_app. reflexivity.
  - cbn. repeat split. lia.
Qed.

(** C5, amended.  In the tracking context, [startTracking] called while
    [isTracking] is true returns at once: the route, the figures, the
    subscription, the document reference and the document store are all
    as before. *)
Theorem C5_start_while_tracking_is_noop :
  forall (e : TrackingContext.Env) (s : TrackingContext.State)
         (w : TrackingContext.World),
    TrackingContext.isTracking s = true ->
    TrackingContext.startTracking e s w = (s, w).
Proof.
  intros e s w H. unfold TrackingContext.startTracking. now rewrite H.
Qed.

(** A ride is started and receives a sample; a second start changes
    nothing. *)
Lemma C5_second_start_example :
  let '(s1, w1) :=
    TrackingContext.startTracking Samples.context_env
      TrackingContext.initialState TrackingContext.initialWorld in
  let s2 := TrackingContext.handleLocationUpdate 10000 Samples.loc_still s1 in
  TrackingContext.isTracking s2 = true /\
  length (TrackingContext.route s2) = 2%nat /\
  length (TrackingContext.rides w1) = 1%nat /\
  TrackingContext.startTracking Samples.context_env s2 w1 = (s2, w1).
Proof.
  cbn -[TrackingContext.startTracking TrackingContext.updateStats locationData].
  unfold TrackingContext.startTracking at 1. cbn -[locationData TrackingContext.updateStats].
  split; [reflexivity | split; [reflexivity | split; [reflexivity |]]].
  apply C5_start_while_tracking_is_noop. reflexivity.
Defined.

(** The same ride is paused instead; [isTracking] is false then, and a
    start goes through: the route of two points is replaced by the start
    point, a second document is created and a new watcher is opened.  In
    the service, a start during an active session replaces the history
    and the cached session id in the same way. *)
Lemma C5_start_while_paused_counterexample :
  (let '(s1, w1) :=
     TrackingContext.startTracking Samples.context_env
       TrackingContext.initialState TrackingContext.initialWorld in
   let s2 := TrackingContext.handleLocationUpdate 10000 Samples.loc_still s1 in
   let '(s3, w3) := TrackingContext.pauseTracking Samples.context_env s2 w1 in
   let '(s4, w4) := TrackingContext.startTracking Samples.context_env s3 w3 in
   (TrackingContext.route s3 = [Samples.p_start; Samples.p_still] /\
    TrackingContext.activityDocRef s3 = Some 0%nat /\
    length (TrackingContext.rides w3) = 1%nat /\
    TrackingContext.watchers w3 = []) /\
   (TrackingContext.route s4 = [Samples.p_start] /\
    TrackingContext.activityDocRef s4 = Some 1%nat /\
    length (TrackingContext.rides w4) = 2%nat /\
    TrackingContext.watchers w4 = [1%nat]) /\
   (s4, w4) <> (s3, w3)) /\
  (let '(_, d1, w1) :=
     TrackingService.startTracking Samples.service_env_write_fails 1
       Samples.service_started Samples.service_world_started in
   TrackingService.isTracking Samples.service_started = true /\
   TrackingService.startTime Samples.service_started = Some 0 /\
   TrackingService.startTime d1 = Some 20000 /\
   d1 <> Samples.service_started).
Proof.
  split.
  - cbv -[locationData TrackingContext.calculateDistance Rltb truthy Rmax
          Rdiv Rminus Rmult Rplus IZR
          Samples.loc_start Samples.loc_still Samples.p_start Samples.p_still].
    rewrite point_of_loc_start, point_of_loc_still.
    split; [repeat split |]. split; [repeat split |].
    intros H.
    apply (f_equal (fun p => length (TrackingContext.route (fst p)))) in H.
    discriminate H.
  - unfold TrackingService.startTracking. cbn -[locationData TrackingService.date_of_string_of].
    repeat split. intros H.
    apply (f_equal TrackingService.startTime) in H. cbn in H.
    injection H; lra.
Qed.

(** ** Crash recovery in the tracking service *)

(** A segment that is not a jump is added to the batch total. *)
Lemma loopBody_keeps_segment (u : DistanceUnit) (acc : UseStats.Acc)
    (prev cur : LocationPoint) :
  UseStats.calculateDistance u (latitude prev) (longitude prev)
                               (latitude cur) (longitude cur) <= 0.1 ->
  UseStats.a_totalDistance (UseStats.loopBody u acc prev cur) =
  UseStats.a_totalDistance acc +
  UseStats.calculateDistance u (latitude prev) (longitude prev)
                               (latitude cur) (longitude cur).
Proof.
  intros H. unfold UseStats.loopBody. rewrite Rltb_false by assumption.
  cbv zeta.
  destruct (Rltb 0 _); destruct (truthy (altitude cur)); reflexivity.
Qed.

(** Without a jump, the plain sum of the recovery loop is the batch
    total. *)
Lemma distanceLoop_is_batch_total (rest : list LocationPoint) :
  forall (acc : UseStats.Acc) (prev : LocationPoint),
    segments_hold at_most_threshold (UseStats.calculateDistance km) prev rest ->
    TrackingService.distanceLoop Formatters.calculateDistance
      (UseStats.a_totalDistance acc) prev rest =
    UseStats.a_totalDistance (UseStats.routeLoop km acc prev rest).
Proof.
  induction rest as [| cur rest IH]; intros acc prev Hseg; [reflexivity |].
  destruct Hseg as [Hcur Hrest]. unfold at_most_threshold in Hcur.
  cbn [TrackingService.distanceLoop UseStats.routeLoop].
  rewrite <- (IH _ _ Hrest). f_equal.
  now rewrite loopBody_keeps_segment.
Qed.

Lemma recovered_distance_is_batch_distance (weight : option R) (dur : R)
    (history : list LocationPoint) :
  route_segments at_most_threshold (UseStats.calculateDistance km) history ->
  UseStats.distance (UseStats.processRouteData km weight dur history) =
  toFixed 2
    match history with
    | first :: (_ :: _) as rest =>
        TrackingService.distanceLoop Formatters.calculateDistance 0 first rest
    | _ => 0
    end.
Proof.
  intros Hseg. destruct history as [| first [| second rest]].
  - cbn. now rewrite toFixed_zero.
  - cbn. now rewrite toFixed_zero.
  - cbn [UseStats.processRouteData UseStats.distance]. f_equal.
    symmetry. apply (distanceLoop_is_batch_total (second :: rest) UseStats.acc0 first).
    exact Hseg.
Qed.

(** The recovery, when the position fix and the restart of the location
    updates succeed. *)
Lemma resume_result (calc : R -> R -> R -> R -> R) (e : TrackingService.Env)
    (data : TrackingService.InterruptedData) (d : TrackingService.TrackingData)
    (w : TrackingService.World) (location : Location) :
  TrackingService.position e = Some location ->
  TrackingService.startUpdates_ok e = true ->
  TrackingService.resumeInterruptedTracking calc e data d w =
  (TrackingService.Success (TrackingService.i_trackingId data),
   {| TrackingService.isTracking := true;
      TrackingService.startTime := Some (TrackingService.i_startTime data);
      TrackingService.endTime := None;
      TrackingService.duration := 0;
      TrackingService.distance :=
        match TrackingService.i_locationHistory data with
        | first :: (_ :: _) as rest => TrackingService.distanceLoop calc 0 first rest
        | _ => 0
        end;
      TrackingService.currentSpeed := 0;
      TrackingService.maxSpeed :=
        fst (TrackingService.speedLoop 0 Infinity
               (TrackingService.i_locationHistory data));
      TrackingService.minSpeed :=
        snd (TrackingService.speedLoop 0 Infinity
               (TrackingService.i_locationHistory data));
      TrackingService.avgSpeed := 0;
      TrackingService.locationHistory := TrackingService.i_locationHistory data;
      TrackingService.currentLocation := Some location |},
   TrackingService.with_updates true w).
Proof.
  intros Hpos Hup. unfold TrackingService.resumeInterruptedTracking.
  rewrite Hpos, Hup.
  cbn [TrackingService.maxSpeed TrackingService.minSpeed negb
       TrackingService.startTime TrackingService.distance].
  destruct (TrackingService.speedLoop 0 Infinity _) as [mx mn]. reflexivity.
Qed.

(** The batch figures for the start point followed by a sample at the
    same place that reports 5 m/s. *)
Lemma batch_average_of_example :
  UseStats.averageSpeed
    (UseStats.processRouteData km None 10 [Samples.p_start; Samples.p_still]) = 18.
Proof.
  cbn [UseStats.processRouteData UseStats.averageSpeed UseStats.routeLoop].
  unfold UseStats.loopBody.
  cbn [latitude longitude speed altitude timestamp Samples.p_start Samples.p_still].
  rewrite hook_distance_same. unfold UseStats.formatSpeed. cbn [unit_eqb].
  rewrite (Rltb_false 0.1 0) by lra.
  rewrite !truthy_true by lra. cbn [negb].
  rewrite (Rltb_true 0 (5 * 3.6)) by lra.
  cbv zeta. unfold UseStats.averageOf.
  cbn [UseStats.a_speedCount UseStats.a_speedSum UseStats.acc0 Nat.ltb Nat.leb INR].
  rewrite (toFixed_nonneg 1 _ 180); simpl; lra.
Qed.

(** The speed loop of the recovery returns the largest and the smallest
    of the positive cached speeds, in km/h, or its starting values. *)
Lemma speedLoop_spec (points : list LocationPoint) :
  forall (mx : R) (mn : ext),
    let r := TrackingService.speedLoop mx mn points in
    mx <= fst r /\
    (forall p : LocationPoint, In p points -> 0 < speed p ->
       speed p * 3.6 <= fst r /\
       exists m : R, snd r = Fin m /\ m <= speed p * 3.6) /\
    (fst r = mx \/
     exists p : LocationPoint, In p points /\ 0 < speed p /\ fst r = speed p * 3.6) /\
    (snd r = mn \/
     exists p : LocationPoint,
       In p points /\ 0 < speed p /\ snd r = Fin (speed p * 3.6)) /\
    (forall m0 : R, mn = Fin m0 -> exists m : R, snd r = Fin m /\ m <= m0).
Proof.
  induction points as [| point rest IH]; intros mx mn; cbv zeta.
  - cbn. split; [lra |]. split; [intros p [] |]. split; [now left |].
    split; [now left |]. intros m0 ->. exists m0. split; [reflexivity | lra].
  - cbn [TrackingService.speedLoop].
    destruct (Rlt_dec 0 (speed point)) as [Hpos | Hnpos].
    + rewrite (Rltb_true 0 (speed point)) by assumption. cbv zeta.
      set (s := speed point * 3.6).
      destruct (IH (Rmax mx s) (ext_min mn s)) as (Hge & Hall & Hmax & Hmin & Hdown).
      set (r := TrackingService.speedLoop (Rmax mx s) (ext_min mn s) rest) in *.
      assert (Hm1 : exists m1 : R, ext_min mn s = Fin m1 /\ m1 <= s /\
                      (forall m0, mn = Fin m0 -> m1 <= m0)).
      { destruct mn as [m0 |]; cbn [ext_min].
        - exists (Rmin m0 s). split; [reflexivity |]. split; [apply Rmin_r |].
          intros m0' H. injection H as <-. apply Rmin_l.
        - exists s. split; [reflexivity |]. split; [lra |]. intros m0 H. discriminate. }
      destruct Hm1 as (m1 & Hm1 & Hm1s & Hm1d).
      destruct (Hdown m1 Hm1) as (m & Hm & Hmle).
      pose proof (Rmax_l mx s) as Hl. pose proof (Rmax_r mx s) as Hr.
      split; [lra |]. split; [| split; [| split]].
      * intros p [<- | Hin] Hp.
        -- fold s. split; [lra |]. exists m. split; [exact Hm | lra].
        -- now apply Hall.
      * destruct Hmax as [Hmax | (p & Hin & Hp & Hmax)].
        -- rewrite Hmax. unfold Rmax. destruct (Rle_dec mx s).
           ++ right. exists point. split; [now left |]. split; [assumption | reflexivity].
           ++ now left.
        -- right. exists p. split; [now right |]. split; assumption.
      * destruct Hmin as [Hmin | (p & Hin & Hp & Hmin)].
        -- rewrite Hmin. destruct mn as [m0 |]; cbn [ext_min].
           ++ unfold Rmin. destruct (Rle_dec m0 s).
              ** now left.
              ** right. exists point. split; [now left |].
                 split; [assumption | reflexivity].
           ++ right. exists point. split; [now left |].
              split; [assumption | reflexivity].
        -- right. exists p. split; [now right |]. split; assumption.
      * intros m0 Hm0. exists m. split; [exact Hm |].
        specialize (Hm1d m0 Hm0). lra.
    + rewrite (Rltb_false 0 (speed point)) by lra.
      destruct (IH mx mn) as (Hge & Hall & Hmax & Hmin & Hdown).
      split; [exact Hge |]. split; [| split; [| split]].
      * intros p [<- | Hin] Hp; [lra | now apply Hall].
      * destruct Hmax as [Hmax | (p & Hin & Hp & Hmax)]; [now left |].
        right. exists p. split; [now right |]. split; assumption.
      * destruct Hmin as [Hmin | (p & Hin & Hp & Hmin)]; [now left |].
        right. exists p. split; [now right |]. split; assumption.
      * exact Hdown.
Qed.

(** C4, amended.  When the cache holds a session id and a start time,
    [checkForInterruptedTracking] reports them with the cached route
    snapshot, and [resumeInterruptedTracking] (the position fix and the
    restart of the location updates succeeding) returns the cached id,
    leaves the session tracking with the cached route as its history,
    and creates no session document and no new id.  When no segment of
    the snapshot exceeds 0.1 km, the recomputed distance is the total of
    the batch algorithm, whose reported distance is that total rounded to
    two decimals.  The maximum speed is the largest and the minimum speed
    the smallest of the speeds, in km/h, of the cached samples that report
    a positive speed (0 and [Infinity] when there is none); duration and
    average speed are left at 0. *)
Theorem C4_recovery_reuses_session_and_recomputes_distance :
  forall (e : TrackingService.Env) (d : TrackingService.TrackingData)
         (w : TrackingService.World) (trackingId : nat) (start : R)
         (location : Location) (weight : option R) (dur : R),
    TrackingService.current_tracking_id (TrackingService.storage w) = Some trackingId ->
    TrackingService.tracking_start_time (TrackingService.storage w) = Some start ->
    TrackingService.position e = Some location ->
    TrackingService.startUpdates_ok e = true ->
    exists data d' w',
      TrackingService.checkForInterruptedTracking w = Some data /\
      TrackingService.i_trackingId data = trackingId /\
      TrackingService.i_locationHistory data =
        match TrackingService.location_history (TrackingService.storage w) with
        | Some h => h
        | None => []
        end /\
      TrackingService.resumeInterruptedTracking Formatters.calculateDistance e data d w =
        (TrackingService.Success trackingId, d', w') /\
      TrackingService.isTracking d' = true /\
      TrackingService.locationHistory d' = TrackingService.i_locationHistory data /\
      TrackingService.startTime d' = Some start /\
      (route_segments at_most_threshold (UseStats.calculateDistance km)
         (TrackingService.i_locationHistory data) ->
       UseStats.distance
         (UseStats.processRouteData km weight dur
            (TrackingService.i_locationHistory data)) =
       toFixed 2 (TrackingService.distance d')) /\
      (TrackingService.maxSpeed d', TrackingService.minSpeed d') =
        TrackingService.speedLoop 0 Infinity (TrackingService.i_locationHistory data) /\
      TrackingService.duration d' = 0 /\
      TrackingService.avgSpeed d' = 0 /\
      TrackingService.tracking_sessions w' = TrackingService.tracking_sessions w /\
      TrackingService.storage w' = TrackingService.storage w /\
      TrackingService.updates_running w' = true /\
      (forall p : LocationPoint,
         In p (TrackingService.i_locationHistory data) -> 0 < speed p ->
         speed p * 3.6 <= TrackingService.maxSpeed d' /\
         exists m : R, TrackingService.minSpeed d' = Fin m /\ m <= speed p * 3.6) /\
      (TrackingService.maxSpeed d' = 0 \/
       exists p : LocationPoint,
         In p (TrackingService.i_locationHistory data) /\ 0 < speed p /\
         TrackingService.maxSpeed d' = speed p * 3.6) /\
      (TrackingService.minSpeed d' = Infinity \/
       exists p : LocationPoint,
         In p (TrackingService.i_locationHistory data) /\ 0 < speed p /\
         TrackingService.minSpeed d' = Fin (speed p * 3.6)).
Proof.
  intros e d w trackingId start location weight dur Hid Hst Hpos Hup.
  pose proof (speedLoop_spec
                match TrackingService.location_history (TrackingService.storage w) with
                | Some h => h
                | None => []
                end 0 Infinity) as (_ & Hall & Hmax & Hmin & _).
  unfold TrackingService.checkForInterruptedTracking. rewrite Hid, Hst.
  eexists; eexists; eexists.
  split; [reflexivity |]. split; [reflexivity |]. split; [reflexivity |].
  split; [rewrite (resume_result _ _ _ _ _ location Hpos Hup); reflexivity |].
  cbn [TrackingService.isTracking TrackingService.locationHistory
       TrackingService.startTime TrackingService.distance
       TrackingService.maxSpeed TrackingService.minSpeed
       TrackingService.duration TrackingService.avgSpeed
       TrackingService.with_updates TrackingService.tracking_sessions
       TrackingService.storage TrackingService.updates_running
       TrackingService.i_trackingId TrackingService.i_locationHistory
       TrackingService.i_startTime].
  rewrite <- surjective_pairing.
  split; [reflexivity |]. split; [reflexivity |]. split; [reflexivity |].
  split; [intros Hseg; now apply recovered_distance_is_batch_distance |].
  split; [reflexivity |]. split; [reflexivity |]. split; [reflexivity |].
  split; [reflexivity |]. split; [reflexivity |]. split; [reflexivity |].
  split; [exact Hall |]. split; [exact Hmax | exact Hmin].
Qed.

(** A cache whose snapshot holds the start point and a later sample at
    the same place: the recovery resumes session 7 and its distance is the
    batch distance. *)
Lemma C4_recovery_example :
  let w :=
    TrackingService.with_storage
      {| TrackingService.current_tracking_id := Some 7%nat;
         TrackingService.tracking_start_time := Some 0;
         TrackingService.location_history :=
           Some [Samples.p_start; Samples.p_still] |}
      Samples.service_world in
  exists data d' w',
    TrackingService.checkForInterruptedTracking w = Some data /\
    TrackingService.i_locationHistory data = [Samples.p_start; Samples.p_still] /\
    TrackingService.resumeInterruptedTracking Formatters.calculateDistance
      Samples.service_env data TrackingService.initialData w =
    (TrackingService.Success 7%nat, d', w') /\
    TrackingService.isTracking d' = true /\
    UseStats.distance
      (UseStats.processRouteData km None 10 [Samples.p_start; Samples.p_still]) =
    toFixed 2 (TrackingService.distance d') /\
    TrackingService.tracking_sessions w' = [].
Proof.
  intros w.
  destruct (C4_recovery_reuses_session_and_recomputes_distance
              Samples.service_env TrackingService.initialData w 7 0
              Samples.loc_start None 10 eq_refl eq_refl eq_refl eq_refl)
    as (data & d' & w' & Hc & _ & Hh & Hr & Ht & _ & _ & Hd & _ & _ & _ & Hs & _).
  exists data, d', w'. cbn in Hh.
  split; [exact Hc |]. split; [exact Hh |]. split; [exact Hr |].
  split; [exact Ht |]. split; [| exact Hs].
  rewrite Hh in Hd. apply Hd. cbn. split; [| exact I].
  unfold at_most_threshold. rewrite hook_distance_same. lra.
Defined.

(** The snapshot holds the start point and a sample at the same place
    that reports 5 m/s.  Computed from scratch over these two samples, the
    statistics have an average speed of 18; the recovery resumes with an
    average speed and a duration of 0. *)
Lemma C4_recovery_counterexample :
  let w :=
    TrackingService.with_storage
      {| TrackingService.current_tracking_id := Some 7%nat;
         TrackingService.tracking_start_time := Some 0;
         TrackingService.location_history :=
           Some [Samples.p_start; Samples.p_still] |}
      Samples.service_world in
  exists data d' w',
    TrackingService.checkForInterruptedTracking w = Some data /\
    TrackingService.i_locationHistory data = [Samples.p_start; Samples.p_still] /\
    TrackingService.resumeInterruptedTracking Formatters.calculateDistance
      Samples.service_env data TrackingService.initialData w =
    (TrackingService.Success 7%nat, d', w') /\
    TrackingService.avgSpeed d' = 0 /\
    TrackingService.duration d' = 0 /\
    UseStats.averageSpeed
      (UseStats.processRouteData km None 10 (TrackingService.i_locationHistory data))
      = 18 /\
    UseStats.averageSpeed
      (UseStats.processRouteData km None 10 (TrackingService.i_locationHistory data))
      <> TrackingService.avgSpeed d'.
Proof.
  intros w. eexists; eexists; eexists.
  split; [reflexivity |]. split; [reflexivity |].
  split; [rewrite (resume_result Formatters.calculateDistance Samples.service_env
                     _ _ _ Samples.loc_start eq_refl eq_refl); reflexivity |].
  split; [reflexivity |]. split; [reflexivity |].
  assert (Havg :
            UseStats.averageSpeed
              (UseStats.processRouteData km None 10
                 [Samples.p_start; Samples.p_still]) = 18)
    by exact batch_average_of_example.
  split; [exact Havg |].
  intros Heq.
  assert (H18 : 18 = 0) by (rewrite <- Havg; exact Heq).
  lra.
Qed.

(** The defect of the service's distance, in the recovery.  The cache of
    [Samples.service_world_interrupted] holds the start point and the far
    sample: the batch algorithm rejects that segment and reports a
    distance of 0; the recovery adds it and resumes with about 111 km. *)
Lemma recovery_adds_jump_segment :
  exists data d' w',
    TrackingService.checkForInterruptedTracking Samples.service_world_interrupted
      = Some data /\
    TrackingService.resumeInterruptedTracking Formatters.calculateDistance
      Samples.service_env data TrackingService.initialData
      Samples.service_world_interrupted =
    (TrackingService.Success 7%nat, d', w') /\
    TrackingService.distance d' = 0 + 6371 * (PI / 180) /\
    UseStats.distance
      (UseStats.processRouteData km None 5 (TrackingService.i_locationHistory data))
      = 0 /\
    UseStats.distance
      (UseStats.processRouteData km None 5 (TrackingService.i_locationHistory data))
      <> toFixed 2 (TrackingService.distance d').
Proof.
  eexists; eexists; eexists.
  split; [reflexivity |].
  split; [rewrite (resume_result Formatters.calculateDistance Samples.service_env
                     _ _ _ Samples.loc_start eq_refl eq_refl); reflexivity |].
  cbn [TrackingService.distance TrackingService.i_locationHistory
       Samples.service_world_interrupted TrackingService.storage
       TrackingService.location_history].
  cbn [TrackingService.distanceLoop Samples.p_start Samples.p_far
       latitude longitude].
  rewrite formatters_is_ctx, one_degree_north.
  assert (Hbatch : UseStats.distance
            (UseStats.processRouteData km None 5 [Samples.p_start; Samples.p_far]) = 0).
  { cbn [UseStats.processRouteData UseStats.distance UseStats.routeLoop].
    rewrite loopBody_jump.
    - apply toFixed_zero.
    - rewrite hook_km_is_ctx. cbn. rewrite one_degree_north.
      apply one_degree_is_a_jump. }
  split; [reflexivity |]. split; [exact Hbatch |].
  cbn [Samples.p_start Samples.p_far] in Hbatch |- *. rewrite Hbatch.
  intros Heq.
  pose proof (toFixed2_error (0 + 6371 * (PI / 180))) as Herr.
  rewrite <- Heq in Herr. apply Rabs_le_both in Herr.
  generalize one_degree_is_a_jump; lra.
Qed.

(** ** The incremental path of the context against the batch path *)

Lemma loopBody_max (u : DistanceUnit) (acc : UseStats.Acc)
    (prev cur : LocationPoint) :
  UseStats.calculateDistance u (latitude prev) (longitude prev)
                               (latitude cur) (longitude cur) <= 0.1 ->
  UseStats.a_maxSpeed (UseStats.loopBody u acc prev cur) =
  let sp := if truthy (speed cur) then UseStats.formatSpeed u (speed cur) else 0 in
  if Rltb 0 sp then Rmax (UseStats.a_maxSpeed acc) sp else UseStats.a_maxSpeed acc.
Proof.
  intros H. unfold UseStats.loopBody. rewrite Rltb_false by assumption.
  cbv zeta.
  destruct (Rltb 0 _); destruct (truthy (altitude cur)); reflexivity.
Qed.

Lemma context_route_deliver (samples : list (R * Location)) :
  forall s : TrackingContext.State,
    TrackingContext.route (TrackingContext.deliver samples s) =
    TrackingContext.route s ++ map delivered samples.
Proof.
  induction samples as [| [now location] samples IH]; intros s.
  - cbn. now rewrite app_nil_r.
  - cbn [TrackingContext.deliver map]. rewrite IH, context_update_keeps_sample.
    now rewrite <- app_assoc.
Qed.

Lemma context_update_last (now : R) (location : Location)
    (s : TrackingContext.State) :
  TrackingContext.lastLocationRef
    (TrackingContext.handleLocationUpdate now location s) =
  Some (locationData location).
Proof. reflexivity. Qed.

(** One delivery moves the distance of the context as one iteration of
    the batch loop moves its total, unless the segment is exactly 0.1. *)
Lemma context_distance_step (now : R) (location : Location)
    (s : TrackingContext.State) (acc : UseStats.Acc) (prev : LocationPoint) :
  TrackingContext.lastLocationRef s = Some prev ->
  TrackingContext.distance (TrackingContext.stats s) = UseStats.a_totalDistance acc ->
  TrackingContext.calculateDistance (latitude prev) (longitude prev)
    (latitude (locationData location)) (longitude (locationData location)) <> 0.1 ->
  TrackingContext.distance
    (TrackingContext.stats (TrackingContext.handleLocationUpdate now location s)) =
  UseStats.a_totalDistance (UseStats.loopBody km acc prev (locationData location)).
Proof.
  intros Hl Hd Hne.
  unfold TrackingContext.handleLocationUpdate, TrackingContext.updateStats.
  cbn [TrackingContext.lastLocationRef TrackingContext.setRoute
       TrackingContext.setCurrentLocation TrackingContext.stats
       TrackingContext.setStats TrackingContext.setLastLocationRef
       TrackingContext.distance].
  rewrite Hl.
  set (seg := TrackingContext.calculateDistance _ _ _ _) in *.
  destruct (Rlt_dec seg 0.1) as [Hlt | Hge].
  - rewrite (Rltb_true seg 0.1) by assumption.
    rewrite loopBody_keeps_segment by (rewrite hook_km_is_ctx; fold seg; lra).
    rewrite hook_km_is_ctx. fold seg. now rewrite Hd.
  - rewrite (Rltb_false seg 0.1) by lra.
    rewrite loopBody_jump by (rewrite hook_km_is_ctx; fold seg; lra).
    exact Hd.
Qed.

(** One delivery of a segment shorter than 0.1 moves the maximum of the
    context as one iteration of the batch loop moves its maximum. *)
Lemma context_max_step (now : R) (location : Location)
    (s : TrackingContext.State) (acc : UseStats.Acc) (prev : LocationPoint) :
  TrackingContext.lastLocationRef s = Some prev ->
  TrackingContext.maxSpeed (TrackingContext.stats s) = UseStats.a_maxSpeed acc ->
  0 <= UseStats.a_maxSpeed acc ->
  TrackingContext.calculateDistance (latitude prev) (longitude prev)
    (latitude (locationData location)) (longitude (locationData location)) < 0.1 ->
  TrackingContext.maxSpeed
    (TrackingContext.stats (TrackingContext.handleLocationUpdate now location s)) =
  UseStats.a_maxSpeed (UseStats.loopBody km acc prev (locationData location)) /\
  0 <= UseStats.a_maxSpeed (UseStats.loopBody km acc prev (locationData location)).
Proof.
  intros Hl Hm Hpos Hlt.
  rewrite loopBody_max by (rewrite hook_km_is_ctx; lra).
  unfold TrackingContext.handleLocationUpdate, TrackingContext.updateStats.
  cbn [TrackingContext.lastLocationRef TrackingContext.setRoute
       TrackingContext.setCurrentLocation TrackingContext.stats
       TrackingContext.setStats TrackingContext.setLastLocationRef
       TrackingContext.maxSpeed].
  rewrite Hm. cbv zeta. unfold UseStats.formatSpeed. cbn [unit_eqb].
  set (sp := speed (locationData location)).
  destruct (truthy sp) eqn:Ht; cbn [negb].
  - destruct (Rlt_dec 0 (sp * 3.6)) as [Hp | Hn].
    + rewrite (Rltb_true 0 (sp * 3.6)) by assumption.
      split; [reflexivity |].
      apply Rle_trans with (1 := Hpos), Rmax_l.
    + rewrite (Rltb_false 0 (sp * 3.6)) by lra.
      split; [| assumption].
      apply Rmax_left. lra.
  - rewrite (Rltb_false 0 0) by lra.
    split; [| assumption].
    apply Rmax_left. lra.
Qed.

Lemma context_distance_deliver (samples : list (R * Location)) :
  forall (s : TrackingContext.State) (acc : UseStats.Acc) (prev : LocationPoint),
    TrackingContext.lastLocationRef s = Some prev ->
    TrackingContext.distance (TrackingContext.stats s) = UseStats.a_totalDistance acc ->
    segments_hold off_threshold TrackingContext.calculateDistance prev
      (map delivered samples) ->
    TrackingContext.distance
      (TrackingContext.stats (TrackingContext.deliver samples s)) =
    UseStats.a_totalDistance
      (UseStats.routeLoop km acc prev (map delivered samples)).
Proof.
  induction samples as [| [now location] samples IH]; intros s acc prev Hl Hd Hseg.
  - exact Hd.
  - destruct Hseg as [Hcur Hrest].
    cbn [TrackingContext.deliver map UseStats.routeLoop].
    apply IH.
    + apply context_update_last.
    + now apply context_distance_step.
    + exact Hrest.
Qed.

Lemma context_max_deliver (samples : list (R * Location)) :
  forall (s : TrackingContext.State) (acc : UseStats.Acc) (prev : LocationPoint),
    TrackingContext.lastLocationRef s = Some prev ->
    TrackingContext.maxSpeed (TrackingContext.stats s) = UseStats.a_maxSpeed acc ->
    0 <= UseStats.a_maxSpeed acc ->
    segments_hold below_threshold TrackingContext.calculateDistance prev
      (map delivered samples) ->
    TrackingContext.maxSpeed
      (TrackingContext.stats (TrackingContext.deliver samples s)) =
    UseStats.a_maxSpeed
      (UseStats.routeLoop km acc prev (map delivered samples)).
Proof.
  induction samples as [| [now location] samples IH];
    intros s acc prev Hl Hm Hpos Hseg.
  - exact Hm.
  - destruct Hseg as [Hcur Hrest].
    cbn [TrackingContext.deliver map UseStats.routeLoop].
    destruct (context_max_step now location s acc prev Hl Hm Hpos Hcur)
      as [Hstep Hpos'].
    apply IH; auto using context_update_last.
Qed.

(** C1, amended.  A ride is started in the tracking context and any
    sequence of samples is delivered; the batch path runs, in kilometres,
    over the route the context has stored.  That route is the start point
    followed by the samples.  When no segment is exactly 0.1 km long, the
    distance reported by the batch path is the distance of the context
    rounded to two decimals (both paths drop the same jumps).  When every
    segment is shorter than 0.1 km, the maximum speed reported by the
    batch path is the maximum of the context rounded to one decimal.
    Average speed, minimum speed and duration are not part of the
    agreement. *)
Theorem C1_context_agrees_with_batch_on_distance_and_max :
  forall (e : TrackingContext.Env) (s : TrackingContext.State)
         (w : TrackingContext.World) (loc0 : Location)
         (samples : list (R * Location)) (weight : option R) (dur : R),
    TrackingContext.isTracking s = false ->
    TrackingContext.permission_granted e = true ->
    TrackingContext.position e = Some loc0 ->
    TrackingContext.watch_ok e = true ->
    TrackingContext.user e = None \/ TrackingContext.addDoc_ok e = true ->
    let s1 := fst (TrackingContext.startTracking e s w) in
    let sN := TrackingContext.deliver samples s1 in
    let batch := UseStats.processRouteData km weight dur (TrackingContext.route sN) in
    TrackingContext.route sN = locationData loc0 :: map delivered samples /\
    (route_segments off_threshold TrackingContext.calculateDistance
       (TrackingContext.route sN) ->
     UseStats.distance batch =
     toFixed 2 (TrackingContext.distance (TrackingContext.stats sN))) /\
    (route_segments below_threshold TrackingContext.calculateDistance
       (TrackingContext.route sN) ->
     UseStats.maxSpeed batch =
     toFixed 1 (TrackingContext.maxSpeed (TrackingContext.stats sN))).
Proof.
  intros e s w loc0 samples weight dur Ht Hp Hpos Hw Hu s1 sN batch.
  destruct (context_start_succeeds e s w loc0 Ht Hp Hpos Hw Hu)
    as (_ & Hroute & Hlast & Hdist & Hmax & _).
  fold s1 in Hroute, Hlast, Hdist, Hmax.
  assert (HrouteN : TrackingContext.route sN = locationData loc0 :: map delivered samples).
  { unfold sN. rewrite context_route_deliver, Hroute. reflexivity. }
  split; [exact HrouteN |].
  unfold batch. rewrite HrouteN. unfold sN. cbn [route_segments].
  split; intros Hseg.
  - rewrite (context_distance_deliver samples s1 UseStats.acc0 (locationData loc0))
      by (assumption || exact Hdist).
    destruct samples as [| x samples]; [cbn; now rewrite toFixed_zero |].
    reflexivity.
  - rewrite (context_max_deliver samples s1 UseStats.acc0 (locationData loc0))
      by (assumption || exact Hmax || (cbn; lra)).
    destruct samples as [| x samples]; [cbn; now rewrite toFixed_zero |].
    reflexivity.
Qed.

(** A start at [loc_start] followed by one sample at the same place. *)
Lemma C1_one_sample_example :
  let s1 := fst (TrackingContext.startTracking Samples.context_env
                   TrackingContext.initialState TrackingContext.initialWorld) in
  let sN := TrackingContext.deliver [(10000, Samples.loc_still)] s1 in
  let batch := UseStats.processRouteData km None 10 (TrackingContext.route sN) in
  TrackingContext.route sN = [Samples.p_start; Samples.p_still] /\
  UseStats.distance batch =
    toFixed 2 (TrackingContext.distance (TrackingContext.stats sN)) /\
  UseStats.maxSpeed batch =
    toFixed 1 (TrackingContext.maxSpeed (TrackingContext.stats sN)).
Proof.
  destruct (C1_context_agrees_with_batch_on_distance_and_max
              Samples.context_env TrackingContext.initialState
              TrackingContext.initialWorld Samples.loc_start
              [(10000, Samples.loc_still)] None 10
              eq_refl eq_refl eq_refl eq_refl (or_intror eq_refl))
    as (Hroute & Hdist & Hmax).
  cbv zeta.
  assert (Hr : TrackingContext.route
                 (TrackingContext.deliver [(10000, Samples.loc_still)]
                    (fst (TrackingContext.startTracking Samples.context_env
                            TrackingContext.initialState TrackingContext.initialWorld)))
               = [Samples.p_start; Samples.p_still]).
  { rewrite Hroute. cbn [map]. unfold delivered. cbn [snd].
    now rewrite point_of_loc_start, point_of_loc_still. }
  split; [exact Hr |].
  split.
  - apply Hdist. rewrite Hr. cbn. split; [| exact I].
    unfold off_threshold. rewrite ctx_distance_same. lra.
  - apply Hmax. rewrite Hr. cbn. split; [| exact I].
    unfold below_threshold. rewrite ctx_distance_same. lra.
Defined.

(** The incremental figures of the context for the same deliveries. *)
Lemma context_average_of_example :
  TrackingContext.averageSpeed
    (TrackingContext.stats
       (TrackingContext.deliver [(10000, Samples.loc_still)]
          (fst (TrackingContext.startTracking Samples.context_env
                  TrackingContext.initialState TrackingContext.initialWorld)))) = 0
  /\
  TrackingContext.duration
    (TrackingContext.stats
       (TrackingContext.deliver [(10000, Samples.loc_still)]
          (fst (TrackingContext.startTracking Samples.context_env
                  TrackingContext.initialState TrackingContext.initialWorld)))) = 10.
Proof.
  cbv -[locationData TrackingContext.calculateDistance Rltb truthy Rmax
        Rdiv Rminus Rmult Rplus IZR
        Samples.loc_start Samples.loc_still Samples.p_start Samples.p_still].
  rewrite point_of_loc_start, point_of_loc_still.
  cbn [latitude longitude Samples.p_start Samples.p_still].
  rewrite ctx_distance_same.
  rewrite !Rltb_true by lra.
  split; lra.
Qed.

(** After a start and one sample at the same place that reports 5 m/s,
    ten seconds later, the batch path reports an average speed of 18 (the
    mean of the positive sample speeds) and the context an average speed
    of 0 (distance over elapsed time): the two paths do not produce the
    same statistics. *)
Lemma C1_average_speed_counterexample :
  let s1 := fst (TrackingContext.startTracking Samples.context_env
                   TrackingContext.initialState TrackingContext.initialWorld) in
  let sN := TrackingContext.deliver [(10000, Samples.loc_still)] s1 in
  let batch := UseStats.processRouteData km None 10 (TrackingContext.route sN) in
  TrackingContext.route sN = [Samples.p_start; Samples.p_still] /\
  UseStats.averageSpeed batch = 18 /\
  TrackingContext.averageSpeed (TrackingContext.stats sN) = 0 /\
  UseStats.averageSpeed batch <>
    toFixed 1 (TrackingContext.averageSpeed (TrackingContext.stats sN)).
Proof.
  cbv zeta.
  assert (Hr : TrackingContext.route
                 (TrackingContext.deliver [(10000, Samples.loc_still)]
                    (fst (TrackingContext.startTracking Samples.context_env
                            TrackingContext.initialState TrackingContext.initialWorld)))
               = [Samples.p_start; Samples.p_still]).
  { rewrite context_route_deliver. cbn [map]. unfold delivered. cbn [snd].
    rewrite point_of_loc_still.
    cbv -[locationData Samples.loc_start Samples.p_start Samples.p_still].
    now rewrite point_of_loc_start. }
  destruct context_average_of_example as [Havg _].
  rewrite Hr, Havg, batch_average_of_example, toFixed_zero.
  repeat split; lra.
Qed.

(** ** The threshold of the batch loop under the unit mi *)

Lemma hook_mi_is_scaled (lat1 lon1 lat2 lon2 : R) :
  UseStats.calculateDistance mi lat1 lon1 lat2 lon2 =
  UseStats.calculateDistance km lat1 lon1 lat2 lon2 * 0.621371.
Proof.
  unfold UseStats.calculateDistance.
  destruct (negb (truthy lat1) || negb (truthy lon1) ||
            negb (truthy lat2) || negb (truthy lon2))%bool; cbn [unit_eqb]; lra.
Qed.

(** The hook compares the converted distance with 0.1: a segment of a
    thousandth of a degree of latitude, which is longer than 0.1 km and
    shorter than 0.1 mi, is added to the total when the unit is mi. *)
Lemma hook_miles_keeps_segment_over_100m (acc : UseStats.Acc) :
  let prev := mkPoint 1 1 0 0 0 in
  let cur := mkPoint 1.001 1 5000 0 0 in
  0.1 < UseStats.calculateDistance km 1 1 1.001 1 /\
  UseStats.a_totalDistance (UseStats.loopBody mi acc prev cur) =
  UseStats.a_totalDistance acc + UseStats.calculateDistance mi 1 1 1.001 1.
Proof.
  cbv zeta.
  assert (Hkm : UseStats.calculateDistance km 1 1 1.001 1 =
                6371 * ((1.001 - 1) * (PI / 180))).
  { rewrite hook_km_is_ctx. apply ctx_distance_meridian; lra. }
  split.
  - rewrite Hkm. generalize PI_bounds; lra.
  - rewrite loopBody_keeps_segment; [reflexivity |].
    cbn [latitude longitude]. rewrite hook_mi_is_scaled, Hkm.
    generalize PI_bounds; lra.
Qed.

(* ================================================================= *)
(** * Further properties of the code *)

(** ** Range of the distance calculator *)

Lemma atan_nonneg (x : R) : 0 <= x -> 0 <= atan x.
Proof.
  intros [Hlt | Heq].
  - left. rewrite <- atan_0. now apply atan_increasing.
  - subst x. rewrite atan_0. lra.
Qed.

(** [Math.atan2] of two numbers that are not negative lies in the first
    quadrant. *)
Lemma atan2_first_quadrant (y x : R) :
  0 <= y -> 0 <= x -> 0 <= Math_atan2 y x <= PI / 2.
Proof.
  intros Hy Hx. unfold Math_atan2.
  assert (Hpi : 0 < PI) by apply PI_RGT_0.
  destruct (Rlt_dec 0 x) as [Hpos | Hnpos].
  - rewrite (Rltb_true 0 x) by assumption. split.
    + apply atan_nonneg. apply Rmult_le_pos; [assumption |].
      left. now apply Rinv_0_lt_compat.
    + left. apply atan_bound.
  - rewrite (Rltb_false 0 x) by lra. rewrite (Rltb_false x 0) by lra.
    destruct (Rlt_dec 0 y).
    + rewrite (Rltb_true 0 y) by assumption. lra.
    + rewrite (Rltb_false 0 y) by lra. rewrite (Rltb_false y 0) by lra. lra.
Qed.

Lemma haversine_range (a : R) :
  0 <= 6371 * (2 * Math_atan2 (sqrt a) (sqrt (1 - a))) <= 6371 * PI.
Proof.
  pose proof (atan2_first_quadrant (sqrt a) (sqrt (1 - a))
                (sqrt_pos a) (sqrt_pos (1 - a))) as H.
  lra.
Qed.

Lemma ctx_distance_range (lat1 lon1 lat2 lon2 : R) :
  0 <= TrackingContext.calculateDistance lat1 lon1 lat2 lon2 <= 6371 * PI.
Proof.
  unfold TrackingContext.calculateDistance.
  destruct (negb (truthy lat1) || negb (truthy lon1) ||
            negb (truthy lat2) || negb (truthy lon2))%bool.
  - generalize PI_RGT_0; lra.
  - cbv zeta. apply haversine_range.
Qed.

Lemma hook_distance_nonneg (u : DistanceUnit) (lat1 lon1 lat2 lon2 : R) :
  0 <= UseStats.calculateDistance u lat1 lon1 lat2 lon2.
Proof.
  pose proof (ctx_distance_range lat1 lon1 lat2 lon2) as H.
  rewrite <- hook_km_is_ctx in H.
  destruct u; [lra |]. rewrite hook_mi_is_scaled. lra.
Qed.

(** X1. Whatever the four coordinates, the calculator of the context and
    the calculator of the hook (in either unit) return a distance that is
    not negative and not above half the circumference of the sphere,
    6371 * PI km. *)
Theorem X1_distance_range :
  forall (u : DistanceUnit) (lat1 lon1 lat2 lon2 : R),
    0 <= TrackingContext.calculateDistance lat1 lon1 lat2 lon2 <= 6371 * PI /\
    0 <= UseStats.calculateDistance u lat1 lon1 lat2 lon2 <= 6371 * PI.
Proof.
  intros u lat1 lon1 lat2 lon2.
  pose proof (ctx_distance_range lat1 lon1 lat2 lon2) as H.
  split; [exact H |].
  split; [apply hook_distance_nonneg |].
  destruct u.
  - rewrite hook_km_is_ctx. apply H.
  - rewrite hook_mi_is_scaled, hook_km_is_ctx. lra.
Qed.

(** ** Elevation gain *)

Lemma Rmax_0_nonneg (x : R) : 0 <= Rmax 0 x.
Proof. apply Rmax_l. Qed.

Lemma last_cons_default {A : Type} (l : list A) :
  forall x d : A, last (x :: l) d = last l x.
Proof.
  induction l as [| y l IH]; intros x d; [reflexivity |].
  change (last (x :: y :: l) d) with (last (y :: l) d).
  now rewrite !IH.
Qed.

Lemma elevationLoop_lower (rest : list LocationPoint) :
  forall (g : R) (prev : LocationPoint),
    g <= UseStats.elevationLoop g prev rest /\
    g + (altitude (last rest prev) - altitude prev)
      <= UseStats.elevationLoop g prev rest.
Proof.
  induction rest as [| cur rest IH]; intros g prev.
  - cbn. lra.
  - rewrite elevationLoop_step.
    destruct (IH (g + Rmax 0 (altitude cur - altitude prev)) cur) as [H1 H2].
    pose proof (Rmax_0_nonneg (altitude cur - altitude prev)) as H0.
    pose proof (Rmax_r 0 (altitude cur - altitude prev)) as Hr.
    rewrite last_cons_default. lra.
Qed.

Lemma elevationLoop_app (rest : list LocationPoint) :
  forall (g : R) (prev p : LocationPoint),
    UseStats.elevationLoop g prev (rest ++ [p]) =
    UseStats.elevationLoop g prev rest +
    Rmax 0 (altitude p - altitude (last rest prev)).
Proof.
  induction rest as [| cur rest IH]; intros g prev p.
  - cbn [app]. rewrite elevationLoop_step. reflexivity.
  - cbn [app]. rewrite !elevationLoop_step, IH.
    now rewrite last_cons_default.
Qed.

(** X2. The elevation gain of a route is never negative, it is at least
    the net climb from the first to the last sample, and appending a
    sample adds exactly the positive part of the last altitude step, so
    the gain never decreases as the route grows. *)
Theorem X2_elevation_gain_bounds :
  forall (first p : LocationPoint) (rest : list LocationPoint),
    0 <= UseStats.calculateElevationGain (first :: rest) /\
    altitude (last rest first) - altitude first
      <= UseStats.calculateElevationGain (first :: rest) /\
    UseStats.calculateElevationGain ((first :: rest) ++ [p]) =
      UseStats.calculateElevationGain (first :: rest) +
      Rmax 0 (altitude p - altitude (last rest first)) /\
    UseStats.calculateElevationGain (first :: rest)
      <= UseStats.calculateElevationGain ((first :: rest) ++ [p]).
Proof.
  intros first p rest. unfold UseStats.calculateElevationGain. cbn [app].
  destruct (elevationLoop_lower rest 0 first) as [H1 H2].
  rewrite elevationLoop_app.
  pose proof (Rmax_0_nonneg (altitude p - altitude (last rest first))).
  repeat split; lra.
Qed.

(** ** Pace *)

Lemma Int_part_bounds (r : R) : IZR (Int_part r) <= r < IZR (Int_part r) + 1.
Proof. destruct (base_Int_part r); lra. Qed.

Lemma Int_part_nonneg (r : R) : 0 <= r -> (0 <= Int_part r)%Z.
Proof.
  intros H. pose proof (Int_part_bounds r) as Hb.
  assert (IZR (-1) < IZR (Int_part r)) by (simpl; lra).
  apply lt_IZR in H0. lia.
Qed.

Lemma Int_part_below (r : R) (z : Z) : r < IZR z -> (Int_part r < z)%Z.
Proof.
  intros H. pose proof (Int_part_bounds r) as Hb.
  apply lt_IZR. lra.
Qed.

Lemma Int_part_le (x y : R) : x <= y -> (Int_part x <= Int_part y)%Z.
Proof.
  intros H. pose proof (Int_part_bounds x) as Hx.
  pose proof (Int_part_bounds y) as Hy.
  assert (IZR (Int_part x) < IZR (Int_part y + 1)) by (rewrite plus_IZR; lra).
  apply lt_IZR in H0. lia.
Qed.

Lemma pace_components :
  forall speedKmh : R,
    0 < speedKmh ->
    exists pace : UseStats.Pace,
      UseStats.calculatePace speedKmh = Some pace /\
      (0 <= UseStats.minutes pace)%Z /\
      (0 <= UseStats.seconds pace <= 59)%Z /\
      ((UseStats.minutes pace < 60)%Z <-> 1 < speedKmh).
Proof.
  intros v Hv. unfold UseStats.calculatePace.
  rewrite truthy_true by lra. cbn [negb]. cbv zeta.
  eexists. split; [reflexivity |].
  cbn [UseStats.minutes UseStats.seconds]. unfold Math_floor.
  set (mpu := 60 / v).
  assert (Hmpu : 0 < mpu) by (unfold mpu; apply Rdiv_lt_0_compat; lra).
  pose proof (Int_part_bounds mpu) as Hm.
  set (m := Int_part mpu) in *.
  pose proof (Int_part_bounds ((mpu - IZR m) * 60)) as Hs.
  set (sec := Int_part ((mpu - IZR m) * 60)) in *.
  assert (Hm0 : (0 <= m)%Z) by (apply Int_part_nonneg; lra).
  assert (Hs0 : (0 <= sec)%Z) by (apply Int_part_nonneg; lra).
  assert (Hs59 : (sec < 60)%Z) by (apply Int_part_below; simpl; lra).
  split; [exact Hm0 |]. split; [lia |].
  assert (Hone : mpu < 60 <-> 1 < v).
  { unfold mpu. split; intros H.
    - apply Rmult_lt_reg_r with (r := / v); [now apply Rinv_0_lt_compat |].
      replace (v * / v) with 1 by (field; lra).
      unfold Rdiv in H. lra.
    - apply Rmult_lt_reg_r with (r := v); [assumption |].
      replace (60 / v * v) with 60 by (field; lra). lra. }
  rewrite <- Hone. split; intros H.
  - apply IZR_lt in H. destruct (Rlt_dec mpu 60) as [Hlt | Hge]; [exact Hlt |].
    exfalso.
    assert (H59 : 59 < IZR m) by lra.
    apply lt_IZR in H59. apply lt_IZR in H. lia.
  - apply Int_part_below. simpl. exact H.
Qed.

(** X3. For a speed of 0 [calculatePace] returns no pace (the source's
    [Infinity]).  For a positive speed it returns whole minutes and
    seconds that are not negative, with at most 59 seconds, and the
    minutes stay below 60 exactly when the speed is above 1. *)
Theorem X3_pace_decomposition :
  forall speedKmh : R,
    0 < speedKmh ->
    UseStats.calculatePace 0 = None /\
    exists pace : UseStats.Pace,
      UseStats.calculatePace speedKmh = Some pace /\
      (0 <= UseStats.minutes pace)%Z /\
      (0 <= UseStats.seconds pace <= 59)%Z /\
      ((UseStats.minutes pace < 60)%Z <-> 1 < speedKmh).
Proof.
  intros v Hv. split.
  - unfold UseStats.calculatePace. now rewrite truthy_zero.
  - now apply pace_components.
Qed.

Lemma X3_pace_at_25 :
  exists pace : UseStats.Pace,
    UseStats.calculatePace 25 = Some pace /\
    (UseStats.minutes pace < 60)%Z /\
    (0 <= UseStats.seconds pace <= 59)%Z.
Proof.
  destruct (X3_pace_decomposition 25 ltac:(lra))
    as (_ & pace & Hp & _ & Hs & H60).
  exists pace. split; [exact Hp |]. split; [| exact Hs].
  apply H60. lra.
Defined.

(** ** Invariants of the batch loop *)

Lemma routeLoop_invariant (u : DistanceUnit) (P : UseStats.Acc -> Prop) :
  (forall acc prev cur, P acc -> P (UseStats.loopBody u acc prev cur)) ->
  forall rest acc prev, P acc -> P (UseStats.routeLoop u acc prev rest).
Proof.
  intros Hstep. induction rest as [| cur rest IH]; intros acc prev Hacc.
  - exact Hacc.
  - cbn [UseStats.routeLoop]. apply IH. now apply Hstep.
Qed.

Lemma routeLoop_app (u : DistanceUnit) (rest : list LocationPoint) :
  forall (acc : UseStats.Acc) (prev p : LocationPoint),
    UseStats.routeLoop u acc prev (rest ++ [p]) =
    UseStats.loopBody u (UseStats.routeLoop u acc prev rest) (last rest prev) p.
Proof.
  induction rest as [| cur rest IH]; intros acc prev p.
  - reflexivity.
  - cbn [app UseStats.routeLoop]. rewrite IH. now rewrite last_cons_default.
Qed.

(** The three ways an iteration can go: the sample is skipped as a jump;
    it is kept and carries a positive speed; it is kept without one. *)
Lemma loopBody_shape (u : DistanceUnit) (acc : UseStats.Acc)
    (prev cur : LocationPoint) :
  let seg := UseStats.calculateDistance u (latitude prev) (longitude prev)
               (latitude cur) (longitude cur) in
  let sp := if truthy (speed cur) then UseStats.formatSpeed u (speed cur) else 0 in
  let acc' := UseStats.loopBody u acc prev cur in
  (0.1 < seg /\ acc' = acc) \/
  (seg <= 0.1 /\
   UseStats.a_totalDistance acc' = UseStats.a_totalDistance acc + seg /\
   (UseStats.a_altitudeData acc' = UseStats.a_altitudeData acc \/
    exists entry, UseStats.a_altitudeData acc' =
                  UseStats.a_altitudeData acc ++ [entry]) /\
   ((0 < sp /\
     UseStats.a_maxSpeed acc' = Rmax (UseStats.a_maxSpeed acc) sp /\
     UseStats.a_minSpeed acc' = ext_min (UseStats.a_minSpeed acc) sp /\
     UseStats.a_speedSum acc' = UseStats.a_speedSum acc + sp /\
     UseStats.a_speedCount acc' = S (UseStats.a_speedCount acc) /\
     UseStats.a_speedData acc' =
       UseStats.a_speedData acc ++ [(timestamp cur, toFixed 1 sp)] /\
     (UseStats.a_pacesData acc' = UseStats.a_pacesData acc \/
      exists pace,
        UseStats.calculatePace sp = Some pace /\
        (UseStats.minutes pace < 60)%Z /\
        UseStats.a_pacesData acc' =
          UseStats.a_pacesData acc ++
          [(timestamp cur,
            IZR (UseStats.minutes pace) + IZR (UseStats.seconds pace) / 60)]))
    \/
    (sp <= 0 /\
     UseStats.a_maxSpeed acc' = UseStats.a_maxSpeed acc /\
     UseStats.a_minSpeed acc' = UseStats.a_minSpeed acc /\
     UseStats.a_speedSum acc' = UseStats.a_speedSum acc /\
     UseStats.a_speedCount acc' = UseStats.a_speedCount acc /\
     UseStats.a_speedData acc' = UseStats.a_speedData acc /\
     UseStats.a_pacesData acc' = UseStats.a_pacesData acc))).
Proof.
  cbv zeta. unfold UseStats.loopBody.
  set (seg := UseStats.calculateDistance u _ _ _ _).
  set (sp := if truthy (speed cur) then _ else 0).
  destruct (Rlt_dec 0.1 seg) as [Hj | Hk].
  - left. rewrite (Rltb_true 0.1 seg) by assumption. now split.
  - right. rewrite (Rltb_false 0.1 seg) by lra.
    split; [lra |].
    destruct (Rlt_dec 0 sp) as [Hp | Hn].
    + rewrite (Rltb_true 0 sp) by assumption.
      destruct (truthy (altitude cur)); cbn;
        (split; [reflexivity |]); (split; [eauto |]); left;
        (split; [assumption |]); repeat (split; [reflexivity |]);
        destruct (UseStats.calculatePace sp) as [pace |] eqn:Hpace;
        try (left; reflexivity);
        destruct (UseStats.minutes pace <? 60)%Z eqn:Hmin;
        try (left; reflexivity);
        right; exists pace; apply Z.ltb_lt in Hmin; auto.
    + rewrite (Rltb_false 0 sp) by lra.
      destruct (truthy (altitude cur)); cbn;
        (split; [reflexivity |]); (split; [eauto |]); right;
        (split; [lra |]); repeat split.
Qed.

Lemma speeds_summed_step (u : DistanceUnit) (acc : UseStats.Acc)
    (prev cur : LocationPoint) :
  speeds_summed acc -> speeds_summed (UseStats.loopBody u acc prev cur).
Proof.
  intros Hacc.
  destruct (loopBody_shape u acc prev cur)
    as [[_ Heq] | (_ & _ & _ & [(Hsp & Hmx & Hmn & Hsum & Hcnt & _) |
                              (_ & Hmx & Hmn & Hsum & Hcnt & _)])].
  - now rewrite Heq.
  - set (sp := if truthy (speed cur) then _ else 0) in *.
    unfold speeds_summed in *. rewrite Hmx, Hmn, Hsum, Hcnt.
    destruct (UseStats.a_minSpeed acc) as [m |]; cbn [ext_min].
    + destruct Hacc as (Hc & Hm & Hlo & Hhi).
      assert (Hn : 0 < INR (UseStats.a_speedCount acc)) by now apply lt_0_INR.
      rewrite S_INR.
      pose proof (Rmin_l m sp). pose proof (Rmin_r m sp).
      pose proof (Rmax_l (UseStats.a_maxSpeed acc) sp).
      pose proof (Rmax_r (UseStats.a_maxSpeed acc) sp).
      split; [lia |]. split; [apply Rmin_glb_lt; assumption |].
      split; nra.
    + destruct Hacc as (Hc & Hs & Hm). rewrite Hc, Hs, Hm.
      rewrite (Rmax_right 0 sp) by lra. cbn [INR].
      split; [lia |]. split; [assumption |]. split; lra.
  - unfold speeds_summed in *. now rewrite Hmx, Hmn, Hsum, Hcnt.
Qed.

Lemma speeds_summed_acc0 : speeds_summed UseStats.acc0.
Proof. cbn. repeat split. Qed.

(** X4. At the end of the batch loop, either no positive speed was
    retained, and then the count, the average and the maximum are 0 and
    the minimum is still the [Infinity] sentinel (reported as 0), or the
    minimum is a positive number and the average (before rounding) lies
    between the minimum and the maximum. *)
Theorem X4_average_between_min_and_max :
  forall (u : DistanceUnit) (first : LocationPoint) (rest : list LocationPoint),
    let acc := UseStats.routeLoop u UseStats.acc0 first rest in
    match UseStats.a_minSpeed acc with
    | Infinity =>
        UseStats.a_speedCount acc = 0%nat /\ UseStats.averageOf acc = 0 /\
        UseStats.a_maxSpeed acc = 0
    | Fin m =>
        (0 < UseStats.a_speedCount acc)%nat /\
        0 < m <= UseStats.averageOf acc /\
        UseStats.averageOf acc <= UseStats.a_maxSpeed acc
    end.
Proof.
  intros u first rest acc.
  assert (H : speeds_summed acc).
  { apply routeLoop_invariant; [apply speeds_summed_step | apply speeds_summed_acc0]. }
  unfold speeds_summed in H. unfold UseStats.averageOf.
  destruct (UseStats.a_minSpeed acc) as [m |].
  - destruct H as (Hc & Hm & Hlo & Hhi).
    assert (Hn : 0 < INR (UseStats.a_speedCount acc)) by now apply lt_0_INR.
    replace (0 <? UseStats.a_speedCount acc)%nat with true
      by (symmetry; now apply Nat.ltb_lt).
    split; [assumption |].
    split; [split; [assumption |] |].
    + apply Rmult_le_reg_r with (r := INR (UseStats.a_speedCount acc)); [assumption |].
      unfold Rdiv. rewrite Rmult_assoc, Rinv_l by lra. lra.
    + apply Rmult_le_reg_r with (r := INR (UseStats.a_speedCount acc)); [assumption |].
      unfold Rdiv. rewrite Rmult_assoc, Rinv_l by lra. lra.
  - destruct H as (Hc & Hs & Hm). rewrite Hc. cbn. auto.
Qed.

Lemma series_lengths_step (u : DistanceUnit) (acc : UseStats.Acc)
    (prev cur : LocationPoint) :
  let acc' := UseStats.loopBody u acc prev cur in
  (length (UseStats.a_speedData acc) = UseStats.a_speedCount acc ->
   length (UseStats.a_speedData acc') = UseStats.a_speedCount acc') /\
  (length (UseStats.a_pacesData acc) <= UseStats.a_speedCount acc ->
   length (UseStats.a_pacesData acc') <= UseStats.a_speedCount acc')%nat /\
  (UseStats.a_speedCount acc' <= S (UseStats.a_speedCount acc))%nat /\
  (length (UseStats.a_altitudeData acc')
     <= S (length (UseStats.a_altitudeData acc)))%nat.
Proof.
  cbv zeta.
  destruct (loopBody_shape u acc prev cur)
    as [[_ Heq] | (_ & _ & Halt & [(_ & _ & _ & _ & Hcnt & Hsd & Hpd) |
                                 (_ & _ & _ & _ & Hcnt & Hsd & Hpd)])].
  - rewrite Heq. repeat split; auto.
  - rewrite Hcnt, Hsd. repeat split.
    + intros H. rewrite length_app. cbn. lia.
    + intros H. destruct Hpd as [Hpd | (pace & _ & _ & Hpd)]; rewrite Hpd;
        [| rewrite length_app; cbn]; lia.
    + lia.
    + destruct Halt as [Ha | [entry Ha]]; rewrite Ha;
        [| rewrite length_app; cbn]; lia.
  - rewrite Hcnt, Hsd, Hpd. repeat split; auto.
    destruct Halt as [Ha | [entry Ha]]; rewrite Ha;
      [| rewrite length_app; cbn]; lia.
Qed.

Lemma series_lengths_loop (u : DistanceUnit) (rest : list LocationPoint) :
  forall (acc : UseStats.Acc) (prev : LocationPoint),
    let acc' := UseStats.routeLoop u acc prev rest in
    (length (UseStats.a_speedData acc) = UseStats.a_speedCount acc ->
     length (UseStats.a_speedData acc') = UseStats.a_speedCount acc') /\
    (length (UseStats.a_pacesData acc) <= UseStats.a_speedCount acc ->
     length (UseStats.a_pacesData acc') <= UseStats.a_speedCount acc')%nat /\
    (UseStats.a_speedCount acc' <= UseStats.a_speedCount acc + length rest)%nat /\
    (length (UseStats.a_altitudeData acc')
       <= length (UseStats.a_altitudeData acc) + length rest)%nat.
Proof.
  induction rest as [| cur rest IH]; intros acc prev; cbv zeta.
  - cbn. repeat split; auto; lia.
  - cbn [UseStats.routeLoop length].
    destruct (series_lengths_step u acc prev cur) as (S1 & S2 & S3 & S4).
    destruct (IH (UseStats.loopBody u acc prev cur) cur) as (I1 & I2 & I3 & I4).
    repeat split; auto; lia.
Qed.

(** X5. The series the batch loop produces for a route of [n + 1]
    samples: there is one speed entry per counted positive speed, at most
    as many pace entries, and neither the count nor the altitude series
    exceeds the [n] iterations. *)
Theorem X5_series_lengths :
  forall (u : DistanceUnit) (first : LocationPoint) (rest : list LocationPoint),
    let acc := UseStats.routeLoop u UseStats.acc0 first rest in
    length (UseStats.a_speedData acc) = UseStats.a_speedCount acc /\
    (length (UseStats.a_pacesData acc) <= UseStats.a_speedCount acc)%nat /\
    (UseStats.a_speedCount acc <= length rest)%nat /\
    (length (UseStats.a_altitudeData acc) <= length rest)%nat.
Proof.
  intros u first rest.
  destruct (series_lengths_loop u rest UseStats.acc0 first) as (H1 & H2 & H3 & H4).
  cbn [UseStats.acc0 UseStats.a_speedData UseStats.a_speedCount
       UseStats.a_pacesData UseStats.a_altitudeData length] in *.
  cbv zeta. repeat split; auto; lia.
Qed.

Lemma paces_in_range_step (u : DistanceUnit) (acc : UseStats.Acc)
    (prev cur : LocationPoint) :
  Forall pace_in_range (UseStats.a_pacesData acc) ->
  Forall pace_in_range (UseStats.a_pacesData (UseStats.loopBody u acc prev cur)).
Proof.
  intros Hacc.
  destruct (loopBody_shape u acc prev cur)
    as [[_ Heq] | (_ & _ & _ & [(Hsp & _ & _ & _ & _ & _ & Hpd) |
                              (_ & _ & _ & _ & _ & _ & Hpd)])].
  - now rewrite Heq.
  - destruct Hpd as [Hpd | (pace & Hpace & Hmin & Hpd)]; rewrite Hpd; [assumption |].
    apply Forall_app. split; [assumption |].
    constructor; [| constructor].
    destruct (pace_components _ Hsp) as (pace' & Hpace' & Hm0 & [Hs0 Hs59] & _).
    rewrite Hpace in Hpace'. injection Hpace' as <-.
    unfold pace_in_range. cbn [snd].
    assert (Hm59 : (UseStats.minutes pace <= 59)%Z) by lia.
    apply IZR_le in Hm0, Hs0, Hs59, Hm59. simpl in *. lra.
  - now rewrite Hpd.
Qed.

(** X6. Every entry of the pace series the batch loop produces is a
    number of minutes from 0 up to, but not including, 60. *)
Theorem X6_paces_below_an_hour :
  forall (u : DistanceUnit) (first : LocationPoint) (rest : list LocationPoint),
    Forall pace_in_range
      (UseStats.a_pacesData (UseStats.routeLoop u UseStats.acc0 first rest)).
Proof.
  intros u first rest.
  apply (routeLoop_invariant u
           (fun acc => Forall pace_in_range (UseStats.a_pacesData acc))).
  - apply paces_in_range_step.
  - constructor.
Qed.

(** X7. Appending one sample to a route never lowers the total distance,
    the maximum speed or the count of positive speeds that the batch loop
    reaches, whether or not the new segment is dropped as a jump. *)
Theorem X7_batch_aggregates_monotone :
  forall (u : DistanceUnit) (first p : LocationPoint) (rest : list LocationPoint),
    let acc := UseStats.routeLoop u UseStats.acc0 first rest in
    let acc' := UseStats.routeLoop u UseStats.acc0 first (rest ++ [p]) in
    UseStats.a_totalDistance acc <= UseStats.a_totalDistance acc' /\
    UseStats.a_maxSpeed acc <= UseStats.a_maxSpeed acc' /\
    (UseStats.a_speedCount acc <= UseStats.a_speedCount acc')%nat.
Proof.
  intros u first p rest. cbv zeta. rewrite routeLoop_app.
  set (acc := UseStats.routeLoop u UseStats.acc0 first rest).
  set (prev := last rest first).
  pose proof (hook_distance_nonneg u (latitude prev) (longitude prev)
                (latitude p) (longitude p)) as Hseg.
  destruct (loopBody_shape u acc prev p)
    as [[_ Heq] | (_ & Htot & _ & [(_ & Hmx & _ & _ & Hcnt & _) |
                                 (_ & Hmx & _ & _ & Hcnt & _)])].
  - rewrite Heq. repeat split; auto; lra.
  - rewrite Htot, Hmx, Hcnt. repeat split; [lra | apply Rmax_l | lia].
  - rewrite Htot, Hmx, Hcnt. repeat split; [lra | lra | lia].
Qed.

(** ** Calories *)

Lemma metValue_pos (v : R) : 0 < UseStats.metValue v.
Proof.
  unfold UseStats.metValue.
  destruct (Rltb v 16); [lra |]. destruct (Rltb v 20); [lra |].
  destruct (Rltb v 25); lra.
Qed.

(** X8. With a weight that is absent or not negative, the calorie
    estimate is 0 for a duration of 0, is never negative for a duration
    that is not negative, and does not decrease when the duration grows
    (the average speed staying the same). *)
Theorem X8_calories_grow_with_duration :
  forall (weight : option R) (dur dur' distanceKm distanceKm' averageSpeedKmh : R),
    match weight with Some w => 0 <= w | None => True end ->
    0 <= dur <= dur' ->
    UseStats.calculateCalories weight 0 distanceKm averageSpeedKmh = 0%Z /\
    (0 <= UseStats.calculateCalories weight dur distanceKm averageSpeedKmh)%Z /\
    (UseStats.calculateCalories weight dur distanceKm averageSpeedKmh
       <= UseStats.calculateCalories weight dur' distanceKm' averageSpeedKmh)%Z.
Proof.
  intros weight dur dur' dist dist' v Hw Hd.
  unfold UseStats.calculateCalories, Math_round.
  pose proof (metValue_pos v) as Hmet.
  set (met := UseStats.metValue v) in *.
  assert (HW : 0 <= or_default weight 70).
  { unfold or_default. destruct weight as [w |]; [| lra].
    destruct (truthy w); lra. }
  set (W := or_default weight 70) in *.
  assert (HK : 0 <= met * 3.5 * W) by nra.
  set (K := met * 3.5 * W) in *.
  split; [| split].
  - apply Int_part_between. simpl. lra.
  - apply Int_part_nonneg. nra.
  - apply Int_part_le. nra.
Qed.

Lemma X8_calories_example :
  Z.le (UseStats.calculateCalories (Some 80) 1800 5 18)
       (UseStats.calculateCalories (Some 80) 3600 10 18).
Proof.
  apply (X8_calories_grow_with_duration (Some 80) 1800 3600 5 10 18); lra.
Defined.

(** ** The tracking context: one watcher at most *)

Lemma update_nth_length {A : Type} (f : A -> A) (l : list A) :
  forall n : nat, length (TrackingContext.update_nth n f l) = length l.
Proof.
  induction l as [| x l IH]; intros [| n]; cbn; auto.
Qed.

Lemma removeSubscription_fields (s : TrackingContext.State)
    (w : TrackingContext.World) :
  context_consistent (s, w) ->
  let s1 := fst (TrackingContext.removeSubscription s w) in
  let w1 := snd (TrackingContext.removeSubscription s w) in
  TrackingContext.locationSubscription s1 = None /\
  TrackingContext.watchers w1 = [] /\
  TrackingContext.rides w1 = TrackingContext.rides w /\
  TrackingContext.alerts w1 = TrackingContext.alerts w /\
  TrackingContext.isTracking s1 = TrackingContext.isTracking s /\
  TrackingContext.activityDocRef s1 = TrackingContext.activityDocRef s /\
  TrackingContext.route s1 = TrackingContext.route s /\
  TrackingContext.stats s1 = TrackingContext.stats s /\
  TrackingContext.startTimeRef s1 = TrackingContext.startTimeRef s /\
  TrackingContext.lastLocationRef s1 = TrackingContext.lastLocationRef s /\
  TrackingContext.currentLocation s1 = TrackingContext.currentLocation s /\
  TrackingContext.next_handle w1 = TrackingContext.next_handle w.
Proof.
  intros (_ & Hw & _). unfold TrackingContext.removeSubscription.
  destruct (TrackingContext.locationSubscription s) as [h |] eqn:Hsub; cbn.
  - rewrite Hw. cbn. rewrite Nat.eqb_refl. cbn. repeat split.
  - rewrite Hw. repeat split. exact Hsub.
Qed.

Lemma consistent_start (e : TrackingContext.Env) (s : TrackingContext.State)
    (w : TrackingContext.World) :
  context_consistent (s, w) ->
  context_consistent (TrackingContext.startTracking e s w).
Proof.
  intros Hc. pose proof Hc as (Ha & Hw & Hd).
  unfold TrackingContext.startTracking.
  destruct (TrackingContext.isTracking s) eqn:Ht; [exact Hc |].
  specialize (Ha eq_refl). rewrite Ha in Hw.
  destruct (TrackingContext.permission_granted e); cbn [negb];
    [| cbn; rewrite Ha; auto].
  destruct (TrackingContext.position e) as [location |];
    [| cbn; rewrite Ha; auto].
  destruct (TrackingContext.user e) as [uid |].
  - destruct (TrackingContext.addDoc_ok e).
    + cbn. destruct (TrackingContext.watch_ok e); cbn.
      * rewrite Hw. repeat split; try discriminate.
        intros ref Href. injection Href as <-. rewrite length_app. cbn. lia.
      * rewrite Ha, Hw. repeat split.
        intros ref Href. injection Href as <-. rewrite length_app. cbn. lia.
    + cbn. rewrite Ha. auto.
  - cbn. destruct (TrackingContext.watch_ok e); cbn.
    + rewrite Hw. repeat split; try discriminate. exact Hd.
    + rewrite Ha, Hw. auto.
Qed.

Lemma consistent_pause (e : TrackingContext.Env) (s : TrackingContext.State)
    (w : TrackingContext.World) :
  context_consistent (s, w) ->
  context_consistent (TrackingContext.pauseTracking e s w).
Proof.
  intros Hc. pose proof Hc as (Ha & Hw & Hd).
  unfold TrackingContext.pauseTracking.
  destruct (TrackingContext.isTracking s) eqn:Ht; cbn [negb]; [| exact Hc].
  destruct (removeSubscription_fields s w Hc)
    as (Hs1 & Hw1 & Hr1 & _ & _ & Hd1 & _).
  destruct (TrackingContext.removeSubscription s w) as [s1 w1]. cbn [fst snd] in *.
  cbn [TrackingContext.setIsTracking TrackingContext.activityDocRef].
  assert (Hgoal : forall w2,
            TrackingContext.watchers w2 = [] ->
            length (TrackingContext.rides w2) = length (TrackingContext.rides w) ->
            context_consistent (TrackingContext.setIsTracking false s1, w2)).
  { intros w2 Hw2 Hl. cbn. rewrite Hs1, Hw2, Hd1, Hl. auto. }
  destruct (TrackingContext.user e); [| apply Hgoal; congruence].
  destruct (TrackingContext.activityDocRef s1); [| apply Hgoal; congruence].
  destruct (TrackingContext.updateDoc_ok e); apply Hgoal; cbn;
    rewrite ?update_nth_length; congruence.
Qed.

Lemma consistent_resume (e : TrackingContext.Env) (s : TrackingContext.State)
    (w : TrackingContext.World) :
  context_consistent (s, w) ->
  context_consistent (TrackingContext.resumeTracking e s w).
Proof.
  intros Hc. pose proof Hc as (Ha & Hw & Hd).
  unfold TrackingContext.resumeTracking.
  destruct (TrackingContext.isTracking s) eqn:Ht; [exact Hc |].
  specialize (Ha eq_refl). rewrite Ha in Hw.
  destruct (TrackingContext.watch_ok e); cbn [negb];
    [| cbn; rewrite Ha; auto].
  cbn.
  destruct (TrackingContext.user e); [| cbn; rewrite Hw; repeat split; try discriminate; exact Hd].
  destruct (TrackingContext.activityDocRef s) as [ref |] eqn:Href;
    [| cbn; rewrite Hw; repeat split; try discriminate;
       intros r Hr; rewrite Href in Hr; discriminate].
  destruct (TrackingContext.updateDoc_ok e); cbn; rewrite Hw;
    repeat split; try discriminate; rewrite ?update_nth_length;
    intros r Hr; apply Hd; congruence.
Qed.

Lemma consistent_stop (e : TrackingContext.Env) (s : TrackingContext.State)
    (w : TrackingContext.World) :
  context_consistent (s, w) ->
  context_consistent
    (snd (fst (TrackingContext.stopTracking e s w)),
     snd (TrackingContext.stopTracking e s w)).
Proof.
  intros Hc. pose proof Hc as (Ha & Hw & Hd).
  unfold TrackingContext.stopTracking.
  destruct (removeSubscription_fields s w Hc)
    as (Hs1 & Hw1 & Hr1 & _ & Ht1 & Hd1 & _).
  destruct (TrackingContext.removeSubscription s w) as [s1 w1]. cbn [fst snd] in *.
  cbn [TrackingContext.setStats TrackingContext.activityDocRef].
  assert (Hfail : forall w2,
            TrackingContext.watchers w2 = [] ->
            length (TrackingContext.rides w2) = length (TrackingContext.rides w) ->
            forall st, context_consistent
              (TrackingContext.setStats st s1, w2)).
  { intros w2 Hw2 Hl st. cbn. rewrite Hs1, Hw2, Hd1, Hl. auto. }
  assert (Hok : forall w2 st,
            TrackingContext.watchers w2 = [] ->
            context_consistent
              (TrackingContext.setLastLocationRef None
                 (TrackingContext.setStartTimeRef None
                    (TrackingContext.setActivityDocRef None
                       (TrackingContext.setIsTracking false
                          (TrackingContext.setStats st s1)))), w2)).
  { intros w2 st Hw2. cbn. rewrite Hs1, Hw2. repeat split. discriminate. }
  destruct (TrackingContext.user e).
  - destruct (TrackingContext.activityDocRef s1).
    + destruct (TrackingContext.startTime (TrackingContext.stats s)).
      * destruct (TrackingContext.updateDoc_ok e); cbn [fst snd].
        -- apply Hok. exact Hw1.
        -- apply Hfail; cbn; congruence.
      * cbn [fst snd]. apply Hfail; cbn; congruence.
    + cbn [fst snd]. apply Hok. exact Hw1.
  - cbn [fst snd]. apply Hok. exact Hw1.
Qed.

Lemma consistent_discard (e : TrackingContext.Env) (s : TrackingContext.State)
    (w : TrackingContext.World) :
  context_consistent (s, w) ->
  context_consistent (TrackingContext.discardTracking e s w).
Proof.
  intros Hc. pose proof Hc as (Ha & Hw & Hd).
  unfold TrackingContext.discardTracking.
  destruct (removeSubscription_fields s w Hc)
    as (Hs1 & Hw1 & Hr1 & _ & Ht1 & Hd1 & _).
  destruct (TrackingContext.removeSubscription s w) as [s1 w1]. cbn [fst snd] in *.
  destruct (TrackingContext.user e).
  - destruct (TrackingContext.activityDocRef s1) eqn:Href.
    + destruct (TrackingContext.updateDoc_ok e); cbn.
      * rewrite Hs1, Hw1. repeat split. discriminate.
      * rewrite Hs1, Hw1, Href, Hr1. repeat split. rewrite <- Hd1 in Hd. exact Hd.
    + cbn. rewrite Hs1, Hw1. repeat split. discriminate.
  - cbn. rewrite Hs1, Hw1. repeat split. discriminate.
Qed.

Lemma consistent_step (op : TrackingContext.Op)
    (sw : TrackingContext.State * TrackingContext.World) :
  context_consistent sw -> context_consistent (TrackingContext.step op sw).
Proof.
  destruct sw as [s w]. intros Hc. destruct op; cbn [TrackingContext.step].
  - now apply consistent_start.
  - now apply consistent_pause.
  - now apply consistent_resume.
  - pose proof (consistent_stop e s w Hc) as H.
    destruct (TrackingContext.stopTracking e s w) as [[r s'] w']. exact H.
  - now apply consistent_discard.
  - destruct (TrackingContext.watchers w); exact Hc.
Qed.

Lemma consistent_run (ops : list TrackingContext.Op) :
  forall sw, context_consistent sw -> context_consistent (TrackingContext.run ops sw).
Proof.
  induction ops as [| op ops IH]; intros sw Hc; [exact Hc |].
  cbn [TrackingContext.run]. apply IH. now apply consistent_step.
Qed.

(** X9. Whatever sequence of starts, pauses, resumes, stops, discards and
    deliveries the provider goes through from its initial state, and
    however the collaborators answer, there is never more than one live
    location watcher, there is none while [isTracking] is false, the live
    watcher is the one the subscription ref holds, and the document ref
    always points at an existing ride document. *)
Theorem X9_context_single_watcher :
  forall ops : list TrackingContext.Op,
    let sw := TrackingContext.run ops
                (TrackingContext.initialState, TrackingContext.initialWorld) in
    context_consistent sw /\
    (length (TrackingContext.watchers (snd sw)) <= 1)%nat /\
    (TrackingContext.isTracking (fst sw) = false ->
     TrackingContext.watchers (snd sw) = []).
Proof.
  intros ops sw.
  assert (Hc : context_consistent sw).
  { apply consistent_run. cbn. repeat split. discriminate. }
  split; [exact Hc |].
  destruct sw as [s w]. destruct Hc as (Ha & Hw & _). cbn [fst snd].
  rewrite Hw. split.
  - destruct (TrackingContext.locationSubscription s); cbn; lia.
  - intros Ht. now rewrite (Ha Ht).
Qed.

Lemma X9_watcher_example :
  (length (TrackingContext.watchers
     (snd (TrackingContext.run
             [TrackingContext.OpStart Samples.context_env;
              TrackingContext.OpSample 10000 Samples.loc_still;
              TrackingContext.OpResume Samples.context_env;
              TrackingContext.OpStart Samples.context_env]
             (TrackingContext.initialState, TrackingContext.initialWorld))))
   <= 1)%nat.
Proof.
  apply (X9_context_single_watcher
           [TrackingContext.OpStart Samples.context_env;
            TrackingContext.OpSample 10000 Samples.loc_still;
            TrackingContext.OpResume Samples.context_env;
            TrackingContext.OpStart Samples.context_env]).
Defined.

(** ** The tracking context: figures and lifecycle *)

Lemma context_started_consistent : context_consistent context_started.
Proof.
  unfold context_started. apply consistent_start. cbn. repeat split. discriminate.
Qed.

(** X10. A delivered location appends exactly one point to the route of
    the context and never lowers its distance or its maximum speed; the
    tracking flag, the subscription and the document ref are untouched. *)
Theorem X10_context_update_monotone :
  forall (now : R) (location : Location) (s : TrackingContext.State),
    let s' := TrackingContext.handleLocationUpdate now location s in
    TrackingContext.route s' = TrackingContext.route s ++ [locationData location] /\
    TrackingContext.distance (TrackingContext.stats s)
      <= TrackingContext.distance (TrackingContext.stats s') /\
    TrackingContext.maxSpeed (TrackingContext.stats s)
      <= TrackingContext.maxSpeed (TrackingContext.stats s') /\
    TrackingContext.isTracking s' = TrackingContext.isTracking s /\
    TrackingContext.locationSubscription s' = TrackingContext.locationSubscription s /\
    TrackingContext.activityDocRef s' = TrackingContext.activityDocRef s.
Proof.
  intros now location s. cbv zeta.
  split; [reflexivity |].
  split; [| split; [| repeat split]].
  - unfold TrackingContext.handleLocationUpdate, TrackingContext.updateStats.
    cbn [TrackingContext.lastLocationRef TrackingContext.setRoute
         TrackingContext.setCurrentLocation TrackingContext.stats
         TrackingContext.setStats TrackingContext.setLastLocationRef
         TrackingContext.distance].
    destruct (TrackingContext.lastLocationRef s) as [last |]; [| lra].
    set (seg := TrackingContext.calculateDistance _ _ _ _).
    pose proof (ctx_distance_range (latitude last) (longitude last)
                  (latitude (locationData location))
                  (longitude (locationData location))) as Hseg.
    fold seg in Hseg.
    destruct (Rltb seg 0.1); lra.
  - unfold TrackingContext.handleLocationUpdate, TrackingContext.updateStats.
    cbn [TrackingContext.lastLocationRef TrackingContext.setRoute
         TrackingContext.setCurrentLocation TrackingContext.stats
         TrackingContext.setStats TrackingContext.setLastLocationRef
         TrackingContext.maxSpeed].
    apply Rmax_l.
Qed.

Lemma samples_without_watcher (samples : list (R * Location))
    (s : TrackingContext.State) (w : TrackingContext.World) :
  TrackingContext.watchers w = [] ->
  TrackingContext.run
    (map (fun x => TrackingContext.OpSample (fst x) (snd x)) samples) (s, w) = (s, w).
Proof.
  intros Hw. induction samples as [| [now location] samples IH]; [reflexivity |].
  cbn [map TrackingContext.run TrackingContext.step fst snd].
  rewrite Hw. exact IH.
Qed.

Lemma run_app (ops1 ops2 : list TrackingContext.Op) :
  forall sw, TrackingContext.run (ops1 ++ ops2) sw =
             TrackingContext.run ops2 (TrackingContext.run ops1 sw).
Proof.
  induction ops1 as [| op ops1 IH]; intros sw; [reflexivity |].
  cbn [app TrackingContext.run]. apply IH.
Qed.

Lemma pause_fields (e : TrackingContext.Env) (s : TrackingContext.State)
    (w : TrackingContext.World) :
  context_consistent (s, w) ->
  TrackingContext.isTracking s = true ->
  let s' := fst (TrackingContext.pauseTracking e s w) in
  let w' := snd (TrackingContext.pauseTracking e s w) in
  TrackingContext.isTracking s' = false /\
  TrackingContext.locationSubscription s' = None /\
  TrackingContext.watchers w' = [] /\
  TrackingContext.route s' = TrackingContext.route s /\
  TrackingContext.stats s' = TrackingContext.stats s /\
  TrackingContext.activityDocRef s' = TrackingContext.activityDocRef s /\
  TrackingContext.startTimeRef s' = TrackingContext.startTimeRef s /\
  TrackingContext.lastLocationRef s' = TrackingContext.lastLocationRef s /\
  TrackingContext.next_handle w' = TrackingContext.next_handle w /\
  length (TrackingContext.rides w') = length (TrackingContext.rides w).
Proof.
  intros Hc Ht. unfold TrackingContext.pauseTracking. rewrite Ht. cbn [negb].
  destruct (removeSubscription_fields s w Hc)
    as (Hs1 & Hw1 & Hr1 & _ & _ & Hd1 & Hro & Hst & Hstr & Hll & _ & Hnh).
  destruct (TrackingContext.removeSubscription s w) as [s1 w1]. cbn [fst snd] in *.
  cbn [TrackingContext.setIsTracking TrackingContext.activityDocRef].
  destruct (TrackingContext.user e);
    [destruct (TrackingContext.activityDocRef s1) eqn:Href;
       [destruct (TrackingContext.updateDoc_ok e) |] |];
    cbn; rewrite ?update_nth_length; repeat split; congruence.
Qed.

Lemma resume_fields (e : TrackingContext.Env) (s : TrackingContext.State)
    (w : TrackingContext.World) :
  TrackingContext.isTracking s = false ->
  TrackingContext.watch_ok e = true ->
  let s' := fst (TrackingContext.resumeTracking e s w) in
  let w' := snd (TrackingContext.resumeTracking e s w) in
  TrackingContext.isTracking s' = true /\
  TrackingContext.locationSubscription s' = Some (TrackingContext.next_handle w) /\
  TrackingContext.watchers w' = TrackingContext.next_handle w :: TrackingContext.watchers w /\
  TrackingContext.route s' = TrackingContext.route s /\
  TrackingContext.stats s' = TrackingContext.stats s /\
  TrackingContext.activityDocRef s' = TrackingContext.activityDocRef s /\
  TrackingContext.startTimeRef s' = TrackingContext.startTimeRef s /\
  TrackingContext.lastLocationRef s' = TrackingContext.lastLocationRef s /\
  length (TrackingContext.rides w') = length (TrackingContext.rides w).
Proof.
  intros Ht Hw. unfold TrackingContext.resumeTracking. rewrite Ht, Hw. cbn [negb].
  cbn.
  destruct (TrackingContext.user e);
    [destruct (TrackingContext.activityDocRef s) eqn:Href;
       [destruct (TrackingContext.updateDoc_ok e) |] |];
    cbn; rewrite ?update_nth_length; repeat split; congruence.
Qed.

(** X11. A tracking ride is paused, locations keep arriving from the
    location source, and the ride is resumed.  Since the pause removed the
    watcher, none of those locations reaches the provider: after the
    resume the route, the figures and the refs are exactly those from
    before the pause, [isTracking] is true again, one new watcher is live
    and no ride document was added. *)
Theorem X11_context_pause_resume_round_trip :
  forall (e1 e2 : TrackingContext.Env) (samples : list (R * Location))
         (s : TrackingContext.State) (w : TrackingContext.World),
    context_consistent (s, w) ->
    TrackingContext.isTracking s = true ->
    TrackingContext.watch_ok e2 = true ->
    let sw' :=
      TrackingContext.run
        ([TrackingContext.OpPause e1] ++
         map (fun x => TrackingContext.OpSample (fst x) (snd x)) samples ++
         [TrackingContext.OpResume e2]) (s, w) in
    TrackingContext.isTracking (fst sw') = true /\
    TrackingContext.route (fst sw') = TrackingContext.route s /\
    TrackingContext.stats (fst sw') = TrackingContext.stats s /\
    TrackingContext.activityDocRef (fst sw') = TrackingContext.activityDocRef s /\
    TrackingContext.startTimeRef (fst sw') = TrackingContext.startTimeRef s /\
    TrackingContext.lastLocationRef (fst sw') = TrackingContext.lastLocationRef s /\
    TrackingContext.watchers (snd sw') = [TrackingContext.next_handle w] /\
    length (TrackingContext.rides (snd sw')) = length (TrackingContext.rides w).
Proof.
  intros e1 e2 samples s w Hc Ht Hw2 sw'. unfold sw'.
  cbn [app TrackingContext.run TrackingContext.step].
  destruct (pause_fields e1 s w Hc Ht)
    as (Pt & Ps & Pw & Pro & Pst & Pd & Pstr & Pll & Pnh & Prl).
  destruct (TrackingContext.pauseTracking e1 s w) as [s1 w1]. cbn [fst snd] in *.
  rewrite run_app, (samples_without_watcher samples s1 w1 Pw).
  cbn [TrackingContext.run TrackingContext.step].
  destruct (resume_fields e2 s1 w1 Pt Hw2)
    as (Rt & Rs & Rw & Rro & Rst & Rd & Rstr & Rll & Rrl).
  destruct (TrackingContext.resumeTracking e2 s1 w1) as [s2 w2]. cbn [fst snd] in *.
  rewrite Pw, Pnh in Rw.
  repeat split; congruence.
Qed.

Lemma X11_pause_resume_example :
  let sw' :=
    TrackingContext.run
      ([TrackingContext.OpPause Samples.context_env_write_fails] ++
       map (fun x => TrackingContext.OpSample (fst x) (snd x))
         [(10000, Samples.loc_far)] ++
       [TrackingContext.OpResume Samples.context_env]) context_started in
  TrackingContext.isTracking (fst sw') = true /\
  TrackingContext.route (fst sw') = TrackingContext.route (fst context_started).
Proof.
  pose proof context_started_consistent as Hc.
  destruct context_started as [s w] eqn:Hsw.
  assert (Ht : TrackingContext.isTracking s = true).
  { change s with (fst (s, w)). rewrite <- Hsw. reflexivity. }
  destruct (X11_context_pause_resume_round_trip
              Samples.context_env_write_fails Samples.context_env
              [(10000, Samples.loc_far)] s w Hc Ht eq_refl)
    as (H1 & H2 & _).
  split; [exact H1 | exact H2].
Defined.

Lemma nth_error_update_nth_same {A : Type} (f : A -> A) (l : list A) :
  forall n : nat,
    nth_error (TrackingContext.update_nth n f l) n = option_map f (nth_error l n).
Proof.
  induction l as [| x l IH]; intros [| n]; cbn; auto.
Qed.

Lemma nth_error_update_nth_other {A : Type} (f : A -> A) (l : list A) :
  forall n i : nat,
    i <> n -> nth_error (TrackingContext.update_nth n f l) i = nth_error l i.
Proof.
  induction l as [| x l IH]; intros [| n] [| i] H; cbn; auto; try contradiction.
Qed.

(** X12. When the provider has a user and a ride document and the store
    accepts the update, [discardTracking] marks that document, and no
    other, as discarded, creates none, and leaves the provider with an
    empty route, zero figures, no refs, no watcher and [isTracking]
    false. *)
Theorem X12_context_discard_resets :
  forall (e : TrackingContext.Env) (s : TrackingContext.State)
         (w : TrackingContext.World) (uid ref : nat),
    context_consistent (s, w) ->
    TrackingContext.user e = Some uid ->
    TrackingContext.activityDocRef s = Some ref ->
    TrackingContext.updateDoc_ok e = true ->
    let s' := fst (TrackingContext.discardTracking e s w) in
    let w' := snd (TrackingContext.discardTracking e s w) in
    (TrackingContext.isTracking s' = false /\
     TrackingContext.route s' = [] /\
     TrackingContext.stats s' = TrackingContext.initialStats /\
     TrackingContext.locationSubscription s' = None /\
     TrackingContext.activityDocRef s' = None /\
     TrackingContext.startTimeRef s' = None /\
     TrackingContext.lastLocationRef s' = None) /\
    TrackingContext.watchers w' = [] /\
    length (TrackingContext.rides w') = length (TrackingContext.rides w) /\
    option_map TrackingContext.doc_status (nth_error (TrackingContext.rides w') ref)
      = Some TrackingContext.discarded /\
    (forall i : nat, i <> ref ->
       nth_error (TrackingContext.rides w') i = nth_error (TrackingContext.rides w) i).
Proof.
  intros e s w uid ref Hc Hu Hr Hok.
  pose proof Hc as (_ & _ & Hd). specialize (Hd ref Hr).
  unfold TrackingContext.discardTracking.
  destruct (removeSubscription_fields s w Hc)
    as (Hs1 & Hw1 & Hr1 & _ & _ & Hd1 & _).
  destruct (TrackingContext.removeSubscription s w) as [s1 w1]. cbn [fst snd] in *.
  rewrite Hu, Hd1, Hr, Hok. cbn. rewrite Hs1, Hw1, Hr1.
  split; [repeat split |]. split; [reflexivity |].
  split; [apply update_nth_length |]. split.
  - rewrite nth_error_update_nth_same.
    destruct (nth_error (TrackingContext.rides w) ref) eqn:Hn; [reflexivity |].
    apply nth_error_None in Hn. lia.
  - intros i Hi. now apply nth_error_update_nth_other.
Qed.

Lemma context_started_fields :
  TrackingContext.isTracking (fst context_started) = true /\
  TrackingContext.activityDocRef (fst context_started) = Some 0%nat /\
  TrackingContext.startTime (TrackingContext.stats (fst context_started)) = Some 0.
Proof. repeat split. Qed.

Lemma X12_discard_example :
  TrackingContext.route
    (fst (TrackingContext.discardTracking Samples.context_env
            (fst context_started) (snd context_started))) = [] /\
  option_map TrackingContext.doc_status
    (nth_error
       (TrackingContext.rides
          (snd (TrackingContext.discardTracking Samples.context_env
                  (fst context_started) (snd context_started)))) 0)
  = Some TrackingContext.discarded.
Proof.
  pose proof context_started_consistent as Hc.
  destruct context_started_fields as (_ & Href & _).
  destruct context_started as [s w]. cbn [fst snd] in *.
  destruct (X12_context_discard_resets Samples.context_env s w 1 0
              Hc eq_refl Href eq_refl)
    as ((_ & Hroute & _) & _ & _ & Hdoc & _).
  split; [exact Hroute | exact Hdoc].
Defined.

(** X13. When the provider has a user, a ride document and a start time
    and the store accepts the update, [stopTracking] returns the figures
    and the route as they are, with the end time; that document, and no
    other, becomes completed and carries the route and the figures; the
    provider is left not tracking, without watcher and without document
    ref, but still holding the route.  A further [stopTracking] then
    writes to no document. *)
Theorem X13_context_stop_saves_ride :
  forall (e e2 : TrackingContext.Env) (s : TrackingContext.State)
         (w : TrackingContext.World) (uid ref : nat) (start : R),
    context_consistent (s, w) ->
    TrackingContext.user e = Some uid ->
    TrackingContext.activityDocRef s = Some ref ->
    TrackingContext.startTime (TrackingContext.stats s) = Some start ->
    TrackingContext.updateDoc_ok e = true ->
    exists (s' : TrackingContext.State) (w' : TrackingContext.World)
           (doc : TrackingContext.RideDoc),
      TrackingContext.stopTracking e s w =
        (Some {| TrackingContext.r_stats := TrackingContext.stats s;
                 TrackingContext.r_endTime := TrackingContext.now e;
                 TrackingContext.r_route := TrackingContext.route s |}, s', w') /\
      (TrackingContext.isTracking s' = false /\
       TrackingContext.locationSubscription s' = None /\
       TrackingContext.activityDocRef s' = None /\
       TrackingContext.route s' = TrackingContext.route s) /\
      TrackingContext.watchers w' = [] /\
      length (TrackingContext.rides w') = length (TrackingContext.rides w) /\
      nth_error (TrackingContext.rides w') ref = Some doc /\
      (TrackingContext.doc_status doc = TrackingContext.completed /\
       TrackingContext.doc_route doc = Some (TrackingContext.route s) /\
       TrackingContext.doc_distance doc =
         Some (TrackingContext.distance (TrackingContext.stats s)) /\
       TrackingContext.doc_duration doc =
         Some (TrackingContext.duration (TrackingContext.stats s))) /\
      (forall i : nat, i <> ref ->
         nth_error (TrackingContext.rides w') i =
         nth_error (TrackingContext.rides w) i) /\
      TrackingContext.rides (snd (TrackingContext.stopTracking e2 s' w')) =
        TrackingContext.rides w'.
Proof.
  intros e e2 s w uid ref start Hc Hu Hr Hst Hok.
  pose proof Hc as (_ & _ & Hd). specialize (Hd ref Hr).
  destruct (nth_error (TrackingContext.rides w) ref) as [doc0 |] eqn:Hn;
    [| apply nth_error_None in Hn; lia].
  unfold TrackingContext.stopTracking at 1.
  destruct (removeSubscription_fields s w Hc)
    as (Hs1 & Hw1 & Hr1 & _ & _ & Hd1 & Hro & _).
  destruct (TrackingContext.removeSubscription s w) as [s1 w1]. cbn [fst snd] in *.
  cbn [TrackingContext.setStats TrackingContext.activityDocRef].
  rewrite Hu, Hd1, Hr, Hst, Hok.
  eexists; eexists; eexists.
  split; [reflexivity |].
  cbn. rewrite Hs1, Hw1, Hr1, Hro.
  split; [repeat split |]. split; [reflexivity |].
  split; [apply update_nth_length |].
  split; [rewrite nth_error_update_nth_same, Hn; reflexivity |].
  split; [repeat split |].
  split; [intros i Hi; now apply nth_error_update_nth_other |].
  unfold TrackingContext.stopTracking, TrackingContext.removeSubscription.
  cbn. rewrite Hs1. cbn.
  destruct (TrackingContext.user e2); cbn; now rewrite Hr1.
Qed.

Lemma X13_stop_example :
  exists s' w' doc,
    TrackingContext.stopTracking Samples.context_env
      (fst context_started) (snd context_started) =
    (Some {| TrackingContext.r_stats := TrackingContext.stats (fst context_started);
             TrackingContext.r_endTime := 0;
             TrackingContext.r_route := TrackingContext.route (fst context_started) |},
     s', w') /\
    nth_error (TrackingContext.rides w') 0 = Some doc /\
    TrackingContext.doc_status doc = TrackingContext.completed.
Proof.
  pose proof context_started_consistent as Hc.
  destruct context_started_fields as (_ & Href & Hst).
  destruct context_started as [s w]. cbn [fst snd] in *.
  destruct (X13_context_stop_saves_ride Samples.context_env Samples.context_env
              s w 1 0 0 Hc eq_refl Href Hst eq_refl)
    as (s' & w' & doc & Hstop & _ & _ & _ & Hdoc & (Hstatus & _) & _).
  exists s', w', doc. split; [exact Hstop |]. split; [exact Hdoc | exact Hstatus].
Defined.

(** ** The tracking service: a running session *)

(** What a successful [startTracking] leaves behind. *)
Lemma service_start_success (e : TrackingService.Env) (userId id : nat)
    (d0 d1 : TrackingService.TrackingData) (w0 w1 : TrackingService.World) :
  TrackingService.startTracking e userId d0 w0 = (TrackingService.Success id, d1, w1) ->
  exists location : Location,
    TrackingService.position e = Some location /\
    id = TrackingService.fresh_id e /\
    TrackingService.isTracking d1 = true /\
    TrackingService.startTime d1 = Some (TrackingService.now e) /\
    TrackingService.distance d1 = 0 /\
    TrackingService.maxSpeed d1 = 0 /\
    TrackingService.minSpeed d1 = Infinity /\
    TrackingService.locationHistory d1 = [locationData location] /\
    TrackingService.current_tracking_id (TrackingService.storage w1) = Some id /\
    TrackingService.tracking_start_time (TrackingService.storage w1) =
      Some (TrackingService.date_of_string_of (TrackingService.now e)) /\
    TrackingService.location_history (TrackingService.storage w1) =
      TrackingService.location_history (TrackingService.storage w0) /\
    TrackingService.tracking_sessions w1 = TrackingService.tracking_sessions w0.
Proof.
  unfold TrackingService.startTracking.
  destruct (TrackingService.permission_granted e); cbn [negb]; [| discriminate].
  destruct (TrackingService.startUpdates_ok e); cbn [negb]; [| discriminate].
  destruct (TrackingService.position e) as [location |]; [| discriminate].
  intros H. injection H as <- <- <-. exists location. cbn. repeat split.
Qed.

Lemma service_update_tracking_fields (calc : R -> R -> R -> R -> R)
    (location : Location) (d : TrackingService.TrackingData)
    (w : TrackingService.World) :
  let d' := fst (TrackingService.updateTracking calc location d w) in
  TrackingService.isTracking d' = TrackingService.isTracking d /\
  TrackingService.startTime d' = TrackingService.startTime d.
Proof.
  unfold TrackingService.updateTracking.
  destruct (TrackingService.isTracking d) eqn:Ht; cbn; auto.
Qed.

Lemma service_deliver_invariant (calc : R -> R -> R -> R -> R)
    (P : TrackingService.TrackingData -> TrackingService.World -> Prop) :
  (forall location d w,
     TrackingService.isTracking d = true -> P d w ->
     P (fst (TrackingService.updateTracking calc location d w))
       (snd (TrackingService.updateTracking calc location d w))) ->
  forall samples d w,
    TrackingService.isTracking d = true -> P d w ->
    TrackingService.isTracking
      (fst (TrackingService.deliver calc samples d w)) = true /\
    P (fst (TrackingService.deliver calc samples d w))
      (snd (TrackingService.deliver calc samples d w)).
Proof.
  intros Hstep. induction samples as [| location samples IH]; intros d w Ht HP.
  - cbn. auto.
  - cbn [TrackingService.deliver].
    pose proof (Hstep location d w Ht HP) as HP'.
    destruct (service_update_tracking_fields calc location d w) as [Ht' _].
    destruct (TrackingService.updateTracking calc location d w) as [d' w'].
    cbn [fst snd] in *. apply IH; congruence.
Qed.

Lemma speeds_ordered_step (calc : R -> R -> R -> R -> R) (location : Location)
    (d : TrackingService.TrackingData) (w : TrackingService.World) :
  speeds_ordered (TrackingService.maxSpeed d) (TrackingService.minSpeed d) ->
  let d' := fst (TrackingService.updateTracking calc location d w) in
  speeds_ordered (TrackingService.maxSpeed d') (TrackingService.minSpeed d').
Proof.
  intros H. unfold TrackingService.updateTracking.
  destruct (TrackingService.isTracking d); cbn [negb fst]; [| exact H].
  cbv zeta. cbn [fst TrackingService.maxSpeed TrackingService.minSpeed].
  set (cs := if truthy_opt _ then _ else 0).
  destruct (Rlt_dec 0 cs) as [Hp | Hn].
  - rewrite !(Rltb_true 0 cs) by assumption.
    unfold speeds_ordered in *.
    destruct (TrackingService.minSpeed d) as [m |]; cbn [ext_min].
    + pose proof (Rmin_l m cs). pose proof (Rmax_l (TrackingService.maxSpeed d) cs).
      split; [apply Rmin_glb_lt; lra | lra].
    + rewrite H. rewrite (Rmax_right 0 cs) by lra. lra.
  - rewrite !(Rltb_false 0 cs) by lra. exact H.
Qed.

(** X14. From a successful start on, whatever locations are delivered,
    [getCurrentStats] returns figures (never [null]) in which the minimum
    speed is a number, not [Infinity], with
    [0 <= minSpeed <= maxSpeed]. *)
Theorem X14_service_min_below_max :
  forall (calc : R -> R -> R -> R -> R) (e : TrackingService.Env)
         (userId id : nat) (d0 d1 : TrackingService.TrackingData)
         (w0 w1 : TrackingService.World) (samples : list Location),
    TrackingService.startTracking e userId d0 w0 =
      (TrackingService.Success id, d1, w1) ->
    let d := fst (TrackingService.deliver calc samples d1 w1) in
    exists cs : TrackingService.CurrentStats,
      TrackingService.getCurrentStats d = Some cs /\
      0 <= TrackingService.cs_minSpeed cs <= TrackingService.cs_maxSpeed cs /\
      TrackingService.cs_isTracking cs = true.
Proof.
  intros calc e userId id d0 d1 w0 w1 samples Hstart d.
  destruct (service_start_success _ _ _ _ _ _ _ Hstart)
    as (location & _ & _ & Ht & _ & _ & Hmx & Hmn & _).
  destruct (service_deliver_invariant calc
              (fun d _ => speeds_ordered (TrackingService.maxSpeed d)
                                         (TrackingService.minSpeed d))
              (fun location d w _ H => speeds_ordered_step calc location d w H)
              samples d1 w1 Ht) as [HtN Hord].
  { rewrite Hmx, Hmn. reflexivity. }
  fold d in HtN, Hord.
  unfold TrackingService.getCurrentStats. rewrite HtN. cbn [negb andb].
  eexists. split; [reflexivity |].
  cbn [TrackingService.cs_minSpeed TrackingService.cs_maxSpeed
       TrackingService.cs_isTracking].
  unfold speeds_ordered in Hord.
  destruct (TrackingService.minSpeed d) as [m |]; split; auto; lra.
Qed.

Lemma X14_current_stats_example :
  exists cs : TrackingService.CurrentStats,
    TrackingService.getCurrentStats
      (fst (TrackingService.deliver Formatters.calculateDistance
              [Samples.loc_still; Samples.loc_far]
              Samples.service_started Samples.service_world_started)) = Some cs /\
    0 <= TrackingService.cs_minSpeed cs <= TrackingService.cs_maxSpeed cs.
Proof.
  destruct (X14_service_min_below_max Formatters.calculateDistance
              Samples.service_env 1 7 TrackingService.initialData
              Samples.service_started Samples.service_world
              Samples.service_world_started
              [Samples.loc_still; Samples.loc_far] service_start_example)
    as (cs & Hcs & Hord & _).
  exists cs. split; [exact Hcs | exact Hord].
Defined.

Lemma snapshot_trails_step (calc : R -> R -> R -> R -> R) (location : Location)
    (d : TrackingService.TrackingData) (w : TrackingService.World) :
  TrackingService.isTracking d = true ->
  snapshot_trails (TrackingService.locationHistory d)
    (TrackingService.location_history (TrackingService.storage w)) ->
  snapshot_trails
    (TrackingService.locationHistory
       (fst (TrackingService.updateTracking calc location d w)))
    (TrackingService.location_history
       (TrackingService.storage
          (snd (TrackingService.updateTracking calc location d w)))).
Proof.
  intros Ht H. unfold TrackingService.updateTracking. rewrite Ht. cbn [negb].
  cbv zeta. cbn [fst snd TrackingService.locationHistory].
  set (hist := TrackingService.locationHistory d) in *.
  set (p := locationData location).
  destruct (length (hist ++ [p]) mod 10 =? 0)%nat eqn:Hmod.
  - apply Nat.eqb_eq in Hmod. cbn. exists []. rewrite app_nil_r.
    repeat split; [cbn; lia | exact Hmod].
  - apply Nat.eqb_neq in Hmod. rewrite length_app in Hmod. cbn [length] in Hmod.
    unfold snapshot_trails in *.
    destruct (TrackingService.location_history (TrackingService.storage w)) as [c |].
    + destruct H as (rest & Hh & Hlen & Hc).
      exists (rest ++ [p]). rewrite Hh, <- app_assoc.
      split; [reflexivity |]. split; [| exact Hc].
      rewrite length_app. cbn [length].
      rewrite Hh, length_app in Hmod.
      assert (length rest + 1 <> 10)%nat; [| lia].
      intros Heq. apply Hmod.
      replace (length c + length rest + 1)%nat with (length c + 10)%nat by lia.
      rewrite Nat.Div0.add_mod, Hc. reflexivity.
    + rewrite length_app. cbn [length].
      assert (length hist + 1 <> 10)%nat; [| lia].
      intros Heq. apply Hmod. rewrite Heq. reflexivity.
Qed.

(** X15. A session is started on a cache that holds no route snapshot.
    Whatever locations are delivered, the snapshot in the cache, once
    there is one, is a prefix of the history in memory and misses fewer
    than ten of its points; before the tenth point there is no snapshot. *)
Theorem X15_service_snapshot_trails_history :
  forall (calc : R -> R -> R -> R -> R) (e : TrackingService.Env)
         (userId id : nat) (d0 d1 : TrackingService.TrackingData)
         (w0 w1 : TrackingService.World) (samples : list Location),
    TrackingService.location_history (TrackingService.storage w0) = None ->
    TrackingService.startTracking e userId d0 w0 =
      (TrackingService.Success id, d1, w1) ->
    let d := fst (TrackingService.deliver calc samples d1 w1) in
    let w := snd (TrackingService.deliver calc samples d1 w1) in
    snapshot_trails (TrackingService.locationHistory d)
      (TrackingService.location_history (TrackingService.storage w)).
Proof.
  intros calc e userId id d0 d1 w0 w1 samples Hnone Hstart d w.
  destruct (service_start_success _ _ _ _ _ _ _ Hstart)
    as (location & _ & _ & Ht & _ & _ & _ & _ & Hh & _ & _ & Hlh & _).
  destruct (service_deliver_invariant calc
              (fun d w => snapshot_trails (TrackingService.locationHistory d)
                 (TrackingService.location_history (TrackingService.storage w)))
              (snapshot_trails_step calc) samples d1 w1 Ht) as [_ H].
  { rewrite Hh, Hlh, Hnone. cbn. lia. }
  exact H.
Qed.

Lemma X15_snapshot_example :
  snapshot_trails
    (TrackingService.locationHistory
       (fst (TrackingService.deliver Formatters.calculateDistance
               [Samples.loc_still; Samples.loc_far]
               Samples.service_started Samples.service_world_started)))
    (TrackingService.location_history
       (TrackingService.storage
          (snd (TrackingService.deliver Formatters.calculateDistance
                  [Samples.loc_still; Samples.loc_far]
                  Samples.service_started Samples.service_world_started)))).
Proof.
  apply (X15_service_snapshot_trails_history Formatters.calculateDistance
           Samples.service_env 1 7 TrackingService.initialData
           Samples.service_started Samples.service_world
           Samples.service_world_started
           [Samples.loc_still; Samples.loc_far] eq_refl service_start_example).
Defined.

Lemma distanceLoop_app (calc : R -> R -> R -> R -> R) (rest : list LocationPoint) :
  forall (t : R) (prev p : LocationPoint),
    TrackingService.distanceLoop calc t prev (rest ++ [p]) =
    TrackingService.distanceLoop calc t prev rest +
    calc (latitude (last rest prev)) (longitude (last rest prev))
         (latitude p) (longitude p).
Proof.
  induction rest as [| cur rest IH]; intros t prev p.
  - reflexivity.
  - cbn [app TrackingService.distanceLoop]. rewrite IH.
    now rewrite last_cons_default.
Qed.

Lemma service_distance_deliver (calc : R -> R -> R -> R -> R)
    (first : LocationPoint) (samples : list Location) :
  forall (d : TrackingService.TrackingData) (w : TrackingService.World)
         (rest : list LocationPoint),
    TrackingService.isTracking d = true ->
    TrackingService.locationHistory d = first :: rest ->
    TrackingService.distance d = TrackingService.distanceLoop calc 0 first rest ->
    let d' := fst (TrackingService.deliver calc samples d w) in
    TrackingService.locationHistory d' = first :: rest ++ map locationData samples /\
    TrackingService.distance d' =
      TrackingService.distanceLoop calc 0 first (rest ++ map locationData samples).
Proof.
  induction samples as [| location samples IH]; intros d w rest Ht Hh Hd.
  - cbn. rewrite app_nil_r. auto.
  - cbn [TrackingService.deliver map].
    assert (Hlast : TrackingService.locationHistory d =
                    removelast (first :: rest) ++ [last rest first]).
    { rewrite Hh. rewrite <- (last_cons_default rest first first).
      apply app_removelast_last. discriminate. }
    destruct (service_update_adds_segment calc location d w _ _ Ht Hlast)
      as [Hd' Hh'].
    destruct (service_update_tracking_fields calc location d w) as [Ht' _].
    destruct (TrackingService.updateTracking calc location d w) as [d1 w1].
    cbn [fst snd] in *.
    specialize (IH d1 w1 (rest ++ [locationData location])).
    rewrite <- !app_assoc in IH. cbn [app] in IH.
    apply IH.
    + congruence.
    + rewrite Hh', Hh. reflexivity.
    + rewrite Hd', Hd, distanceLoop_app. reflexivity.
Qed.

(** X16. After a successful start and any deliveries, the history of the
    service is the start point followed by the delivered points, and its
    running distance is what the recovery loop computes from that history:
    a recovery from a snapshot of the whole history resumes with the same
    distance and the same history. *)
Theorem X16_service_recovery_recomputes_distance :
  forall (calc : R -> R -> R -> R -> R) (e e' : TrackingService.Env)
         (userId id : nat) (d0 d1 dx : TrackingService.TrackingData)
         (w0 w1 wx : TrackingService.World) (samples : list Location)
         (data : TrackingService.InterruptedData) (location' : Location),
    TrackingService.startTracking e userId d0 w0 =
      (TrackingService.Success id, d1, w1) ->
    TrackingService.position e' = Some location' ->
    TrackingService.startUpdates_ok e' = true ->
    let dN := fst (TrackingService.deliver calc samples d1 w1) in
    TrackingService.i_locationHistory data = TrackingService.locationHistory dN ->
    let dr := snd (fst (TrackingService.resumeInterruptedTracking calc e' data dx wx)) in
    length (TrackingService.locationHistory dN) = S (length samples) /\
    TrackingService.locationHistory dr = TrackingService.locationHistory dN /\
    TrackingService.distance dr = TrackingService.distance dN.
Proof.
  intros calc e e' userId id d0 d1 dx w0 w1 wx samples data location'
         Hstart Hpos Hup dN Hdata dr.
  destruct (service_start_success _ _ _ _ _ _ _ Hstart)
    as (location & _ & _ & Ht & _ & Hd0 & _ & _ & Hh & _).
  destruct (service_distance_deliver calc (locationData location) samples
              d1 w1 [] Ht Hh Hd0) as [HhN HdN].
  fold dN in HhN, HdN. cbn [app] in HhN, HdN.
  unfold dr. rewrite (resume_result calc e' data dx wx location' Hpos Hup).
  cbn [fst snd TrackingService.locationHistory TrackingService.distance].
  rewrite Hdata, HhN, HdN.
  split; [cbn; now rewrite length_map |]. split; [reflexivity |].
  destruct (map locationData samples); reflexivity.
Qed.

Lemma X16_recovery_example :
  let dN := fst (TrackingService.deliver Formatters.calculateDistance
                   [Samples.loc_still; Samples.loc_far]
                   Samples.service_started Samples.service_world_started) in
  let data := TrackingService.mkInterrupted 7 0 (TrackingService.locationHistory dN) in
  TrackingService.distance
    (snd (fst (TrackingService.resumeInterruptedTracking
                 Formatters.calculateDistance Samples.service_env data
                 TrackingService.initialData Samples.service_world)))
  = TrackingService.distance dN.
Proof.
  intros dN data.
  apply (X16_service_recovery_recomputes_distance Formatters.calculateDistance
           Samples.service_env Samples.service_env 1 7
           TrackingService.initialData Samples.service_started
           TrackingService.initialData Samples.service_world
           Samples.service_world_started Samples.service_world
           [Samples.loc_still; Samples.loc_far] data Samples.loc_start
           service_start_example eq_refl eq_refl eq_refl).
Defined.

Lemma set_isTracking_round_trip (d : TrackingService.TrackingData) :
  TrackingService.isTracking d = true ->
  TrackingService.set_isTracking true (TrackingService.set_isTracking false d) = d.
Proof. destruct d; cbn; intros ->; reflexivity. Qed.

Lemma service_deliver_paused (calc : R -> R -> R -> R -> R)
    (samples : list Location) (d : TrackingService.TrackingData)
    (w : TrackingService.World) :
  TrackingService.isTracking d = false ->
  TrackingService.deliver calc samples d w = (d, w).
Proof.
  intros Ht. induction samples as [| location samples IH]; [reflexivity |].
  cbn [TrackingService.deliver]. unfold TrackingService.updateTracking.
  rewrite Ht. cbn [negb]. exact IH.
Qed.

(** X17. A tracking session of the service is paused, locations are
    still handed to [updateTracking], and the session is resumed (the
    location task stopping and starting without error).  The tracking data
    after the resume are exactly those from before the pause: nothing
    delivered during the pause is recorded, and the cache and the stored
    sessions are untouched. *)
Theorem X17_service_pause_resume_round_trip :
  forall (calc : R -> R -> R -> R -> R) (e1 e2 : TrackingService.Env)
         (samples : list Location) (d : TrackingService.TrackingData)
         (w : TrackingService.World),
    TrackingService.isTracking d = true ->
    TrackingService.stopUpdates_ok e1 = true ->
    TrackingService.startUpdates_ok e2 = true ->
    let '(r1, d1, w1) := TrackingService.pauseTracking e1 d w in
    let '(d2, w2) := TrackingService.deliver calc samples d1 w1 in
    let '(r2, d3, w3) := TrackingService.resumeTracking e2 d2 w2 in
    r1 = TrackingService.Success tt /\ r2 = TrackingService.Success tt /\
    TrackingService.isTracking d2 = false /\
    d3 = d /\
    TrackingService.storage w3 = TrackingService.storage w /\
    TrackingService.tracking_sessions w3 = TrackingService.tracking_sessions w /\
    TrackingService.updates_running w3 = true.
Proof.
  intros calc e1 e2 samples d w Ht Hs1 Hs2.
  unfold TrackingService.pauseTracking. rewrite Ht, Hs1. cbn [negb].
  rewrite service_deliver_paused by reflexivity.
  unfold TrackingService.resumeTracking. cbn [TrackingService.set_isTracking
    TrackingService.isTracking]. rewrite Hs2. cbn [negb].
  repeat split. now apply set_isTracking_round_trip.
Qed.

Lemma X17_pause_resume_example :
  let '(r1, d1, w1) :=
    TrackingService.pauseTracking Samples.service_env
      Samples.service_started Samples.service_world_started in
  let '(d2, w2) :=
    TrackingService.deliver Formatters.calculateDistance [Samples.loc_far] d1 w1 in
  let '(r2, d3, w3) := TrackingService.resumeTracking Samples.service_env d2 w2 in
  r1 = TrackingService.Success tt /\ r2 = TrackingService.Success tt /\
  TrackingService.isTracking d2 = false /\
  d3 = Samples.service_started /\
  TrackingService.storage w3 = TrackingService.storage Samples.service_world_started /\
  TrackingService.tracking_sessions w3 =
    TrackingService.tracking_sessions Samples.service_world_started /\
  TrackingService.updates_running w3 = true.
Proof.
  apply (X17_service_pause_resume_round_trip Formatters.calculateDistance
           Samples.service_env Samples.service_env [Samples.loc_far]
           Samples.service_started Samples.service_world_started
           eq_refl eq_refl eq_refl).
Defined.

(** ** The tracking service: stored sessions and user totals *)

Lemma findSession_filtered (id : nat) (l : list TrackingService.SessionDoc) :
  TrackingService.findSession id
    (filter (fun x => negb (Nat.eqb (TrackingService.s_id x) id)) l) = None.
Proof.
  unfold TrackingService.findSession.
  induction l as [| x l IH]; [reflexivity |]. cbn [filter].
  destruct (Nat.eqb (TrackingService.s_id x) id) eqn:E; cbn [negb]; [exact IH |].
  cbn [find]. now rewrite E.
Qed.

Lemma findSession_filter_other (id j : nat) (l : list TrackingService.SessionDoc) :
  j <> id ->
  TrackingService.findSession j
    (filter (fun x => negb (Nat.eqb (TrackingService.s_id x) id)) l) =
  TrackingService.findSession j l.
Proof.
  intros Hj. unfold TrackingService.findSession.
  induction l as [| x l IH]; [reflexivity |]. cbn [filter find].
  destruct (Nat.eqb (TrackingService.s_id x) id) eqn:E; cbn [negb].
  - apply Nat.eqb_eq in E.
    replace (Nat.eqb (TrackingService.s_id x) j) with false
      by (symmetry; apply Nat.eqb_neq; lia).
    exact IH.
  - cbn [find]. destruct (Nat.eqb (TrackingService.s_id x) j); [reflexivity | exact IH].
Qed.

Lemma findSession_app_none (j : nat) (l1 l2 : list TrackingService.SessionDoc) :
  TrackingService.findSession j l1 = None ->
  TrackingService.findSession j (l1 ++ l2) = TrackingService.findSession j l2.
Proof.
  unfold TrackingService.findSession.
  induction l1 as [| x l1 IH]; [reflexivity |]. cbn [app find].
  destruct (Nat.eqb (TrackingService.s_id x) j); [discriminate | exact IH].
Qed.

Lemma findSession_app_some (j : nat) (l1 l2 : list TrackingService.SessionDoc)
    (x : TrackingService.SessionDoc) :
  TrackingService.findSession j l1 = Some x ->
  TrackingService.findSession j (l1 ++ l2) = Some x.
Proof.
  unfold TrackingService.findSession.
  induction l1 as [| y l1 IH]; [discriminate |]. cbn [app find].
  destruct (Nat.eqb (TrackingService.s_id y) j); [auto | exact IH].
Qed.

Lemma findSession_setSession (doc : TrackingService.SessionDoc)
    (l : list TrackingService.SessionDoc) :
  TrackingService.findSession (TrackingService.s_id doc)
    (TrackingService.setSession doc l) = Some doc.
Proof.
  unfold TrackingService.setSession.
  rewrite findSession_app_none by apply findSession_filtered.
  unfold TrackingService.findSession. cbn. now rewrite Nat.eqb_refl.
Qed.

Lemma findSession_setSession_other (doc : TrackingService.SessionDoc)
    (l : list TrackingService.SessionDoc) (j : nat) :
  j <> TrackingService.s_id doc ->
  TrackingService.findSession j (TrackingService.setSession doc l) =
  TrackingService.findSession j l.
Proof.
  intros Hj. unfold TrackingService.setSession.
  destruct (TrackingService.findSession j l) as [x |] eqn:Hf.
  - rewrite <- (findSession_filter_other (TrackingService.s_id doc) j l Hj) in Hf.
    now apply findSession_app_some.
  - rewrite <- (findSession_filter_other (TrackingService.s_id doc) j l Hj) in Hf.
    rewrite findSession_app_none by exact Hf.
    unfold TrackingService.findSession. cbn.
    replace (Nat.eqb (TrackingService.s_id doc) j) with false
      by (symmetry; apply Nat.eqb_neq; lia).
    reflexivity.
Qed.

(** What a successful [stopTracking] has done. *)
Lemma service_stop_success (e : TrackingService.Env) (userId id : nat)
    (d dr d' : TrackingService.TrackingData) (w w' : TrackingService.World) :
  TrackingService.stopTracking e userId d w =
    (TrackingService.Success (dr, id), d', w') ->
  exists (doc : TrackingService.SessionDoc) (start : R),
    TrackingService.isTracking d = true /\
    TrackingService.current_tracking_id (TrackingService.storage w) = Some id /\
    TrackingService.startTime d = Some start /\
    dr = d' /\
    TrackingService.isTracking d' = false /\
    TrackingService.endTime d' = Some (TrackingService.now e) /\
    TrackingService.minSpeed d' <> Infinity /\
    TrackingService.locationHistory d' = TrackingService.locationHistory d /\
    TrackingService.distance d' = TrackingService.distance d /\
    TrackingService.duration d' = TrackingService.duration d /\
    TrackingService.storage w' = TrackingService.emptyStorage /\
    TrackingService.tracking_sessions w' =
      TrackingService.setSession doc (TrackingService.tracking_sessions w) /\
    (TrackingService.s_id doc = id /\
     TrackingService.s_userId doc = userId /\
     TrackingService.s_distance doc = TrackingService.distance d /\
     TrackingService.s_duration doc = TrackingService.duration d /\
     TrackingService.s_locationHistory doc = TrackingService.locationHistory d /\
     TrackingService.s_minSpeed doc <> Infinity) /\
    TrackingService.addRide userId (TrackingService.distance d)
      (TrackingService.duration d) (TrackingService.users w) =
      Some (TrackingService.users w').
Proof.
  unfold TrackingService.stopTracking.
  destruct (TrackingService.isTracking d) eqn:Ht; cbn [negb]; [| discriminate].
  destruct (TrackingService.stopUpdates_ok e); cbn [negb]; [| discriminate].
  cbn [TrackingService.with_updates TrackingService.storage
       TrackingService.startTime].
  destruct (TrackingService.current_tracking_id (TrackingService.storage w))
    as [trackingId |] eqn:Hid; [| discriminate].
  destruct (TrackingService.startTime d) as [start |] eqn:Hst; [| discriminate].
  destruct (TrackingService.set_ok e); cbn [negb]; [| discriminate].
  destruct (TrackingService.transaction_ok e); cbn [negb]; [| discriminate].
  cbn [TrackingService.users TrackingService.distance TrackingService.duration].
  destruct (TrackingService.addRide userId _ _ _) as [us |] eqn:Hadd; [| discriminate].
  intros H. injection H as <- <- <- <-.
  eexists; exists start. cbn.
  assert (Hmin : match TrackingService.minSpeed d with
                 | Fin r => Fin r | Infinity => Fin 0 end <> Infinity)
    by (destruct (TrackingService.minSpeed d); discriminate).
  repeat split; auto.
Qed.

(** X18. When [stopTracking] reports success, the session was tracking
    and its id came from the cache; afterwards it is not tracking, its
    minimum speed is a number, the cache is empty (so that
    [checkForInterruptedTracking] finds nothing to recover), the session
    document stored under that id carries the user, the distance, the
    duration and the whole history, the other stored sessions are as they
    were, and the user document was updated by the ride. *)
Theorem X18_service_stop_success :
  forall (e : TrackingService.Env) (userId id : nat)
         (d dr d' : TrackingService.TrackingData) (w w' : TrackingService.World),
    TrackingService.stopTracking e userId d w =
      (TrackingService.Success (dr, id), d', w') ->
    TrackingService.isTracking d = true /\
    TrackingService.current_tracking_id (TrackingService.storage w) = Some id /\
    TrackingService.isTracking d' = false /\
    TrackingService.minSpeed d' <> Infinity /\
    TrackingService.checkForInterruptedTracking w' = None /\
    (exists doc : TrackingService.SessionDoc,
       TrackingService.findSession id (TrackingService.tracking_sessions w') = Some doc /\
       TrackingService.s_userId doc = userId /\
       TrackingService.s_distance doc = TrackingService.distance d /\
       TrackingService.s_duration doc = TrackingService.duration d /\
       TrackingService.s_locationHistory doc = TrackingService.locationHistory d /\
       TrackingService.s_minSpeed doc <> Infinity) /\
    (forall j : nat, j <> id ->
       TrackingService.findSession j (TrackingService.tracking_sessions w') =
       TrackingService.findSession j (TrackingService.tracking_sessions w)) /\
    TrackingService.addRide userId (TrackingService.distance d)
      (TrackingService.duration d) (TrackingService.users w) =
      Some (TrackingService.users w').
Proof.
  intros e userId id d dr d' w w' H.
  destruct (service_stop_success _ _ _ _ _ _ _ _ H)
    as (doc & start & Ht & Hid & _ & _ & Ht' & _ & Hmin & _ & _ & _ & Hst & Hss &
        (Hdid & Hdu & Hdd & Hdt & Hdh & Hdm) & Hadd).
  split; [exact Ht |]. split; [exact Hid |]. split; [exact Ht' |].
  split; [exact Hmin |].
  split; [unfold TrackingService.checkForInterruptedTracking; now rewrite Hst |].
  split; [| split; [| exact Hadd]].
  - exists doc. rewrite Hss, <- Hdid. split; [apply findSession_setSession | auto].
  - intros j Hj. rewrite Hss. apply findSession_setSession_other. congruence.
Qed.

Lemma X18_stop_example :
  exists d' w',
    TrackingService.stopTracking Samples.service_env 1
      Samples.service_started Samples.service_world_started =
      (TrackingService.Success (d', 7%nat), d', w') /\
    TrackingService.isTracking d' = false /\
    TrackingService.checkForInterruptedTracking w' = None.
Proof.
  eexists; eexists. split; [reflexivity |].
  match goal with
  | |- TrackingService.isTracking ?d' = false /\
       TrackingService.checkForInterruptedTracking ?w' = None =>
      destruct (X18_service_stop_success Samples.service_env 1 7
                  Samples.service_started d' d'
                  Samples.service_world_started w' eq_refl)
        as (_ & _ & H1 & _ & H2 & _)
  end.
  split; [exact H1 | exact H2].
Defined.

Lemma removeRide_addRide (userId : nat) (dist dur : R)
    (us : list TrackingService.UserDoc) :
  forall us' : list TrackingService.UserDoc,
    Forall totals_nonneg us ->
    TrackingService.addRide userId dist dur us = Some us' ->
    TrackingService.removeRide userId dist dur us' = Some us.
Proof.
  induction us as [| u us IH]; intros us' Hnn Hadd; [discriminate |].
  inversion Hnn as [| ? ? Hu Hrest]; subst.
  cbn [TrackingService.addRide] in Hadd.
  destruct (Nat.eqb (TrackingService.u_id u) userId) eqn:E.
  - injection Hadd as <-. cbn [TrackingService.removeRide TrackingService.u_id].
    rewrite E. destruct Hu as (H1 & H2 & H3).
    cbn [TrackingService.u_rides TrackingService.u_totalDistance
         TrackingService.u_totalTime].
    rewrite !or_num_zero.
    replace (TrackingService.u_rides u + 1 - 1) with (TrackingService.u_rides u) by lra.
    replace (TrackingService.u_totalDistance u + dist - dist)
      with (TrackingService.u_totalDistance u) by lra.
    replace (TrackingService.u_totalTime u + dur - dur)
      with (TrackingService.u_totalTime u) by lra.
    rewrite !Rmax_left by assumption.
    destruct u; reflexivity.
  - destruct (TrackingService.addRide userId dist dur us) as [us'' |] eqn:Hrec;
      [| discriminate].
    injection Hadd as <-. cbn [TrackingService.removeRide]. rewrite E.
    now rewrite (IH us'' Hrest eq_refl).
Qed.

Lemma removeRide_floor (userId : nat) (dist dur : R)
    (us : list TrackingService.UserDoc) :
  forall us' : list TrackingService.UserDoc,
    TrackingService.removeRide userId dist dur us = Some us' ->
    length us' = length us /\
    forall u' : TrackingService.UserDoc,
      In u' us' -> In u' us \/ (TrackingService.u_id u' = userId /\ totals_nonneg u').
Proof.
  induction us as [| u us IH]; intros us' Hrem; [discriminate |].
  cbn [TrackingService.removeRide] in Hrem.
  destruct (Nat.eqb (TrackingService.u_id u) userId) eqn:E.
  - injection Hrem as <-. split; [reflexivity |].
    intros u' [<- | Hin]; [| left; now right].
    right. cbn. apply Nat.eqb_eq in E. split; [exact E |].
    unfold totals_nonneg. cbn. repeat split; apply Rmax_r.
  - destruct (TrackingService.removeRide userId dist dur us) as [us'' |] eqn:Hrec;
      [| discriminate].
    injection Hrem as <-. destruct (IH us'' eq_refl) as [Hlen Hin].
    split; [cbn; now rewrite Hlen |].
    intros u' [<- | Hu']; [left; now left |].
    destruct (Hin u' Hu') as [H | H]; [left; now right | now right].
Qed.

(** X19. A ride is stopped with success and the stored session is then
    deleted by the same user (the store answering every call, the totals
    of the user documents not being negative beforehand).  The deletion
    succeeds, the session is gone, every other stored session is as it was
    before the stop, and the user documents are back to what they were
    before the stop. *)
Theorem X19_service_stop_then_delete_restores_totals :
  forall (e : TrackingService.Env) (de : TrackingService.DeleteEnv)
         (userId id : nat) (d dr d' : TrackingService.TrackingData)
         (w w' : TrackingService.World),
    Forall totals_nonneg (TrackingService.users w) ->
    TrackingService.stopTracking e userId d w =
      (TrackingService.Success (dr, id), d', w') ->
    TrackingService.get_ok de = true ->
    TrackingService.delete_ok de = true ->
    TrackingService.delete_transaction_ok de = true ->
    exists w'' : TrackingService.World,
      TrackingService.deleteTrackingSession de id userId w' =
        (TrackingService.Deleted, w'') /\
      TrackingService.users w'' = TrackingService.users w /\
      TrackingService.findSession id (TrackingService.tracking_sessions w'') = None /\
      (forall j : nat, j <> id ->
         TrackingService.findSession j (TrackingService.tracking_sessions w'') =
         TrackingService.findSession j (TrackingService.tracking_sessions w)).
Proof.
  intros e de userId id d dr d' w w' Hnn Hstop Hg Hd Ht.
  destruct (service_stop_success _ _ _ _ _ _ _ _ Hstop)
    as (doc & start & _ & _ & _ & _ & _ & _ & _ & _ & _ & _ & _ & Hss &
        (Hdid & Hdu & Hdd & Hdt & _) & Hadd).
  unfold TrackingService.deleteTrackingSession. rewrite Hg. cbn [negb].
  rewrite Hss, <- Hdid, findSession_setSession, Hdu, Nat.eqb_refl, Hd, Ht.
  cbn [negb TrackingService.users]. rewrite Hdd, Hdt.
  rewrite (removeRide_addRide _ _ _ _ _ Hnn Hadd).
  eexists. split; [reflexivity |].
  cbn [TrackingService.users TrackingService.tracking_sessions].
  split; [reflexivity |]. split.
  - apply findSession_filtered.
  - intros j Hj. rewrite findSession_filter_other by congruence.
    apply findSession_setSession_other. congruence.
Qed.

Lemma X19_stop_then_delete_example :
  exists d' w' w'',
    TrackingService.stopTracking Samples.service_env 1
      Samples.service_started Samples.service_world_started =
      (TrackingService.Success (d', 7%nat), d', w') /\
    TrackingService.deleteTrackingSession delete_env 7 1 w' =
      (TrackingService.Deleted, w'') /\
    TrackingService.users w'' =
      TrackingService.users Samples.service_world_started.
Proof.
  eexists; eexists.
  match goal with
  | |- exists w'', TrackingService.stopTracking _ _ _ _ =
                     (TrackingService.Success (?d', _), _, ?w') /\ _ =>
      destruct (X19_service_stop_then_delete_restores_totals
                  Samples.service_env delete_env 1 7
                  Samples.service_started d' d'
                  Samples.service_world_started w')
        as (w'' & Hdel & Hus & _);
        [ repeat constructor; cbn; lra
        | reflexivity | reflexivity | reflexivity | reflexivity | ]
  end.
  exists w''. split; [reflexivity |]. split; [exact Hdel | exact Hus].
Defined.

(** X20. [deleteTrackingSession] never touches the crash-recovery cache
    or a session stored under another id.  When no session is stored under
    the id, or the stored session belongs to another user, nothing at all
    changes and the deletion is not reported as done.  When the deletion
    is reported as done, the session is gone and the totals of the one
    user document that changed are not negative. *)
Theorem X20_service_delete_guarded :
  forall (de : TrackingService.DeleteEnv) (id userId : nat)
         (w : TrackingService.World),
    let r := fst (TrackingService.deleteTrackingSession de id userId w) in
    let w' := snd (TrackingService.deleteTrackingSession de id userId w) in
    TrackingService.storage w' = TrackingService.storage w /\
    (forall j : nat, j <> id ->
       TrackingService.findSession j (TrackingService.tracking_sessions w') =
       TrackingService.findSession j (TrackingService.tracking_sessions w)) /\
    (TrackingService.findSession id (TrackingService.tracking_sessions w) = None ->
     w' = w /\ r <> TrackingService.Deleted) /\
    (forall doc : TrackingService.SessionDoc,
       TrackingService.findSession id (TrackingService.tracking_sessions w) = Some doc ->
       TrackingService.s_userId doc <> userId ->
       w' = w /\ r <> TrackingService.Deleted) /\
    (r = TrackingService.Deleted ->
     TrackingService.findSession id (TrackingService.tracking_sessions w') = None /\
     length (TrackingService.users w') = length (TrackingService.users w) /\
     forall u' : TrackingService.UserDoc,
       In u' (TrackingService.users w') ->
       In u' (TrackingService.users w) \/
       (TrackingService.u_id u' = userId /\ totals_nonneg u')).
Proof.
  intros de id userId w. cbv zeta.
  unfold TrackingService.deleteTrackingSession.
  destruct (TrackingService.get_ok de); cbn [negb];
    [| cbn; repeat split; auto; discriminate].
  destruct (TrackingService.findSession id (TrackingService.tracking_sessions w))
    as [doc |] eqn:Hf; [| cbn; repeat split; auto; discriminate].
  destruct (Nat.eqb (TrackingService.s_userId doc) userId) eqn:Hown; cbn [negb].
  2: { cbn; repeat split; auto; discriminate. }
  apply Nat.eqb_eq in Hown.
  assert (Hother : forall j : nat, j <> id ->
            TrackingService.findSession j
              (filter (fun x => negb (Nat.eqb (TrackingService.s_id x) id))
                      (TrackingService.tracking_sessions w)) =
            TrackingService.findSession j (TrackingService.tracking_sessions w))
    by (intros j Hj; now apply findSession_filter_other).
  destruct (TrackingService.delete_ok de); cbn [negb].
  2: { cbn; repeat split; auto; try discriminate;
       try congruence. }
  destruct (TrackingService.delete_transaction_ok de); cbn [negb].
  2: { cbn; repeat split; auto; try discriminate;
       try congruence. }
  cbn [TrackingService.users].
  destruct (TrackingService.removeRide userId _ _ _) as [us |] eqn:Hrem; cbn.
  - destruct (removeRide_floor _ _ _ _ _ Hrem) as [Hlen Hin].
    repeat split; auto; try discriminate;
      try congruence.
    apply findSession_filtered.
  - repeat split; auto; try discriminate;
      try congruence.
Qed.

(** User 2 asks for the deletion of session 7, which belongs to user 1. *)
Lemma X20_delete_foreign_session_example :
  snd (TrackingService.deleteTrackingSession delete_env 7 2
         service_world_one_session) = service_world_one_session /\
  fst (TrackingService.deleteTrackingSession delete_env 7 2
         service_world_one_session) <> TrackingService.Deleted.
Proof.
  destruct (X20_service_delete_guarded delete_env 7 2 service_world_one_session)
    as (_ & _ & _ & Hforeign & _).
  apply (Hforeign (TrackingService.mkSession 7 1 0 20000 20 0 0 (Fin 0) 0
                     [Samples.p_start])).
  - reflexivity.
  - cbn. lia.
Defined.

(** X21. Right after a successful [startTracking],
    [checkForInterruptedTracking] reports an interrupted session with the
    id the start returned; the start time it reports is the start time cut
    down to whole seconds, less than a second early; and the route it
    reports is whatever snapshot the cache held before the start (the
    start does not clear it), or the empty route. *)
Theorem X21_service_start_is_recoverable :
  forall (e : TrackingService.Env) (userId id : nat)
         (d0 d1 : TrackingService.TrackingData) (w0 w1 : TrackingService.World),
    TrackingService.startTracking e userId d0 w0 =
      (TrackingService.Success id, d1, w1) ->
    exists data : TrackingService.InterruptedData,
      TrackingService.checkForInterruptedTracking w1 = Some data /\
      TrackingService.i_trackingId data = id /\
      TrackingService.now e - 1000 < TrackingService.i_startTime data
        <= TrackingService.now e /\
      TrackingService.i_locationHistory data =
        match TrackingService.location_history (TrackingService.storage w0) with
        | Some h => h
        | None => []
        end.
Proof.
  intros e userId id d0 d1 w0 w1 Hstart.
  destruct (service_start_success _ _ _ _ _ _ _ Hstart)
    as (location & _ & _ & _ & _ & _ & _ & _ & _ & Hid & Hst & Hlh & _).
  unfold TrackingService.checkForInterruptedTracking. rewrite Hid, Hst, Hlh.
  eexists. split; [reflexivity |]. cbn. split; [reflexivity |].
  split; [| reflexivity].
  unfold TrackingService.date_of_string_of.
  pose proof (Int_part_bounds (TrackingService.now e / 1000)) as H. lra.
Qed.

Lemma X21_start_example :
  exists data : TrackingService.InterruptedData,
    TrackingService.checkForInterruptedTracking Samples.service_world_started
      = Some data /\
    TrackingService.i_trackingId data = 7%nat /\
    TrackingService.i_locationHistory data = [].
Proof.
  destruct (X21_service_start_is_recoverable Samples.service_env 1 7
              TrackingService.initialData Samples.service_started
              Samples.service_world Samples.service_world_started
              service_start_example)
    as (data & Hc & Hid & _ & Hh).
  exists data. split; [exact Hc |]. split; [exact Hid | exact Hh].
Defined.

(** ** The calculator of the location hook *)

Lemma uselocation_is_ctx (lat1 lon1 lat2 lon2 : R) :
  lat1 <> 0 -> lon1 <> 0 -> lat2 <> 0 -> lon2 <> 0 ->
  UseLocation.calculateDistance
    (Some (UseLocation.mkLatLng lat1 lon1)) (Some (UseLocation.mkLatLng lat2 lon2)) =
  TrackingContext.calculateDistance lat1 lon1 lat2 lon2.
Proof.
  intros H1 H2 H3 H4. unfold TrackingContext.calculateDistance.
  rewrite !truthy_true by assumption. reflexivity.
Qed.

Lemma uselocation_meridian (lat1 lat2 lon : R) :
  0 <= lat2 - lat1 < 180 ->
  UseLocation.calculateDistance
    (Some (UseLocation.mkLatLng lat1 lon)) (Some (UseLocation.mkLatLng lat2 lon)) =
  6371 * ((lat2 - lat1) * (PI / 180)).
Proof.
  intros Hd. unfold UseLocation.calculateDistance, UseLocation.deg2rad.
  cbn [UseLocation.ll_latitude UseLocation.ll_longitude]. cbv zeta.
  assert (Hpi : 0 < PI) by apply PI_RGT_0.
  set (x := (lat2 - lat1) * (PI / 180) / 2).
  assert (Hx : 0 <= x < PI / 2) by (unfold x; split; nra).
  replace ((lon - lon) * (PI / 180) / 2) with 0 by lra.
  rewrite sin_0.
  assert (Hsin : 0 <= sin x) by (apply sin_ge_0; lra).
  assert (Hcos : 0 < cos x) by (apply cos_gt_0; lra).
  replace (sin x * sin x + cos (lat1 * (PI / 180)) * cos (lat2 * (PI / 180)) * 0 * 0)
    with (sin x * sin x) by ring.
  replace (1 - sin x * sin x) with (cos x * cos x)
    by (generalize (sin2_cos2 x); unfold Rsqr; lra).
  rewrite !sqrt_square by lra.
  unfold Math_atan2. rewrite (Rltb_true 0 (cos x)) by assumption.
  change (sin x / cos x) with (tan x).
  rewrite atan_tan by lra.
  unfold x; lra.
Qed.

(** X22. The calculator of the location hook returns 0 when either
    argument is [null], is symmetric, stays between 0 and 6371 * PI, and
    agrees with the calculator of the tracking context whenever the four
    coordinates are all different from zero.  It has no zero-coordinate
    guard: from the equator to one degree north along a meridian it
    returns the arc of one degree, where the calculator of the context
    returns 0. *)
Theorem X22_location_hook_distance :
  forall lat1 lon1 lat2 lon2 : R,
    let c1 := Some (UseLocation.mkLatLng lat1 lon1) in
    let c2 := Some (UseLocation.mkLatLng lat2 lon2) in
    UseLocation.calculateDistance None c2 = 0 /\
    UseLocation.calculateDistance c1 None = 0 /\
    UseLocation.calculateDistance c1 c2 = UseLocation.calculateDistance c2 c1 /\
    0 <= UseLocation.calculateDistance c1 c2 <= 6371 * PI /\
    (lat1 <> 0 -> lon1 <> 0 -> lat2 <> 0 -> lon2 <> 0 ->
     UseLocation.calculateDistance c1 c2 =
     TrackingContext.calculateDistance lat1 lon1 lat2 lon2) /\
    UseLocation.calculateDistance
      (Some (UseLocation.mkLatLng 0 lon1)) (Some (UseLocation.mkLatLng 1 lon1))
      = 6371 * (PI / 180) /\
    TrackingContext.calculateDistance 0 lon1 1 lon1 = 0.
Proof.
  intros lat1 lon1 lat2 lon2. cbv zeta.
  split; [reflexivity |]. split; [reflexivity |].
  split; [| split; [| split; [| split]]].
  - unfold UseLocation.calculateDistance, UseLocation.deg2rad.
    cbn [UseLocation.ll_latitude UseLocation.ll_longitude]. cbv zeta.
    now rewrite (hav_term_sym lat1 lon1 lat2 lon2).
  - unfold UseLocation.calculateDistance. cbv zeta. apply haversine_range.
  - apply uselocation_is_ctx.
  - rewrite uselocation_meridian by lra. lra.
  - unfold TrackingContext.calculateDistance. now rewrite truthy_zero.
Qed.

Lemma X22_location_hook_example :
  UseLocation.calculateDistance
    (Some (UseLocation.mkLatLng 1 1)) (Some (UseLocation.mkLatLng 2 1)) =
  TrackingContext.calculateDistance 1 1 2 1.
Proof.
  destruct (X22_location_hook_distance 1 1 2 1) as (_ & _ & _ & _ & H & _).
  apply H; lra.
Defined.

(** ** Starts that fail *)

(** X23. A start of the provider while [isTracking] is false ends
    tracking exactly when the permission is granted, the position fix
    arrives, the ride document (if there is a user) is created and the
    watcher opens.  In every other case [isTracking] stays false, no
    watcher is opened and exactly one alert is shown; when the permission
    or the position fix is missing the state and the document store are
    left as they were. *)
Theorem X23_context_start_outcomes :
  forall (e : TrackingContext.Env) (s : TrackingContext.State)
         (w : TrackingContext.World),
    TrackingContext.isTracking s = false ->
    let s' := fst (TrackingContext.startTracking e s w) in
    let w' := snd (TrackingContext.startTracking e s w) in
    let all_fine :=
      (TrackingContext.permission_granted e &&
       match TrackingContext.position e with Some _ => true | None => false end &&
       match TrackingContext.user e with
       | Some _ => TrackingContext.addDoc_ok e
       | None => true
       end &&
       TrackingContext.watch_ok e)%bool in
    TrackingContext.isTracking s' = all_fine /\
    (all_fine = false ->
     TrackingContext.watchers w' = TrackingContext.watchers w /\
     TrackingContext.locationSubscription s' = TrackingContext.locationSubscription s /\
     TrackingContext.alerts w' =
       TrackingContext.alerts w ++ [TrackingContext.alert_error_message]) /\
    ((TrackingContext.permission_granted e &&
      match TrackingContext.position e with Some _ => true | None => false end)%bool
       = false ->
     s' = s /\ TrackingContext.rides w' = TrackingContext.rides w).
Proof.
  intros e s w Ht. cbv zeta. unfold TrackingContext.startTracking. rewrite Ht.
  destruct (TrackingContext.permission_granted e); cbn [negb andb];
    [| cbn; repeat split; auto].
  destruct (TrackingContext.position e) as [location |]; cbn [andb];
    [| cbn; repeat split; auto].
  destruct (TrackingContext.user e) as [uid |].
  - destruct (TrackingContext.addDoc_ok e); cbn [andb].
    + destruct (TrackingContext.watch_ok e); cbn;
        repeat split; auto; discriminate.
    + cbn. rewrite Ht. repeat split; auto; discriminate.
  - destruct (TrackingContext.watch_ok e); cbn;
      repeat split; auto; discriminate.
Qed.

Lemma X23_start_without_permission_example :
  let e := {| TrackingContext.user := Some 1%nat;
              TrackingContext.permission_granted := false;
              TrackingContext.position := Some Samples.loc_start;
              TrackingContext.watch_ok := true;
              TrackingContext.addDoc_ok := true;
              TrackingContext.updateDoc_ok := true;
              TrackingContext.now := 0 |} in
  fst (TrackingContext.startTracking e TrackingContext.initialState
         TrackingContext.initialWorld) = TrackingContext.initialState /\
  TrackingContext.alerts
    (snd (TrackingContext.startTracking e TrackingContext.initialState
            TrackingContext.initialWorld)) = [TrackingContext.alert_error_message].
Proof.
  intros e.
  destruct (X23_context_start_outcomes e TrackingContext.initialState
              TrackingContext.initialWorld eq_refl) as (_ & Hfail & Hsame).
  split.
  - apply Hsame. reflexivity.
  - apply Hfail. reflexivity.
Defined.

(** X24. In the service, a start whose permission or whose location task
    is refused changes nothing.  A start whose position fix fails after
    the location task has started returns an error but leaves the service
    tracking, with an empty history and a cache it has not written; if the
    cache holds no session id, no later [stopTracking] can succeed. *)
Theorem X24_service_start_failures :
  forall (e e' : TrackingService.Env) (userId : nat)
         (d0 : TrackingService.TrackingData) (w0 : TrackingService.World),
    let r := fst (fst (TrackingService.startTracking e userId d0 w0)) in
    let d1 := snd (fst (TrackingService.startTracking e userId d0 w0)) in
    let w1 := snd (TrackingService.startTracking e userId d0 w0) in
    ((TrackingService.permission_granted e && TrackingService.startUpdates_ok e)%bool
       = false ->
     d1 = d0 /\ w1 = w0 /\ r <> TrackingService.Success (TrackingService.fresh_id e)) /\
    ((TrackingService.permission_granted e && TrackingService.startUpdates_ok e)%bool
       = true ->
     TrackingService.position e = None ->
     r = TrackingService.Failure TrackingService.Thrown /\
     TrackingService.isTracking d1 = true /\
     TrackingService.locationHistory d1 = [] /\
     TrackingService.storage w1 = TrackingService.storage w0 /\
     TrackingService.updates_running w1 = true /\
     (TrackingService.current_tracking_id (TrackingService.storage w0) = None ->
      fst (fst (TrackingService.stopTracking e' userId d1 w1)) =
      TrackingService.Failure TrackingService.Thrown)).
Proof.
  intros e e' userId d0 w0. cbv zeta. unfold TrackingService.startTracking.
  destruct (TrackingService.permission_granted e); cbn [negb andb].
  - destruct (TrackingService.startUpdates_ok e); cbn [negb].
    + split; [discriminate |]. intros _ Hpos. rewrite Hpos. cbn.
      repeat split. intros Hid.
      unfold TrackingService.stopTracking. cbn. rewrite Hid.
      destruct (TrackingService.stopUpdates_ok e'); reflexivity.
    + split; [| discriminate]. intros _. cbn. repeat split. discriminate.
  - split; [| discriminate]. intros _. cbn. repeat split. discriminate.
Qed.

Lemma X24_start_without_fix_example :
  let e := {| TrackingService.permission_granted := true;
              TrackingService.startUpdates_ok := true;
              TrackingService.stopUpdates_ok := true;
              TrackingService.position := None;
              TrackingService.set_ok := true;
              TrackingService.transaction_ok := true;
              TrackingService.fresh_id := 7;
              TrackingService.now := 0 |} in
  let '(r, d1, w1) :=
    TrackingService.startTracking e 1 TrackingService.initialData
      Samples.service_world in
  r = TrackingService.Failure TrackingService.Thrown /\
  TrackingService.isTracking d1 = true /\
  fst (fst (TrackingService.stopTracking Samples.service_env 1 d1 w1)) =
  TrackingService.Failure TrackingService.Thrown.
Proof.
  intros e.
  destruct (X24_service_start_failures e Samples.service_env 1
              TrackingService.initialData Samples.service_world)
    as (_ & H).
  destruct (H eq_refl eq_refl) as (Hr & Ht & _ & _ & _ & Hstop).
  specialize (Hstop eq_refl).
  destruct (TrackingService.startTracking e 1 TrackingService.initialData
              Samples.service_world) as [[r d1] w1].
  cbn [fst snd] in *. auto.
Defined.
